(** * B2B marketing attribution engine: a shallow embedding

    The engine ([b2b_attribution_engine.py]) and its service facade
    ([attribution_service.py]) are embedded as Rocq functions.

    Numbers.  Python [float] values are idealised as real numbers ([R]),
    with every expression kept in the order of operations of the source.
    Rounding is outside the model, so the properties below are the ones
    that do not depend on it: formulas in the source's order of operations,
    bounds with room to spare, sums within a tolerance, and the structure
    of the results.  The underflow of [math.exp] to [0.0], which the
    guard [total_weight > 0] of the time-decay model is there for, is
    modelled by [math_exp].  Overflow is kept out by hypotheses that bound
    the inputs ([in_range_lead], [in_range_opportunity]).  Python [int]
    fields (scores, counts, cycle days) are [Z] and enter real arithmetic
    through [IZR].  A division whose divisor the source does not guard is
    modelled by [pydiv], which raises [ZeroDivisionError]; a division under
    a guard or by a non-zero literal is the plain [/] of [R].

    Dictionaries.  A Python [dict] keeps its keys in insertion order and
    the engine iterates and sorts them, so a dictionary is an association
    list with unique keys: [d[k] = v] overwrites in place or appends. *)

From Stdlib Require Import Reals Lra Lia ZArith List String Bool.
From Stdlib Require Import Permutation Sorted.
Import ListNotations.
Open Scope R_scope.

(** ** Exceptions and results *)

Inductive exn : Type :=
| ZeroDivisionError
| StorageError (msg : string)
| WriterError (msg : string).

Inductive result (A : Type) : Type :=
| Ok (a : A)
| Raise (e : exn).

Arguments Ok {A} a.
Arguments Raise {A} e.

Definition result_map {A B} (f : A -> B) (r : result A) : result B :=
  match r with
  | Ok a => Ok (f a)
  | Raise e => Raise e
  end.

Definition result_bind {A B} (r : result A) (k : A -> result B) : result B :=
  match r with
  | Ok a => k a
  | Raise e => Raise e
  end.

(** [a / b] in Python on floats: raises when the divisor is zero. *)
Definition pydiv (a b : R) : result R :=
  if Req_dec_T b 0 then Raise ZeroDivisionError else Ok (a / b).

(** Built-in [sum]: a left fold that starts from [0]. *)
Definition pysum (l : list R) : R := fold_left Rplus l 0.

(** ** Python dictionaries with string keys *)

Module PyDict.

Section Dict.
Context {V : Type}.

Definition t := list (string * V).

Definition empty : t := [].

Fixpoint get (d : t) (k : string) : option V :=
  match d with
  | [] => None
  | (k', v) :: r => if String.eqb k' k then Some v else get r k
  end.

(** [d.get(k, dflt)] *)
Definition get_or (d : t) (k : string) (dflt : V) : V :=
  match get d k with
  | Some v => v
  | None => dflt
  end.

(** [d[k] = v] *)
Fixpoint set (d : t) (k : string) (v : V) : t :=
  match d with
  | [] => [(k, v)]
  | (k', v') :: r =>
      if String.eqb k' k then (k', v) :: r else (k', v') :: set r k v
  end.

Definition keys (d : t) : list string := map fst d.
Definition values (d : t) : list V := map snd d.
Definition items (d : t) : list (string * V) := d.
Definition mem (d : t) (k : string) : bool :=
  match get d k with Some _ => true | None => false end.

(** The loop [for x in l: d[key(x)] = val(x)]. *)
Definition assign_loop {X : Type} (key : X -> string) (val : X -> V)
    (l : list X) (d0 : t) : t :=
  fold_left (fun d x => set d (key x) (val x)) l d0.

End Dict.

Arguments t : clear implicits.

End PyDict.

Abbreviation dict := PyDict.t.

(** ** Domain model *)

Inductive B2BStageType : Type :=
| AWARENESS | INTEREST | CONSIDERATION | INTENT | EVALUATION | PURCHASE.

Inductive TouchpointType : Type :=
| CONTENT_DOWNLOAD | WEBINAR_ATTENDANCE | DEMO_REQUEST | TRADE_SHOW
| SALES_CALL | EMAIL_ENGAGEMENT | WEBSITE_VISIT | SOCIAL_ENGAGEMENT
| DIRECT_MAIL | REFERRAL.

(** A [datetime] is a count of microseconds; [(a - b).days] is the floor of
    the difference in days, as [timedelta] normalises it. *)
Definition datetime := Z.

Definition timedelta_days (a b : datetime) : Z :=
  ((a - b) / 86400000000)%Z.

Record LeadData : Type := {
  lead_id : string;
  lead_account_id : string;
  lead_score : Z;
  demographic_score : Z;
  behavioral_score : Z;
  firmographic_score : Z;
  lead_created_date : datetime;
  lead_stage : B2BStageType;
  source : string;
  lead_quality_tier : string
}.

Record OpportunityData : Type := {
  opportunity_id : string;
  opp_account_id : string;
  lead_ids : list string;
  opp_stage : string;
  probability : R;
  amount : R;
  created_date : datetime;
  close_date : option datetime;
  sales_cycle_days : Z;
  deal_size_tier : string;
  decision_makers_count : Z;
  influencers_count : Z
}.

Record TouchpointData : Type := {
  touchpoint_id : string;
  tp_lead_id : string;
  account_id : string;
  timestamp : datetime;
  touchpoint_type : TouchpointType;
  channel : string;
  campaign_id : option string;
  content_id : option string;
  engagement_score : R;
  stage_influence : B2BStageType;
  cost : R;
  is_sales_touch : bool;
  is_marketing_touch : bool;
  sales_rep_id : option string
}.

(** ** The attribution engine *)

Definition touchpoint_type_weights (ty : TouchpointType) : R :=
  match ty with
  | DEMO_REQUEST => 1.5
  | SALES_CALL => 1.4
  | WEBINAR_ATTENDANCE => 1.2
  | CONTENT_DOWNLOAD => 1.1
  | TRADE_SHOW => 1.3
  | EMAIL_ENGAGEMENT => 0.8
  | WEBSITE_VISIT => 0.6
  | SOCIAL_ENGAGEMENT => 0.7
  | DIRECT_MAIL => 0.9
  | REFERRAL => 1.6
  end.

Definition stage_progression_weights (s : B2BStageType) : R :=
  match s with
  | AWARENESS => 0.8
  | INTEREST => 1.0
  | CONSIDERATION => 1.2
  | INTENT => 1.4
  | EVALUATION => 1.5
  | PURCHASE => 1.3
  end.

(** [lead_quality_multipliers.get(tier, 1.0)] *)
Definition lead_quality_multipliers (tier : string) : R :=
  if String.eqb tier "A" then 1.5
  else if String.eqb tier "B" then 1.2
  else if String.eqb tier "C" then 1.0
  else if String.eqb tier "D" then 0.7
  else 1.0.

(** The comprehension [[tp for tp in touchpoint_data
    if tp.account_id == opportunity.account_id]]. *)
Definition opp_touchpoints (touchpoint_data : list TouchpointData)
    (opportunity : OpportunityData) : list TouchpointData :=
  filter (fun tp => String.eqb (account_id tp) (opp_account_id opportunity))
         touchpoint_data.

(** *** Time decay *)

Definition half_life_days (opportunity : OpportunityData)
    (avg_sales_cycle_days : Z) : R :=
  let cycle_days :=
    if Z.eqb (sales_cycle_days opportunity) 0 then avg_sales_cycle_days
    else sales_cycle_days opportunity in
  Rmax (IZR cycle_days * 0.3) 14.

Definition conversion_date (opportunity : OpportunityData) : datetime :=
  match close_date opportunity with
  | Some d => d
  | None => created_date opportunity
  end.

(** [math.exp] on a double: the exponential, except that an argument at or
    below [exp_underflow] (the largest double whose exponential rounds to
    zero, just under [ln (2^-1075)]) gives [0.0]. *)
Definition exp_underflow : R := -745.1332191019412.

Definition math_exp (x : R) : R :=
  if Rle_dec x exp_underflow then 0 else exp x.

(** The weight of one touchpoint for one opportunity, before
    normalisation. *)
Definition time_decay_weight (avg_sales_cycle_days : Z)
    (opportunity : OpportunityData) (touchpoint : TouchpointData) : R :=
  let days_to_conversion :=
    Z.max 0 (timedelta_days (conversion_date opportunity)
                            (timestamp touchpoint)) in
  math_exp (- IZR days_to_conversion
            / half_life_days opportunity avg_sales_cycle_days)
  * touchpoint_type_weights (touchpoint_type touchpoint).

(** The inner loop shared by the time-decay and the account-based models:
    it fills [touchpoint_weights] and adds up the total weight. *)
Definition weight_inner (weight_of : TouchpointData -> R)
    (acc : R * dict R) (touchpoint : TouchpointData) : R * dict R :=
  let weight := weight_of touchpoint in
  (fst acc + weight,
   PyDict.set (snd acc) (touchpoint_id touchpoint) weight).

(** The normalising loop over [touchpoint_weights.items()]. *)
Definition assign_normalized (total : R) (amt : R)
    (attribution_weights : dict R) (touchpoint_weights : dict R) : dict R :=
  fold_left
    (fun aw (kv : string * R) =>
       PyDict.set aw (fst kv) ((snd kv / total) * amt))
    (PyDict.items touchpoint_weights) attribution_weights.

(** Both loops for one opportunity with touchpoints [tps]: weigh, then
    normalise under the guard [total > 0]. *)
Definition normalized_assign (weight_of : TouchpointData -> R) (amt : R)
    (tps : list TouchpointData) (attribution_weights : dict R) : dict R :=
  let acc := fold_left (weight_inner weight_of) tps (0, PyDict.empty) in
  if Rlt_dec 0 (fst acc)
  then assign_normalized (fst acc) amt attribution_weights (snd acc)
  else attribution_weights.

(** The body of the loop over the opportunities. *)
Definition time_decay_step (avg : Z) (touchpoint_data : list TouchpointData)
    (attribution_weights : dict R) (opportunity : OpportunityData)
    : dict R :=
  match opp_touchpoints touchpoint_data opportunity with
  | [] => attribution_weights
  | tps =>
      normalized_assign (time_decay_weight avg opportunity)
                        (amount opportunity) tps attribution_weights
  end.

Definition calculate_b2b_time_decay_with (avg_sales_cycle_days : Z)
    (touchpoint_data : list TouchpointData)
    (opportunity_data : list OpportunityData) : dict R :=
  fold_left (time_decay_step avg_sales_cycle_days touchpoint_data)
            opportunity_data PyDict.empty.

(** The call with the default [avg_sales_cycle_days = 180]. *)
Definition calculate_b2b_time_decay
    (touchpoint_data : list TouchpointData)
    (opportunity_data : list OpportunityData) : dict R :=
  calculate_b2b_time_decay_with 180 touchpoint_data opportunity_data.

(** *** Lead quality *)

(** [{lead.lead_id: lead for lead in lead_data}] *)
Definition lead_lookup (lead_data : list LeadData) : dict LeadData :=
  fold_left (fun d lead => PyDict.set d (lead_id lead) lead)
            lead_data PyDict.empty.

Definition lead_quality_weight (lead : LeadData)
    (touchpoint : TouchpointData) : R :=
  let base_weight := engagement_score touchpoint / 100 in
  let quality_multiplier :=
    lead_quality_multipliers (lead_quality_tier lead) in
  let score_multiplier := Rmin (IZR (lead_score lead) / 100) 2 in
  let demo_bonus := 1 + IZR (demographic_score lead) / 1000 in
  let firmo_bonus := 1 + IZR (firmographic_score lead) / 1000 in
  base_weight * quality_multiplier * score_multiplier
  * demo_bonus * firmo_bonus.

Definition calculate_lead_quality_impact (lead_data : list LeadData)
    (touchpoint_data : list TouchpointData) : dict R :=
  let lookup := lead_lookup lead_data in
  fold_left
    (fun aw touchpoint =>
       match PyDict.get lookup (tp_lead_id touchpoint) with
       | None => aw
       | Some lead =>
           PyDict.set aw (touchpoint_id touchpoint)
                      (lead_quality_weight lead touchpoint)
       end)
    touchpoint_data PyDict.empty.

(** *** Account-level attribution *)

Definition _calculate_account_complexity (opportunity : OpportunityData)
    : R :=
  let c0 := 1 in
  let c1 :=
    if String.eqb (deal_size_tier opportunity) "enterprise" then c0 + 0.3
    else if String.eqb (deal_size_tier opportunity) "mid-market"
         then c0 + 0.15
         else c0 in
  let total_stakeholders :=
    (decision_makers_count opportunity + influencers_count opportunity)%Z in
  let c2 :=
    if (5 <? total_stakeholders)%Z then c1 + 0.2
    else if (3 <? total_stakeholders)%Z then c1 + 0.1
         else c1 in
  if (365 <? sales_cycle_days opportunity)%Z then c2 + 0.25
  else if (180 <? sales_cycle_days opportunity)%Z then c2 + 0.15
       else c2.

Definition _get_deal_size_multiplier (tier : string) : R :=
  if String.eqb tier "enterprise" then 1.4
  else if String.eqb tier "mid-market" then 1.2
  else if String.eqb tier "smb" then 1.0
  else 1.0.

Definition _get_expected_cycle_days (tier : string) : Z :=
  if String.eqb tier "enterprise" then 270
  else if String.eqb tier "mid-market" then 150
  else if String.eqb tier "smb" then 60
  else 180.

(** The grouping loop: [account_touchpoints[account_id].append(tp)]. *)
Definition group_by_account (touchpoint_data : list TouchpointData)
    : dict (list TouchpointData) :=
  fold_left
    (fun groups touchpoint =>
       let a := account_id touchpoint in
       let groups' :=
         if PyDict.mem groups a then groups else PyDict.set groups a [] in
       PyDict.set groups' a (PyDict.get_or groups' a [] ++ [touchpoint]))
    touchpoint_data PyDict.empty.

Definition account_weight (opportunity : OpportunityData)
    (touchpoint : TouchpointData) : R :=
  let complexity_multiplier := _calculate_account_complexity opportunity in
  let committee_size :=
    (decision_makers_count opportunity + influencers_count opportunity)%Z in
  let committee_factor := 1 + IZR committee_size * 0.1 in
  let deal_size_multiplier :=
    _get_deal_size_multiplier (deal_size_tier opportunity) in
  let base_weight0 :=
    touchpoint_type_weights (touchpoint_type touchpoint)
    * (engagement_score touchpoint / 100) in
  let base_weight :=
    if is_sales_touch touchpoint then base_weight0 * 1.3
    else if is_marketing_touch touchpoint then base_weight0 * 1.0
         else base_weight0 in
  base_weight * complexity_multiplier * committee_factor
  * deal_size_multiplier.

Definition account_step (groups : dict (list TouchpointData))
    (attribution_weights : dict R) (opportunity : OpportunityData)
    : dict R :=
  match PyDict.get_or groups (opp_account_id opportunity) [] with
  | [] => attribution_weights
  | tps =>
      normalized_assign (account_weight opportunity)
                        (amount opportunity) tps attribution_weights
  end.

Definition calculate_account_level_attribution
    (opportunity_data : list OpportunityData)
    (touchpoint_data : list TouchpointData) : dict R :=
  fold_left (account_step (group_by_account touchpoint_data))
            opportunity_data PyDict.empty.

(** *** Stage progression *)

Definition stage_weight_of (touchpoint : TouchpointData) : R :=
  let base_weight := engagement_score touchpoint / 100 in
  let stage_weight :=
    stage_progression_weights (stage_influence touchpoint) in
  let type_weight := touchpoint_type_weights (touchpoint_type touchpoint) in
  base_weight * stage_weight * type_weight.

Definition calculate_stage_progression_attribution
    (touchpoint_data : list TouchpointData) : dict R :=
  fold_left
    (fun aw touchpoint =>
       PyDict.set aw (touchpoint_id touchpoint) (stage_weight_of touchpoint))
    touchpoint_data PyDict.empty.

(** *** Pipeline velocity *)

Definition velocity_bonus (opportunity : OpportunityData) : R :=
  let actual_cycle := sales_cycle_days opportunity in
  let expected_cycle :=
    _get_expected_cycle_days (deal_size_tier opportunity) in
  if (actual_cycle <? expected_cycle)%Z
  then 1 + (IZR (expected_cycle - actual_cycle) / IZR expected_cycle) * 0.5
  else Rmax 0.5
         (1 - (IZR (actual_cycle - expected_cycle) / IZR expected_cycle)
              * 0.3).

Definition is_high_impact (ty : TouchpointType) : bool :=
  match ty with
  | DEMO_REQUEST | SALES_CALL => true
  | _ => false
  end.

(** What one opportunity writes for one touchpoint of its account. *)
Definition velocity_contribution (opportunity : OpportunityData)
    (touchpoint : TouchpointData) : R :=
  let base_weight := engagement_score touchpoint / 100 in
  let velocity_impact :=
    if is_high_impact (touchpoint_type touchpoint)
    then velocity_bonus opportunity * 1.2
    else velocity_bonus opportunity in
  base_weight * velocity_impact.

Definition velocity_step (touchpoint_data : list TouchpointData)
    (attribution_weights : dict R) (opportunity : OpportunityData)
    : dict R :=
  match opp_touchpoints touchpoint_data opportunity with
  | [] => attribution_weights
  | tps =>
      fold_left
        (fun aw touchpoint =>
           PyDict.set aw (touchpoint_id touchpoint)
                      (velocity_contribution opportunity touchpoint))
        tps attribution_weights
  end.

Definition calculate_pipeline_velocity_impact
    (opportunity_data : list OpportunityData)
    (touchpoint_data : list TouchpointData) : dict R :=
  fold_left (velocity_step touchpoint_data) opportunity_data PyDict.empty.

(** *** Combining the factors *)

Record CombineWeights : Type := {
  w_time : R;
  w_quality : R;
  w_account : R;
  w_stage : R;
  w_velocity : R
}.

Definition default_weights : CombineWeights :=
  {| w_time := 0.25; w_quality := 0.25; w_account := 0.25;
     w_stage := 0.15; w_velocity := 0.10 |}.

(** [set.update(keys)].  A set of strings is kept as a duplicate-free list;
    CPython iterates a set in hash order, which this model replaces by the
    order of first insertion.  The statements about the combined map are
    pointwise, so they do not depend on that order. *)
Definition set_update (s : list string) (ks : list string) : list string :=
  fold_left
    (fun acc k => if existsb (String.eqb k) acc then acc else acc ++ [k])
    ks s.

Definition all_touchpoint_ids (maps : list (dict R)) : list string :=
  fold_left (fun s d => set_update s (PyDict.keys d)) maps [].

Definition combined_score (time_weighted quality_weighted account_based
    stage_weighted velocity_impact : dict R) (weights : CombineWeights)
    (tp_id : string) : R :=
  PyDict.get_or time_weighted tp_id 0 * w_time weights
  + PyDict.get_or quality_weighted tp_id 0 * w_quality weights
  + PyDict.get_or account_based tp_id 0 * w_account weights
  + PyDict.get_or stage_weighted tp_id 0 * w_stage weights
  + PyDict.get_or velocity_impact tp_id 0 * w_velocity weights.

Definition combine_b2b_attribution_factors (time_weighted quality_weighted
    account_based stage_weighted velocity_impact : dict R)
    (weights : option CombineWeights) : dict R :=
  let weights :=
    match weights with
    | None => default_weights
    | Some w => w
    end in
  let ids :=
    all_touchpoint_ids [time_weighted; quality_weighted; account_based;
                        stage_weighted; velocity_impact] in
  fold_left
    (fun combined tp_id =>
       PyDict.set combined tp_id
         (combined_score time_weighted quality_weighted account_based
                         stage_weighted velocity_impact weights tp_id))
    ids PyDict.empty.

(** *** Summary *)

(** [sorted(items, key=lambda x: x[1], reverse=True)]: Python's sort is
    stable, also under [reverse=True], and a stable sort has one possible
    result; insertion from the right computes it. *)
Fixpoint insert_desc (x : string * R) (l : list (string * R))
    : list (string * R) :=
  match l with
  | [] => [x]
  | y :: r =>
      if Rlt_dec (snd x) (snd y) then y :: insert_desc x r else x :: l
  end.

Definition sorted_desc (l : list (string * R)) : list (string * R) :=
  fold_right insert_desc [] l.

Record TopTouchpoint : Type := {
  top_touchpoint_id : string;
  attribution_value : R;
  percentage : R
}.

Record AttributionSummary : Type := {
  total_attribution_value : R;
  summary_touchpoint_count : nat;
  average_attribution_per_touchpoint : R;
  top_contributing_touchpoints : list TopTouchpoint;
  top_20_percent : R;
  bottom_20_percent : R
}.

(** The list comprehension that builds the top entries; the first failing
    division aborts it. *)
Fixpoint top_entries (total : R) (l : list (string * R))
    : result (list TopTouchpoint) :=
  match l with
  | [] => Ok []
  | (tp_id, value) :: r =>
      result_bind (pydiv value total) (fun q =>
      result_bind (top_entries total r) (fun rest =>
      Ok ({| top_touchpoint_id := tp_id;
             attribution_value := value;
             percentage := q * 100 |} :: rest)))
  end.

(** [dict(pairs)] *)
Definition dict_of_pairs (l : list (string * R)) : dict R :=
  fold_left (fun d kv => PyDict.set d (fst kv) (snd kv)) l PyDict.empty.

(** [l[-k:]] for [1 <= k] *)
Definition last_n {A} (k : nat) (l : list A) : list A :=
  skipn (List.length l - k) l.

Definition sorted_touchpoints (attribution_results : dict R)
    : list (string * R) :=
  sorted_desc (PyDict.items attribution_results).

Definition top_touchpoints (attribution_results : dict R)
    : list (string * R) :=
  firstn 5 (sorted_touchpoints attribution_results).

(** [None] stands for the empty dictionary the source returns for an empty
    input. *)
Definition generate_attribution_summary (attribution_results : dict R)
    : result (option AttributionSummary) :=
  match attribution_results with
  | [] => Ok None
  | _ =>
      let total_attribution := pysum (PyDict.values attribution_results) in
      let touchpoint_count := List.length attribution_results in
      let sorted := sorted_touchpoints attribution_results in
      let k := Nat.max 1 (touchpoint_count / 5) in
      result_bind (top_entries total_attribution (firstn 5 sorted))
        (fun tops =>
           Ok (Some
             {| total_attribution_value := total_attribution;
                summary_touchpoint_count := touchpoint_count;
                average_attribution_per_touchpoint :=
                  if (0 <? touchpoint_count)%nat
                  then total_attribution / INR touchpoint_count
                  else 0;
                top_contributing_touchpoints := tops;
                top_20_percent :=
                  pysum (PyDict.values (dict_of_pairs (firstn k sorted)));
                bottom_20_percent :=
                  pysum (PyDict.values (dict_of_pairs (last_n k sorted)))
             |}))
  end.

(** *** The master model *)

Record B2BResults : Type := {
  time_weighted_attribution : dict R;
  quality_weighted_attribution : dict R;
  account_based_attribution : dict R;
  stage_progression_attribution : dict R;
  pipeline_velocity_attribution : dict R;
  combined_b2b_attribution : dict R;
  attribution_summary : option AttributionSummary
}.

(** The combined map the master model computes: it calls the combiner
    without a [weights] argument. *)
Definition combined_of (lead_data : list LeadData)
    (opportunity_data : list OpportunityData)
    (touchpoint_data : list TouchpointData) : dict R :=
  combine_b2b_attribution_factors
    (calculate_b2b_time_decay touchpoint_data opportunity_data)
    (calculate_lead_quality_impact lead_data touchpoint_data)
    (calculate_account_level_attribution opportunity_data touchpoint_data)
    (calculate_stage_progression_attribution touchpoint_data)
    (calculate_pipeline_velocity_impact opportunity_data touchpoint_data)
    None.

(** The engine opens with a call of its own logger ([LoggerMixin] gives
    every class a logger under its own name).  That entry has no bearing
    on the result and is not part of the state of the facade below, whose
    [log] holds the entries of the facade's logger only. *)
Definition b2b_specific_attribution (lead_data : list LeadData)
    (opportunity_data : list OpportunityData)
    (touchpoint_data : list TouchpointData) : result B2BResults :=
  let time_weighted :=
    calculate_b2b_time_decay touchpoint_data opportunity_data in
  let quality_weighted :=
    calculate_lead_quality_impact lead_data touchpoint_data in
  let account_based :=
    calculate_account_level_attribution opportunity_data touchpoint_data in
  let stage_weighted :=
    calculate_stage_progression_attribution touchpoint_data in
  let velocity_impact :=
    calculate_pipeline_velocity_impact opportunity_data touchpoint_data in
  let combined_attribution :=
    combine_b2b_attribution_factors time_weighted quality_weighted
      account_based stage_weighted velocity_impact None in
  result_bind (generate_attribution_summary combined_attribution)
    (fun summary =>
       Ok {| time_weighted_attribution := time_weighted;
             quality_weighted_attribution := quality_weighted;
             account_based_attribution := account_based;
             stage_progression_attribution := stage_weighted;
             pipeline_velocity_attribution := velocity_impact;
             combined_b2b_attribution := combined_attribution;
             attribution_summary := summary |}).

(** ** The analyzer *)

(** [{tp.touchpoint_id: tp for tp in touchpoint_data}] *)
Definition touchpoint_lookup (touchpoint_data : list TouchpointData)
    : dict TouchpointData :=
  fold_left (fun d tp => PyDict.set d (touchpoint_id tp) tp)
            touchpoint_data PyDict.empty.

(** [float('inf')] is the one non-real value the analyzer produces. *)
Inductive xreal : Type :=
| Finite (r : R)
| PosInf.

Definition TouchpointType_eqb (a b : TouchpointType) : bool :=
  match a, b with
  | CONTENT_DOWNLOAD, CONTENT_DOWNLOAD
  | WEBINAR_ATTENDANCE, WEBINAR_ATTENDANCE
  | DEMO_REQUEST, DEMO_REQUEST
  | TRADE_SHOW, TRADE_SHOW
  | SALES_CALL, SALES_CALL
  | EMAIL_ENGAGEMENT, EMAIL_ENGAGEMENT
  | WEBSITE_VISIT, WEBSITE_VISIT
  | SOCIAL_ENGAGEMENT, SOCIAL_ENGAGEMENT
  | DIRECT_MAIL, DIRECT_MAIL
  | REFERRAL, REFERRAL => true
  | _, _ => false
  end.

(** The per-channel accumulator of the first loop; the set of type values
    is a duplicate-free list. *)
Record ChannelTotals : Type := {
  total_attribution : R;
  touchpoint_count : nat;
  total_cost : R;
  touchpoint_types : list TouchpointType
}.

Definition new_channel : ChannelTotals :=
  {| total_attribution := 0; touchpoint_count := 0; total_cost := 0;
     touchpoint_types := [] |}.

Definition set_add_type (ty : TouchpointType) (s : list TouchpointType)
    : list TouchpointType :=
  if existsb (TouchpointType_eqb ty) s then s else s ++ [ty].

Definition channel_accumulate (lookup : dict TouchpointData)
    (channel_performance : dict ChannelTotals) (kv : string * R)
    : dict ChannelTotals :=
  match PyDict.get lookup (fst kv) with
  | None => channel_performance
  | Some touchpoint =>
      let c := channel touchpoint in
      let m := PyDict.get_or channel_performance c new_channel in
      PyDict.set channel_performance c
        {| total_attribution := total_attribution m + snd kv;
           touchpoint_count := S (touchpoint_count m);
           total_cost := total_cost m + cost touchpoint;
           touchpoint_types :=
             set_add_type (touchpoint_type touchpoint)
                          (touchpoint_types m) |}
  end.

Definition channel_totals (attribution_results : dict R)
    (touchpoint_data : list TouchpointData) : dict ChannelTotals :=
  fold_left (channel_accumulate (touchpoint_lookup touchpoint_data))
            (PyDict.items attribution_results) PyDict.empty.

Record ChannelMetrics : Type := {
  totals : ChannelTotals;
  roi : xreal;
  cost_per_attribution : R
}.

(** The body of the second loop, for one channel: the cost guard decides
    both metrics, and the division by [total_attribution] is not guarded. *)
Definition channel_metrics (m : ChannelTotals) : result ChannelMetrics :=
  if Rlt_dec 0 (total_cost m)
  then
    let r := (total_attribution m - total_cost m) / total_cost m in
    result_bind (pydiv (total_cost m) (total_attribution m)) (fun cpa =>
      Ok {| totals := m; roi := Finite r; cost_per_attribution := cpa |})
  else
    Ok {| totals := m;
          roi := if Rlt_dec 0 (total_attribution m) then PosInf
                 else Finite 0;
          cost_per_attribution := 0 |}.

Fixpoint finish_channels (l : list (string * ChannelTotals))
    : result (dict ChannelMetrics) :=
  match l with
  | [] => Ok []
  | (c, m) :: r =>
      result_bind (channel_metrics m) (fun cm =>
      result_bind (finish_channels r) (fun rest =>
      Ok ((c, cm) :: rest)))
  end.

Definition analyze_channel_performance (attribution_results : dict R)
    (touchpoint_data : list TouchpointData)
    : result (dict ChannelMetrics) :=
  finish_channels
    (PyDict.items (channel_totals attribution_results touchpoint_data)).

(** *** Sales and marketing alignment *)

Definition _calculate_alignment_score (sales_attr marketing_attr
    joint_attr : R) : R :=
  let total_attr := sales_attr + marketing_attr + joint_attr in
  if Req_dec_T total_attr 0 then 0
  else
    let marketing_pct := (marketing_attr / total_attr) * 100 in
    let sales_pct := (sales_attr / total_attr) * 100 in
    let joint_pct := (joint_attr / total_attr) * 100 in
    let marketing_deviation := Rabs (marketing_pct - 40) in
    let sales_deviation := Rabs (sales_pct - 40) in
    let joint_deviation := Rabs (joint_pct - 20) in
    let total_deviation :=
      marketing_deviation + sales_deviation + joint_deviation in
    Rmax 0 (100 - total_deviation).

(** The three running totals of the alignment loop. *)
Record Split : Type := {
  split_sales : R;
  split_marketing : R;
  split_joint : R
}.

Definition alignment_accumulate (lookup : dict TouchpointData)
    (acc : Split) (kv : string * R) : Split :=
  match PyDict.get lookup (fst kv) with
  | None => acc
  | Some touchpoint =>
      if is_sales_touch touchpoint && is_marketing_touch touchpoint
      then {| split_sales := split_sales acc;
              split_marketing := split_marketing acc;
              split_joint := split_joint acc + snd kv |}
      else if is_sales_touch touchpoint
      then {| split_sales := split_sales acc + snd kv;
              split_marketing := split_marketing acc;
              split_joint := split_joint acc |}
      else if is_marketing_touch touchpoint
      then {| split_sales := split_sales acc;
              split_marketing := split_marketing acc + snd kv;
              split_joint := split_joint acc |}
      else acc
  end.

Definition alignment_split (attribution_results : dict R)
    (touchpoint_data : list TouchpointData) : Split :=
  fold_left (alignment_accumulate (touchpoint_lookup touchpoint_data))
            (PyDict.items attribution_results)
            {| split_sales := 0; split_marketing := 0; split_joint := 0 |}.

Record AlignmentAnalysis : Type := {
  sales_attribution : R;
  marketing_attribution : R;
  joint_attribution : R;
  sales_percentage : R;
  marketing_percentage : R;
  joint_percentage : R;
  alignment_score : R
}.

Definition analyze_sales_marketing_alignment (attribution_results : dict R)
    (touchpoint_data : list TouchpointData) : AlignmentAnalysis :=
  let sp := alignment_split attribution_results touchpoint_data in
  let total_attribution :=
    split_sales sp + split_marketing sp + split_joint sp in
  let pct x :=
    if Rlt_dec 0 total_attribution then x / total_attribution * 100
    else 0 in
  {| sales_attribution := split_sales sp;
     marketing_attribution := split_marketing sp;
     joint_attribution := split_joint sp;
     sales_percentage := pct (split_sales sp);
     marketing_percentage := pct (split_marketing sp);
     joint_percentage := pct (split_joint sp);
     alignment_score :=
       _calculate_alignment_score (split_sales sp) (split_marketing sp)
                                  (split_joint sp) |}.

(** ** The service facade *)

Definition _get_alignment_grade (score : R) : string :=
  if Rle_dec 90 score then "A+"
  else if Rle_dec 80 score then "A"
  else if Rle_dec 70 score then "B"
  else if Rle_dec 60 score then "C"
  else if Rle_dec 50 score then "D"
  else "F".

Record Metadata : Type := {
  leads_analyzed : nat;
  opportunities_analyzed : nat;
  touchpoints_analyzed : nat;
  analysis_date : datetime;
  attribution_weights : option (dict R)
}.

Record ComprehensiveResults : Type := {
  engine_results : B2BResults;
  channel_performance : dict ChannelMetrics;
  sales_marketing_alignment : AlignmentAnalysis;
  metadata : Metadata
}.

(** The row handed to the writer. *)
Record AttributionResult : Type := {
  model_name : string;
  results : ComprehensiveResults;
  created_at : datetime;
  meta_account_ids : option (list string);
  meta_model_type : string
}.

Inductive LogLevel : Type := INFO | ERROR.

(** What the facade can change: the session's pending and committed rows
    and its own log, the entries written through the logger of the
    service class. *)
Record World : Type := {
  pending : list AttributionResult;
  committed : list AttributionResult;
  log : list (LogLevel * string)
}.

(** The collaborators: the loaded records (or the failure of the load),
    the outcome of [commit], and the clock. *)
Record Env : Type := {
  env_load : option (list string) -> option datetime -> option datetime ->
             result (list LeadData * list OpportunityData
                     * list TouchpointData);
  env_commit : option exn;
  env_analysis_time : datetime;
  env_store_time : datetime
}.

Definition exn_str (e : exn) : string :=
  match e with
  | ZeroDivisionError => "float division by zero"
  | StorageError msg => msg
  | WriterError msg => msg
  end.

(** A state and exception monad for the facade. *)
Definition M (A : Type) : Type := World -> result A * World.

Definition ret {A} (a : A) : M A := fun w => (Ok a, w).

Definition raise {A} (e : exn) : M A := fun w => (Raise e, w).

Definition bind {A B} (m : M A) (k : A -> M B) : M B :=
  fun w =>
    match m w with
    | (Ok a, w') => k a w'
    | (Raise e, w') => (Raise e, w')
    end.

Definition try_except {A} (body : M A) (handler : exn -> M A) : M A :=
  fun w =>
    match body w with
    | (Ok a, w') => (Ok a, w')
    | (Raise e, w') => handler e w'
    end.

Definition lift {A} (r : result A) : M A := fun w => (r, w).

Definition log_msg (lvl : LogLevel) (msg : string) : M unit :=
  fun w =>
    (Ok tt, {| pending := pending w; committed := committed w;
               log := log w ++ [(lvl, msg)] |}).

Definition session_add (row : AttributionResult) : M unit :=
  fun w =>
    (Ok tt, {| pending := pending w ++ [row]; committed := committed w;
               log := log w |}).

Definition session_commit (env : Env) : M unit :=
  fun w =>
    match env_commit env with
    | Some e => (Raise e, w)
    | None =>
        (Ok tt, {| pending := []; committed := committed w ++ pending w;
                   log := log w |})
    end.

Definition session_rollback : M unit :=
  fun w =>
    (Ok tt, {| pending := []; committed := committed w; log := log w |}).

Notation "x <- m ;; k" := (bind m (fun x => k))
  (at level 61, m at next level, right associativity).
Notation "m ;; k" := (bind m (fun _ => k))
  (at level 61, right associativity).

Definition _store_attribution_results (env : Env)
    (res : ComprehensiveResults) (account_ids : option (list string))
    : M unit :=
  try_except
    (let attribution_result :=
       {| model_name := "B2B_Marketing_Attribution";
          results := res;
          created_at := env_store_time env;
          meta_account_ids := account_ids;
          meta_model_type := "b2b_comprehensive" |} in
     session_add attribution_result ;;
     session_commit env ;;
     log_msg INFO "Attribution results stored successfully")
    (fun e =>
       log_msg ERROR ("Error storing attribution results: " ++ exn_str e) ;;
       session_rollback ;;
       raise e).

Definition calculate_b2b_attribution (env : Env)
    (account_ids : option (list string))
    (date_from date_to : option datetime)
    (attribution_weights : option (dict R)) : M ComprehensiveResults :=
  log_msg INFO "Starting B2B attribution calculation" ;;
  try_except
    (loaded <- lift (env_load env account_ids date_from date_to) ;;
     let lead_data := fst (fst loaded) in
     let opportunity_data := snd (fst loaded) in
     let touchpoint_data := snd loaded in
     attribution_results <-
       lift (b2b_specific_attribution lead_data opportunity_data
                                      touchpoint_data) ;;
     channel_analysis <-
       lift (analyze_channel_performance
               (combined_b2b_attribution attribution_results)
               touchpoint_data) ;;
     let alignment_analysis :=
       analyze_sales_marketing_alignment
         (combined_b2b_attribution attribution_results) touchpoint_data in
     let comprehensive_results :=
       {| engine_results := attribution_results;
          channel_performance := channel_analysis;
          sales_marketing_alignment := alignment_analysis;
          metadata :=
            {| leads_analyzed := List.length lead_data;
               opportunities_analyzed := List.length opportunity_data;
               touchpoints_analyzed := List.length touchpoint_data;
               analysis_date := env_analysis_time env;
               attribution_weights := attribution_weights |} |} in
     _store_attribution_results env comprehensive_results account_ids ;;
     log_msg INFO "B2B attribution calculation completed successfully" ;;
     ret comprehensive_results)
    (fun e =>
       log_msg ERROR
         ("Error in B2B attribution calculation: " ++ exn_str e) ;;
       raise e).

(** ** Vocabulary of the properties *)

(** Every value of a map is non-negative. *)
Definition nonneg_values (d : dict R) : Prop :=
  Forall (fun kv : string * R => 0 <= snd kv) d.



(** [total_weight] of the time-decay model for one opportunity, added up
    in the order of its touchpoints. *)
Definition total_weight (touchpoint_data : list TouchpointData)
    (opportunity : OpportunityData) : R :=
  pysum (map (time_decay_weight 180 opportunity)
             (opp_touchpoints touchpoint_data opportunity)).


(** Records for the concrete runs. *)
Definition sample_touchpoint (id acct chan : string) (ty : TouchpointType)
    (engagement c : R) (sales marketing : bool) : TouchpointData :=
  {| touchpoint_id := id; tp_lead_id := "lead_1"%string; account_id := acct;
     timestamp := 0%Z; touchpoint_type := ty; channel := chan;
     campaign_id := None; content_id := None;
     engagement_score := engagement; stage_influence := AWARENESS;
     cost := c; is_sales_touch := sales; is_marketing_touch := marketing;
     sales_rep_id := None |}.

Definition sample_opportunity (id acct : string) (amt : R) (cycle : Z)
    (tier : string) : OpportunityData :=
  {| opportunity_id := id; opp_account_id := acct; lead_ids := ["lead_1"%string];
     opp_stage := "Closed Won"%string; probability := 1; amount := amt;
     created_date := 0%Z; close_date := Some 0%Z;
     sales_cycle_days := cycle; deal_size_tier := tier;
     decision_makers_count := 1; influencers_count := 0 |}.

Definition tp_T : TouchpointData :=
  sample_touchpoint "T" "acct" "web" CONTENT_DOWNLOAD 50 0 false true.

Definition opp_1000 : OpportunityData :=
  sample_opportunity "O1" "acct" 1000 60 "smb".

Definition opp_500 : OpportunityData :=
  sample_opportunity "O2" "acct" 500 60 "smb".

(** A content download ten days before the close date of the sample
    opportunities, and one 11000 days before it. *)
Definition tp_before (id : string) (days : Z) : TouchpointData :=
  {| touchpoint_id := id; tp_lead_id := "lead_1"%string;
     account_id := "acct"%string;
     timestamp := (- days * 86400000000)%Z;
     touchpoint_type := CONTENT_DOWNLOAD; channel := "web"%string;
     campaign_id := None; content_id := None;
     engagement_score := 50; stage_influence := AWARENESS;
     cost := 0; is_sales_touch := false; is_marketing_touch := true;
     sales_rep_id := None |}.

Definition tp_early : TouchpointData := tp_before "E" 10.




(** An e-mail touchpoint that cost 10 and engaged nobody. *)
Definition tp_costly : TouchpointData :=
  sample_touchpoint "T" "acct" "email" EMAIL_ENGAGEMENT 0 10 false true.








(** What the alignment analysis attributes in total. *)
Definition alignment_mass (a : AlignmentAnalysis) : R :=
  sales_attribution a + marketing_attribution a + joint_attribution a.

(** The entry holds the value [v]. *)
Definition has_value (v : R) (kv : string * R) : bool :=
  if Req_dec_T (snd kv) v then true else false.

(** Values do not increase along the list. *)
Definition descending (l : list (string * R)) : Prop :=
  StronglySorted (fun a b : string * R => snd b <= snd a) l.

(** Two touchpoints of equal value, the later id inserted first. *)
Definition tie_map : dict R := [("b"%string, 1); ("a"%string, 1)].

(** The id and value of a top entry. *)
Definition top_pair (e : TopTouchpoint) : string * R :=
  (top_touchpoint_id e, attribution_value e).

(** The preconditions of the data model on the input records. *)
Definition valid_lead (l : LeadData) : Prop :=
  (0 <= lead_score l)%Z /\ (0 <= demographic_score l)%Z
  /\ (0 <= behavioral_score l)%Z /\ (0 <= firmographic_score l)%Z.

Definition valid_opportunity (o : OpportunityData) : Prop :=
  0 <= amount o /\ (0 <= decision_makers_count o)%Z
  /\ (0 <= influencers_count o)%Z.

Definition valid_touchpoint (t : TouchpointData) : Prop :=
  0 <= engagement_score t <= 100 /\ 0 <= cost t.

(** The largest finite double, (2^53 - 1) * 2^971, and the values a double
    can hold without overflowing to [inf]. *)
Definition max_double : R := IZR ((2 ^ 53 - 1) * 2 ^ 971).

Definition finite_double (v : R) : Prop := Rabs v <= max_double.

(** Every value of a map is finite and non-negative. *)
Definition finite_nonneg_values (d : dict R) : Prop :=
  Forall (fun kv : string * R => finite_double (snd kv) /\ 0 <= snd kv) d.

(** Every value of a map lies between 0 and [B]. *)
Definition bounded_values (B : R) (d : dict R) : Prop :=
  Forall (fun kv : string * R => 0 <= snd kv <= B) d.

(** The ranges of the data model: scores are integers from 0 to 100;
    counts and cycle days are non-negative integers of at most 64 bits;
    the amount is a non-negative finite double. *)
Definition int_bound : Z := 2 ^ 63 - 1.

Definition in_range_lead (l : LeadData) : Prop :=
  (0 <= lead_score l <= 100)%Z /\ (0 <= demographic_score l <= 100)%Z
  /\ (0 <= behavioral_score l <= 100)%Z
  /\ (0 <= firmographic_score l <= 100)%Z.

Definition in_range_opportunity (o : OpportunityData) : Prop :=
  0 <= amount o <= max_double
  /\ (0 <= decision_makers_count o <= int_bound)%Z
  /\ (0 <= influencers_count o <= int_bound)%Z
  /\ (0 <= sales_cycle_days o <= int_bound)%Z.

(** A lead of tier A with the given scores. *)
Definition sample_lead (id : string) (score demographic firmographic : Z)
    : LeadData :=
  {| lead_id := id; lead_account_id := "acct"%string;
     lead_score := score; demographic_score := demographic;
     behavioral_score := 50; firmographic_score := firmographic;
     lead_created_date := 0%Z; lead_stage := INTEREST;
     source := "web"%string; lead_quality_tier := "A"%string |}.

(** A lead whose demographic and firmographic scores are 10^200. *)
Definition lead_huge : LeadData :=
  sample_lead "lead_1" 100 (10 ^ 200) (10 ^ 200).

Definition lead_good : LeadData := sample_lead "lead_1" 80 60 70.

(** Everything of a result document but its metadata block. *)
Definition computed_outputs (c : ComprehensiveResults)
    : B2BResults * dict ChannelMetrics * AlignmentAnalysis :=
  (engine_results c, channel_performance c, sales_marketing_alignment c).

Definition empty_world : World :=
  {| pending := []; committed := []; log := [] |}.

(** Collaborators that load no records; the writer fails or succeeds. *)
Definition env_with_commit (outcome : option exn) : Env :=
  {| env_load := fun _ _ _ => Ok ([], [], []);
     env_commit := outcome;
     env_analysis_time := 0%Z;
     env_store_time := 0%Z |}.

Definition failing_writer_env : Env :=
  env_with_commit (Some (WriterError "disk full")).

(** A web visit with engagement 50 and no cost. *)
Definition tp_web : TouchpointData :=
  sample_touchpoint "W" "acct" "web" WEBSITE_VISIT 50 0 false true.

(** Collaborators that load the two touchpoints above, no leads and no
    opportunities. *)
Definition two_touchpoints_env : Env :=
  {| env_load := fun _ _ _ => Ok ([], [], [tp_costly; tp_web]);
     env_commit := None;
     env_analysis_time := 0%Z;
     env_store_time := 0%Z |}.


(** The weight vector that selects the time-weighted factor alone. *)
Definition time_only_weights : CombineWeights :=
  {| w_time := 1; w_quality := 0; w_account := 0;
     w_stage := 0; w_velocity := 0 |}.

(** The entries of an attribution map that the channel roll-up adds to
    channel [c], in the order of the map, each with its touchpoint. *)
Definition channel_entries (touchpoint_data : list TouchpointData)
    (c : string) (attribution_results : dict R)
    : list (TouchpointData * R) :=
  flat_map
    (fun kv : string * R =>
       match PyDict.get (touchpoint_lookup touchpoint_data) (fst kv) with
       | Some t => if String.eqb (channel t) c then [(t, snd kv)] else []
       | None => []
       end)
    attribution_results.

(** The key belongs to a supplied touchpoint. *)
Definition touchpoint_known (touchpoint_data : list TouchpointData)
    (k : string) : bool :=
  PyDict.mem (touchpoint_lookup touchpoint_data) k.

(** ** The alignment report of the facade *)

Definition rec_poor : string :=
  "Poor sales-marketing alignment detected. Consider implementing joint planning sessions.".

Definition rec_sales_dominating : string :=
  "Sales is dominating attribution. Increase marketing's role in lead nurturing and qualification.".

Definition rec_sales_low : string :=
  "Sales involvement is low. Consider more sales-marketing collaboration on qualified leads.".

Definition rec_marketing_dominating : string :=
  "Marketing is dominating attribution. Ensure sales is properly engaged in the process.".

Definition rec_marketing_low : string :=
  "Marketing involvement is low. Increase marketing touchpoints throughout the sales cycle.".

Definition rec_joint_few : string :=
  "Very few joint sales-marketing touchpoints. Consider collaborative campaigns and activities.".

Definition rec_joint_high : string :=
  "High joint touchpoint percentage. Ensure clear ownership and accountability.".

Definition rec_excellent : string :=
  "Excellent alignment! Continue current collaboration practices and consider sharing best practices.".

(** [recommendations.append(...)] under a condition. *)
Definition append_if (b : bool) (x : string) (l : list string)
    : list string :=
  if b then l ++ [x] else l.

Definition Rltb (a b : R) : bool := if Rlt_dec a b then true else false.
Definition Rleb (a b : R) : bool := if Rle_dec a b then true else false.

Definition _generate_alignment_recommendations
    (alignment_data : AlignmentAnalysis) : list string :=
  let score := alignment_score alignment_data in
  let sales_pct := sales_percentage alignment_data in
  let marketing_pct := marketing_percentage alignment_data in
  let joint_pct := joint_percentage alignment_data in
  let r0 := [] in
  let r1 := append_if (Rltb score 50) rec_poor r0 in
  let r2 :=
    if Rltb 60 sales_pct then r1 ++ [rec_sales_dominating]
    else if Rltb sales_pct 20 then r1 ++ [rec_sales_low]
    else r1 in
  let r3 :=
    if Rltb 60 marketing_pct then r2 ++ [rec_marketing_dominating]
    else if Rltb marketing_pct 20 then r2 ++ [rec_marketing_low]
    else r2 in
  let r4 :=
    if Rltb joint_pct 10 then r3 ++ [rec_joint_few]
    else if Rltb 40 joint_pct then r3 ++ [rec_joint_high]
    else r3 in
  append_if (Rleb 80 score) rec_excellent r4.

(** The two shapes of the report: the early return without touchpoints,
    and the analysis with recommendations and grade. *)
Inductive AlignmentReport : Type :=
| NoDataReport (score : R) (recommendations : list string)
| FullReport (analysis : AlignmentAnalysis) (recommendations : list string)
             (grade : string).

Definition get_sales_marketing_alignment_report (env : Env)
    (account_ids : option (list string))
    (date_from date_to : option datetime) : M AlignmentReport :=
  loaded <- lift (env_load env account_ids date_from date_to) ;;
  let lead_data := fst (fst loaded) in
  let opportunity_data := snd (fst loaded) in
  let touchpoint_data := snd loaded in
  match touchpoint_data with
  | [] =>
      ret (NoDataReport 0 ["No touchpoint data available for analysis"%string])
  | _ =>
      attribution_results <-
        lift (b2b_specific_attribution lead_data opportunity_data
                                       touchpoint_data) ;;
      let alignment_analysis :=
        analyze_sales_marketing_alignment
          (combined_b2b_attribution attribution_results) touchpoint_data in
      let recommendations :=
        _generate_alignment_recommendations alignment_analysis in
      ret (FullReport alignment_analysis recommendations
             (_get_alignment_grade (alignment_score alignment_analysis)))
  end.

(** ** The conversions of the facade *)

(** The loaded objects as the conversions read them.  An attribute read
    with [getattr(obj, name, default)] is optional: [None] stands for an
    object without it. *)
Record CustomerObj : Type := {
  customer_id : string;
  customer_created_at : datetime;
  customer_lead_score : option Z;
  customer_demographic_score : option Z;
  customer_behavioral_score : option Z;
  customer_firmographic_score : option Z;
  customer_stage : option string;
  customer_source : option string
}.

(** For [close_date] the conversion tells apart an object without the
    attribute ([None]), one whose attribute is [None] ([Some None]) and
    one with a date. *)
Record ConversionObj : Type := {
  conversion_id : string;
  conversion_customer_id : string;
  conversion_value : R;
  conversion_created_at : datetime;
  conversion_close_date : option (option datetime);
  conversion_decision_makers_count : option Z;
  conversion_influencers_count : option Z
}.

Record TouchpointObj : Type := {
  tobj_id : string;
  tobj_customer_id : string;
  tobj_channel : string;
  tobj_timestamp : datetime;
  tobj_campaign_id : option string;
  tobj_content_id : option string;
  tobj_engagement_score : option R;
  tobj_cost : option R;
  tobj_sales_rep_id : option string
}.

(** [getattr(obj, name, default)] *)
Definition getattr_or {A : Type} (attr : option A) (default : A) : A :=
  match attr with
  | Some a => a
  | None => default
  end.

Definition stage_mapping (st : string) : B2BStageType :=
  if String.eqb st "awareness" then AWARENESS
  else if String.eqb st "interest" then INTEREST
  else if String.eqb st "consideration" then CONSIDERATION
  else if String.eqb st "intent" then INTENT
  else if String.eqb st "evaluation" then EVALUATION
  else if String.eqb st "purchase" then PURCHASE
  else AWARENESS.

Definition quality_tier_of (lead_score : Z) : string :=
  (if (80 <=? lead_score)%Z then "A"
   else if (60 <=? lead_score)%Z then "B"
   else if (40 <=? lead_score)%Z then "C"
   else "D")%string.

(** The body of the loop of [_convert_customers_to_leads]. *)
Definition convert_customer (customer : CustomerObj) : LeadData :=
  let lead_score := getattr_or (customer_lead_score customer) 50%Z in
  {| lead_id := customer_id customer;
     lead_account_id := customer_id customer;
     lead_score := lead_score;
     demographic_score :=
       getattr_or (customer_demographic_score customer) 50%Z;
     behavioral_score :=
       getattr_or (customer_behavioral_score customer) 50%Z;
     firmographic_score :=
       getattr_or (customer_firmographic_score customer) 50%Z;
     lead_created_date := customer_created_at customer;
     lead_stage :=
       stage_mapping
         (getattr_or (customer_stage customer) "awareness"%string);
     source := getattr_or (customer_source customer) "unknown"%string;
     lead_quality_tier := quality_tier_of lead_score |}.

Definition _convert_customers_to_leads (customers : list CustomerObj)
    : list LeadData :=
  map convert_customer customers.

(** The body of the loop of [_convert_conversions_to_opportunities]. *)
Definition convert_conversion (conversion : ConversionObj)
    : OpportunityData :=
  let cycle_days :=
    match conversion_close_date conversion with
    | Some (Some d) => timedelta_days d (conversion_created_at conversion)
    | _ => 90%Z
    end in
  let deal_tier : string :=
    (if Rle_dec 100000 (conversion_value conversion) then "enterprise"
     else if Rle_dec 25000 (conversion_value conversion) then "mid-market"
     else "smb")%string in
  {| opportunity_id := conversion_id conversion;
     opp_account_id := conversion_customer_id conversion;
     lead_ids := [conversion_customer_id conversion];
     opp_stage := "Closed Won";
     probability := 1;
     amount := conversion_value conversion;
     created_date := conversion_created_at conversion;
     close_date :=
       getattr_or (conversion_close_date conversion)
                  (Some (conversion_created_at conversion));
     sales_cycle_days := cycle_days;
     deal_size_tier := deal_tier;
     decision_makers_count :=
       getattr_or (conversion_decision_makers_count conversion) 1%Z;
     influencers_count :=
       getattr_or (conversion_influencers_count conversion) 0%Z |}.

Definition _convert_conversions_to_opportunities
    (conversions : list ConversionObj) : list OpportunityData :=
  map convert_conversion conversions.

(** [str.lower()] on channel names, which are ASCII: the letters A to Z
    move to a to z and every other character stays. *)
Definition ascii_lower (c : Ascii.ascii) : Ascii.ascii :=
  let n := Ascii.nat_of_ascii c in
  if ((65 <=? n) && (n <=? 90))%nat then Ascii.ascii_of_nat (n + 32) else c.

Fixpoint lower (s : string) : string :=
  match s with
  | EmptyString => EmptyString
  | String c r => String (ascii_lower c) (lower r)
  end.

(** [type_mapping.get(channel.lower(), TouchpointType.WEBSITE_VISIT)] *)
Definition type_mapping (ch : string) : TouchpointType :=
  if String.eqb ch "email" then EMAIL_ENGAGEMENT
  else if String.eqb ch "website" then WEBSITE_VISIT
  else if String.eqb ch "social" then SOCIAL_ENGAGEMENT
  else if String.eqb ch "search" then WEBSITE_VISIT
  else if String.eqb ch "content" then CONTENT_DOWNLOAD
  else if String.eqb ch "webinar" then WEBINAR_ATTENDANCE
  else if String.eqb ch "demo" then DEMO_REQUEST
  else if String.eqb ch "call" then SALES_CALL
  else if String.eqb ch "trade_show" then TRADE_SHOW
  else if String.eqb ch "referral" then REFERRAL
  else if String.eqb ch "direct_mail" then DIRECT_MAIL
  else WEBSITE_VISIT.

Definition sales_channels : list string :=
  ["call"; "sales_call"; "demo"; "phone"]%string.

Definition marketing_channels : list string :=
  ["email"; "social"; "content"; "webinar"; "website"; "search"]%string.

(** [x in l] on strings *)
Definition str_in (x : string) (l : list string) : bool :=
  existsb (String.eqb x) l.

Definition stage_of_type (ty : TouchpointType) : B2BStageType :=
  match ty with
  | DEMO_REQUEST | SALES_CALL => EVALUATION
  | WEBINAR_ATTENDANCE | CONTENT_DOWNLOAD => CONSIDERATION
  | EMAIL_ENGAGEMENT => INTEREST
  | _ => AWARENESS
  end.

(** The body of the loop of [_convert_touchpoints_to_b2b_format]. *)
Definition convert_touchpoint (touchpoint : TouchpointObj)
    : TouchpointData :=
  let ch := lower (tobj_channel touchpoint) in
  let ty := type_mapping ch in
  let is_demo := TouchpointType_eqb ty DEMO_REQUEST in
  {| touchpoint_id := tobj_id touchpoint;
     tp_lead_id := tobj_customer_id touchpoint;
     account_id := tobj_customer_id touchpoint;
     timestamp := tobj_timestamp touchpoint;
     touchpoint_type := ty;
     channel := tobj_channel touchpoint;
     campaign_id := tobj_campaign_id touchpoint;
     content_id := tobj_content_id touchpoint;
     engagement_score := getattr_or (tobj_engagement_score touchpoint) 50;
     stage_influence := stage_of_type ty;
     cost := getattr_or (tobj_cost touchpoint) 0;
     is_sales_touch := if is_demo then true else str_in ch sales_channels;
     is_marketing_touch :=
       if is_demo then true else str_in ch marketing_channels;
     sales_rep_id := tobj_sales_rep_id touchpoint |}.

Definition _convert_touchpoints_to_b2b_format
    (touchpoints : list TouchpointObj) : list TouchpointData :=
  map convert_touchpoint touchpoints.

(** * Properties *)

(** ** Dictionaries *)

Module PyDictFacts.
Import PyDict.

(** Items with distinct keys are determined by their key. *)
Lemma key_inj_NoDup {X : Type} (key : X -> string) (l : list X) (x y : X) :
  NoDup (map key l) -> In x l -> In y l -> key x = key y -> x = y.
Proof.
  induction l as [|a l IH]; simpl; [tauto|].
  intros Hnd Hx Hy E. inversion Hnd as [|? ? Hni Hnd']; subst.
  destruct Hx as [->|Hx], Hy as [->|Hy]; auto.
  - exfalso. apply Hni. rewrite E. now apply in_map.
  - exfalso. apply Hni. rewrite <- E. now apply in_map.
Qed.

Lemma find_rev_NoDup {X : Type} (key : X -> string) (l : list X) (x : X) :
  NoDup (map key l) -> In x l ->
  find (fun y => String.eqb (key y) (key x)) (rev l) = Some x.
Proof.
  intros Hnd Hx.
  destruct (find _ (rev l)) as [y|] eqn:F.
  - apply find_some in F. destruct F as [Hy E].
    apply in_rev in Hy. apply String.eqb_eq in E.
    f_equal. eapply key_inj_NoDup; eauto.
  - apply in_rev in Hx.
    pose proof (find_none _ _ F x Hx) as E. simpl in E.
    rewrite String.eqb_refl in E. discriminate.
Qed.

Section Facts.
Context {V : Type}.
Implicit Types (d : dict V) (k : string) (v : V).

Lemma get_set_same d k v : get (set d k v) k = Some v.
Proof.
  induction d as [|[k' v'] r IH]; simpl.
  - now rewrite String.eqb_refl.
  - destruct (String.eqb k' k) eqn:E; simpl; rewrite E; auto.
Qed.

Lemma get_set_other d k k' v : k <> k' -> get (set d k v) k' = get d k'.
Proof.
  intros Hne. induction d as [|[k0 v0] r IH]; simpl.
  - destruct (String.eqb k k') eqn:E; auto.
    apply String.eqb_eq in E. contradiction.
  - destruct (String.eqb k0 k) eqn:E; simpl.
    + apply String.eqb_eq in E. subst k0.
      destruct (String.eqb k k') eqn:E'; auto.
      apply String.eqb_eq in E'. contradiction.
    + now rewrite IH.
Qed.

Lemma get_set d k k' v :
  get (set d k v) k' = if String.eqb k k' then Some v else get d k'.
Proof.
  destruct (String.eqb k k') eqn:E.
  - apply String.eqb_eq in E. subst. apply get_set_same.
  - apply String.eqb_neq in E. now apply get_set_other.
Qed.

Lemma get_None_not_in d k : get d k = None -> ~ In k (keys d).
Proof.
  induction d as [|[k' v'] r IH]; simpl; auto.
  destruct (String.eqb k' k) eqn:E; try discriminate.
  apply String.eqb_neq in E. intros H [H1|H1]; auto. now apply IH.
Qed.

Lemma not_in_get_None d k : ~ In k (keys d) -> get d k = None.
Proof.
  induction d as [|[k' v'] r IH]; simpl; auto.
  intros H. destruct (String.eqb k' k) eqn:E.
  - apply String.eqb_eq in E. tauto.
  - apply IH. tauto.
Qed.

Lemma get_Some_in d k v : get d k = Some v -> In (k, v) d.
Proof.
  induction d as [|[k' v'] r IH]; simpl; try discriminate.
  destruct (String.eqb k' k) eqn:E.
  - apply String.eqb_eq in E. intros [= ->]. subst. now left.
  - intros H. right. now apply IH.
Qed.

Lemma in_get_Some d k v : NoDup (keys d) -> In (k, v) d -> get d k = Some v.
Proof.
  induction d as [|[k' v'] r IH]; simpl; [tauto|].
  intros Hnd [H|H].
  - injection H as -> ->. now rewrite String.eqb_refl.
  - inversion Hnd as [|? ? Hni Hnd']; subst.
    destruct (String.eqb k' k) eqn:E.
    + apply String.eqb_eq in E. subst k'. exfalso. apply Hni.
      change k with (fst (k, v)). now apply in_map.
    + now apply IH.
Qed.

(** Assigning a fresh key appends it. *)
Lemma set_fresh d k v : get d k = None -> set d k v = d ++ [(k, v)].
Proof.
  induction d as [|[k' v'] r IH]; simpl; auto.
  destruct (String.eqb k' k); try discriminate.
  intros H. now rewrite IH.
Qed.

Lemma keys_set d k v :
  keys (set d k v) = if mem d k then keys d else keys d ++ [k].
Proof.
  unfold mem. induction d as [|[k' v'] r IH]; simpl; auto.
  destruct (String.eqb k' k) eqn:E; simpl.
  - reflexivity.
  - rewrite IH. now destruct (get r k).
Qed.

(** Keys stay unique. *)
Lemma NoDup_keys_set d k v : NoDup (keys d) -> NoDup (keys (set d k v)).
Proof.
  intros Hnd. rewrite keys_set. unfold mem.
  destruct (get d k) eqn:E; auto.
  apply get_None_not_in in E.
  apply NoDup_app; auto.
  - repeat constructor. simpl. tauto.
  - intros x Hx [<-|[]]. contradiction.
Qed.

Lemma Forall_set (P : string * V -> Prop) d k v :
  (forall k', P (k', v)) -> Forall P d -> Forall P (set d k v).
Proof.
  intros Hv. induction 1 as [|[k' v'] r Hx Hr IH]; simpl.
  - repeat constructor. apply Hv.
  - destruct (String.eqb k' k); constructor; auto.
Qed.

Lemma length_set_mem d k v :
  mem d k = true -> List.length (set d k v) = List.length d.
Proof.
  unfold mem. induction d as [|[k' v'] r IH]; simpl; try discriminate.
  destruct (String.eqb k' k) eqn:E; simpl; auto.
Qed.

(** A loop of assignments [d[key x] = val x]: the last item with a key
    decides its value. *)
Section AssignLoop.
Context {X : Type} (key : X -> string) (val : X -> V).

Abbreviation assign_loop := (assign_loop key val).

Lemma assign_loop_snoc l x d0 :
  assign_loop (l ++ [x]) d0 = set (assign_loop l d0) (key x) (val x).
Proof. unfold PyDict.assign_loop. now rewrite fold_left_app. Qed.

Lemma get_assign_loop l d0 k :
  get (assign_loop l d0) k =
  match find (fun x => String.eqb (key x) k) (rev l) with
  | Some x => Some (val x)
  | None => get d0 k
  end.
Proof.
  induction l as [|x l IH] using rev_ind; simpl; auto.
  rewrite assign_loop_snoc, rev_app_distr, get_set. simpl.
  destruct (String.eqb (key x) k); auto.
Qed.

Lemma NoDup_keys_assign_loop l d0 :
  NoDup (keys d0) -> NoDup (keys (assign_loop l d0)).
Proof.
  intros H. induction l as [|x l IH] using rev_ind; simpl; auto.
  rewrite assign_loop_snoc. now apply NoDup_keys_set.
Qed.

Lemma Forall_assign_loop (P : string * V -> Prop) l d0 :
  (forall x k, In x l -> P (k, val x)) ->
  Forall P d0 -> Forall P (assign_loop l d0).
Proof.
  revert d0. induction l as [|x l IH]; simpl; intros d0 Hv Hd; auto.
  apply IH; auto. apply Forall_set; auto.
Qed.

(** With distinct keys every item keeps its own value. *)
Lemma get_assign_loop_NoDup l d0 x :
  NoDup (map key l) -> In x l ->
  get (assign_loop l d0) (key x) = Some (val x).
Proof.
  intros Hnd Hx. rewrite get_assign_loop.
  now rewrite find_rev_NoDup.
Qed.

Lemma get_assign_loop_absent l d0 k :
  (forall x, In x l -> key x <> k) ->
  get (assign_loop l d0) k = get d0 k.
Proof.
  intros H. rewrite get_assign_loop.
  destruct (find _ (rev l)) as [y|] eqn:F; auto.
  apply find_some in F. destruct F as [Hy E].
  apply in_rev in Hy. apply String.eqb_eq in E.
  exfalso. eapply H; eauto.
Qed.
End AssignLoop.

End Facts.

(** A loop over the items of a dictionary. *)
Lemma get_items_loop {V W : Type} (f : V -> W) (d : dict V)
    (aw0 : dict W) (k : string) :
  NoDup (keys d) ->
  get (fold_left (fun aw kv => set aw (fst kv) (f (snd kv))) (items d) aw0) k
  = match get d k with
    | Some v => Some (f v)
    | None => get aw0 k
    end.
Proof.
  intros Hnd.
  change (fold_left _ (items d) aw0)
    with (assign_loop fst (fun kv : string * V => f (snd kv)) d aw0).
  destruct (get d k) as [v|] eqn:G.
  - apply get_Some_in in G.
    exact (get_assign_loop_NoDup fst (fun kv => f (snd kv)) d aw0
             (k, v) Hnd G).
  - apply get_assign_loop_absent.
    intros [k' v'] Hin E. simpl in E. subst k'.
    apply get_None_not_in in G. apply G.
    change k with (fst (k, v')). now apply in_map.
Qed.

End PyDictFacts.

Import PyDict PyDictFacts.

(** ** Sums *)

Lemma fold_left_Rplus_shift (l : list R) (a b : R) :
  fold_left Rplus l (a + b) = a + fold_left Rplus l b.
Proof.
  revert b. induction l as [|x l IH]; simpl; intros b; auto.
  rewrite <- IH. f_equal. lra.
Qed.

Lemma pysum_cons (x : R) (l : list R) : pysum (x :: l) = x + pysum l.
Proof.
  unfold pysum. simpl. rewrite <- fold_left_Rplus_shift. f_equal. lra.
Qed.

Lemma pysum_app (l1 l2 : list R) : pysum (l1 ++ l2) = pysum l1 + pysum l2.
Proof.
  induction l1 as [|x l1 IH]; simpl.
  - unfold pysum at 2. simpl. lra.
  - rewrite !pysum_cons, IH. lra.
Qed.


Lemma pysum_nonneg (l : list R) : Forall (fun x => 0 <= x) l -> 0 <= pysum l.
Proof.
  induction 1 as [|x l Hx Hl IH].
  - unfold pysum. simpl. lra.
  - rewrite pysum_cons. lra.
Qed.


(** ** The weigh-and-normalise loops *)

Section WeightLoops.
Variable weight_of : TouchpointData -> R.

Lemma weight_inner_fst (l : list TouchpointData) (acc : R * dict R) :
  fst (fold_left (weight_inner weight_of) l acc)
  = fst acc + pysum (map weight_of l).
Proof.
  revert acc. induction l as [|x l IH]; intros acc; simpl.
  - unfold pysum. simpl. lra.
  - rewrite IH, pysum_cons. simpl. lra.
Qed.

Lemma weight_inner_snd (l : list TouchpointData) (acc : R * dict R) :
  snd (fold_left (weight_inner weight_of) l acc)
  = assign_loop touchpoint_id weight_of l (snd acc).
Proof.
  revert acc.
  induction l as [|x l IH]; intros acc; simpl; [reflexivity | apply IH].
Qed.

(** What one opportunity leaves under a key. *)
Lemma get_normalized_assign (amt : R) (tps : list TouchpointData)
    (aw : dict R) (k : string) :
  get (normalized_assign weight_of amt tps aw) k =
  if Rlt_dec 0 (pysum (map weight_of tps))
  then match find (fun t => String.eqb (touchpoint_id t) k) (rev tps) with
       | Some t => Some (weight_of t / pysum (map weight_of tps) * amt)
       | None => get aw k
       end
  else get aw k.
Proof.
  unfold normalized_assign.
  rewrite weight_inner_fst, weight_inner_snd. simpl fst. simpl snd.
  rewrite Rplus_0_l.
  destruct (Rlt_dec 0 (pysum (map weight_of tps))) as [Hpos|Hn]; auto.
  unfold assign_normalized.
  rewrite (get_items_loop
             (fun w => w / pysum (map weight_of tps) * amt)).
  - rewrite get_assign_loop.
    destruct (find _ (rev tps)); reflexivity.
  - apply NoDup_keys_assign_loop. constructor.
Qed.

End WeightLoops.

Lemma pysum_map_In_le {X} (f : X -> R) (l : list X) (x : X) :
  (forall y, In y l -> 0 <= f y) -> In x l -> f x <= pysum (map f l).
Proof.
  intros Hnn Hin. induction l as [|y l IH]; [contradiction|].
  simpl. rewrite pysum_cons.
  assert (0 <= pysum (map f l)).
  { apply pysum_nonneg, Forall_map, Forall_forall.
    intros z Hz. apply Hnn. now right. }
  destruct Hin as [->|Hin].
  - lra.
  - assert (f x <= pysum (map f l)) by (apply IH; auto; intros; apply Hnn; now right).
    specialize (Hnn y (or_introl eq_refl)). lra.
Qed.


Lemma pysum_map_pos_exists {X} (f : X -> R) (l : list X) :
  (forall x, In x l -> 0 <= f x) -> (exists x, In x l /\ 0 < f x) ->
  0 < pysum (map f l).
Proof.
  intros Hnn [x [Hin Hx]].
  pose proof (pysum_map_In_le f l x Hnn Hin). lra.
Qed.

(** The value one opportunity leaves for a touchpoint of its list. *)
Lemma get_normalized_assign_In (weight_of : TouchpointData -> R) (amt : R)
    (l : list TouchpointData) (aw : dict R) (t : TouchpointData) :
  NoDup (map touchpoint_id l) -> In t l ->
  0 < pysum (map weight_of l) ->
  get (normalized_assign weight_of amt l aw) (touchpoint_id t)
  = Some (weight_of t / pysum (map weight_of l) * amt).
Proof.
  intros Hnd Hin Hpos. rewrite get_normalized_assign.
  destruct (Rlt_dec 0 (pysum (map weight_of l))); [|contradiction].
  now rewrite (find_rev_NoDup touchpoint_id l t Hnd Hin).
Qed.



(** A share of a non-negative amount lies between 0 and the amount. *)
Lemma share_within_amount (w total amt : R) :
  0 <= w -> w <= total -> 0 < total -> 0 <= amt ->
  0 <= w / total * amt <= amt.
Proof.
  intros Hw Hle Hpos Hamt.
  assert (Hshare : 0 <= w / total <= 1).
  { split.
    - apply Rmult_le_pos; [exact Hw | apply Rlt_le, Rinv_0_lt_compat, Hpos].
    - apply Rmult_le_reg_r with total; auto.
      unfold Rdiv. rewrite Rmult_assoc, Rinv_l by lra. lra. }
  split; [apply Rmult_le_pos; lra|].
  rewrite <- (Rmult_1_l amt) at 2.
  apply Rmult_le_compat_r; lra.
Qed.


(** ** Time decay *)

Lemma touchpoint_type_weights_pos (ty : TouchpointType) :
  0 < touchpoint_type_weights ty.
Proof. destruct ty; simpl; lra. Qed.

Lemma exp_underflow_neg : exp_underflow < 0.
Proof. unfold exp_underflow. lra. Qed.

Lemma math_exp_nonneg (x : R) : 0 <= math_exp x.
Proof.
  unfold math_exp.
  destruct (Rle_dec x exp_underflow); [lra | apply Rlt_le, exp_pos].
Qed.

Lemma math_exp_0 : math_exp 0 = 1.
Proof.
  unfold math_exp. pose proof exp_underflow_neg.
  destruct (Rle_dec 0 exp_underflow); [lra | apply exp_0].
Qed.

Lemma exp_le_mono (x y : R) : x <= y -> exp x <= exp y.
Proof.
  intros [H| ->]; [apply Rlt_le, exp_increasing, H | lra].
Qed.

Lemma math_exp_le_mono (x y : R) : x <= y -> math_exp x <= math_exp y.
Proof.
  intros H. unfold math_exp.
  destruct (Rle_dec x exp_underflow), (Rle_dec y exp_underflow); try lra.
  - apply Rlt_le, exp_pos.
  - now apply exp_le_mono.
Qed.

Lemma time_decay_weight_nonneg (avg : Z) (o : OpportunityData)
    (t : TouchpointData) : 0 <= time_decay_weight avg o t.
Proof.
  unfold time_decay_weight.
  apply Rmult_le_pos;
    [apply math_exp_nonneg | apply Rlt_le, touchpoint_type_weights_pos].
Qed.

(** A touchpoint at or after the conversion date is not decayed. *)
Lemma time_decay_weight_at_conversion (avg : Z) (o : OpportunityData)
    (t : TouchpointData) :
  (conversion_date o <= timestamp t)%Z ->
  time_decay_weight avg o t = touchpoint_type_weights (touchpoint_type t).
Proof.
  intros H. unfold time_decay_weight.
  assert (E : Z.max 0 (timedelta_days (conversion_date o) (timestamp t))
              = 0%Z).
  { apply Z.max_l. unfold timedelta_days.
    apply Z.div_le_upper_bound; lia. }
  rewrite E. unfold Rdiv. rewrite Ropp_0, Rmult_0_l, math_exp_0.
  apply Rmult_1_l.
Qed.


Lemma opp_touchpoints_In (tps : list TouchpointData) (o : OpportunityData)
    (t : TouchpointData) :
  In t (opp_touchpoints tps o) <->
  In t tps /\ account_id t = opp_account_id o.
Proof.
  unfold opp_touchpoints. rewrite filter_In.
  now rewrite String.eqb_eq.
Qed.

Lemma NoDup_map_filter {X Y : Type} (f : X -> Y) (p : X -> bool)
    (l : list X) : NoDup (map f l) -> NoDup (map f (filter p l)).
Proof.
  induction l as [|x l IH]; simpl; auto.
  intros H. inversion H as [|? ? Hni Hnd]; subst.
  destruct (p x); simpl; auto.
  constructor; auto.
  intros Hin. apply Hni. apply in_map_iff in Hin.
  destruct Hin as [y [E Hy]]. apply filter_In in Hy.
  apply in_map_iff. exists y. tauto.
Qed.

(** A touchpoint of one account is out of reach of the touchpoints of
    another account when ids are distinct. *)
Lemma other_account_id_absent (tps : list TouchpointData)
    (o : OpportunityData) (t : TouchpointData) :
  NoDup (map touchpoint_id tps) -> In t tps ->
  account_id t <> opp_account_id o ->
  forall t', In t' (opp_touchpoints tps o) ->
             touchpoint_id t' <> touchpoint_id t.
Proof.
  intros Hnd Ht Hacc t' Ht' E.
  apply opp_touchpoints_In in Ht'. destruct Ht' as [Hin Ha].
  assert (t' = t) by (eapply key_inj_NoDup; eauto).
  subst t'. contradiction.
Qed.

Lemma get_normalized_assign_absent (weight_of : TouchpointData -> R)
    (amt : R) (l : list TouchpointData) (aw : dict R) (k : string) :
  (forall t', In t' l -> touchpoint_id t' <> k) ->
  get (normalized_assign weight_of amt l aw) k = get aw k.
Proof.
  intros H. rewrite get_normalized_assign.
  destruct (Rlt_dec 0 _); auto.
  destruct (find _ (rev l)) as [t'|] eqn:F; auto.
  apply find_some in F. destruct F as [Hin E].
  apply in_rev in Hin. apply String.eqb_eq in E.
  exfalso. eapply H; eauto.
Qed.

Section TimeDecay.
Variable avg : Z.
Variable tps : list TouchpointData.
Hypothesis ids_distinct : NoDup (map touchpoint_id tps).

Lemma time_decay_step_other (aw : dict R) (o : OpportunityData)
    (t : TouchpointData) :
  In t tps -> account_id t <> opp_account_id o ->
  get (time_decay_step avg tps aw o) (touchpoint_id t)
  = get aw (touchpoint_id t).
Proof.
  intros Ht Hacc. unfold time_decay_step.
  pose proof (other_account_id_absent tps o t ids_distinct Ht Hacc) as Habs.
  destruct (opp_touchpoints tps o) as [|t0 l]; auto.
  now apply get_normalized_assign_absent.
Qed.

Lemma time_decay_later_other (post : list OpportunityData) (aw : dict R)
    (t : TouchpointData) :
  In t tps ->
  Forall (fun o' => opp_account_id o' <> account_id t) post ->
  get (fold_left (time_decay_step avg tps) post aw) (touchpoint_id t)
  = get aw (touchpoint_id t).
Proof.
  intros Ht Hpost. revert aw.
  induction Hpost as [|o' post Ho' Hpost IH]; intros aw; simpl; auto.
  rewrite IH. apply time_decay_step_other; auto.
Qed.

(** The value the last opportunity of an account leaves for a
    touchpoint. *)
Lemma time_decay_value (pre post : list OpportunityData)
    (o : OpportunityData) (t : TouchpointData) :
  Forall (fun o' => opp_account_id o' <> opp_account_id o) post ->
  0 < pysum (map (time_decay_weight avg o) (opp_touchpoints tps o)) ->
  In t (opp_touchpoints tps o) ->
  get (calculate_b2b_time_decay_with avg tps (pre ++ o :: post))
      (touchpoint_id t)
  = Some (time_decay_weight avg o t
          / pysum (map (time_decay_weight avg o) (opp_touchpoints tps o))
          * amount o).
Proof.
  intros Hpost Hpos Hin.
  pose proof Hin as Hin'. apply opp_touchpoints_In in Hin'.
  destruct Hin' as [Htps Ha].
  unfold calculate_b2b_time_decay_with. rewrite fold_left_app. simpl.
  rewrite time_decay_later_other; auto; [|now rewrite Ha].
  unfold time_decay_step.
  destruct (opp_touchpoints tps o) as [|t0 l] eqn:E; [contradiction|].
  rewrite <- E in *. apply get_normalized_assign_In; auto.
  unfold opp_touchpoints. now apply NoDup_map_filter.
Qed.

End TimeDecay.



(** One touchpoint at or after the conversion date makes the total weight
    positive. *)
Lemma total_weight_pos (tps : list TouchpointData) (o : OpportunityData)
    (t : TouchpointData) :
  In t (opp_touchpoints tps o) -> (conversion_date o <= timestamp t)%Z ->
  0 < total_weight tps o.
Proof.
  intros Hin Hts. unfold total_weight.
  apply pysum_map_pos_exists.
  - intros x _. apply time_decay_weight_nonneg.
  - exists t. split; auto.
    rewrite time_decay_weight_at_conversion by exact Hts.
    apply touchpoint_type_weights_pos.
Qed.







(** ** Pipeline velocity *)

Section Velocity.
Variable tps : list TouchpointData.
Hypothesis ids_distinct : NoDup (map touchpoint_id tps).

Lemma velocity_step_unfold (aw : dict R) (o : OpportunityData) :
  velocity_step tps aw o
  = assign_loop touchpoint_id (velocity_contribution o)
                (opp_touchpoints tps o) aw.
Proof.
  unfold velocity_step. now destruct (opp_touchpoints tps o).
Qed.




End Velocity.






(** ** The combiner *)

Lemma existsb_eqb_In (k : string) (l : list string) :
  existsb (String.eqb k) l = true <-> In k l.
Proof.
  rewrite existsb_exists. split.
  - intros [x [Hx E]]. apply String.eqb_eq in E. now subst.
  - intros H. exists k. split; auto. apply String.eqb_refl.
Qed.

Lemma set_update_In (s ks : list string) (k : string) :
  In k (set_update s ks) <-> In k s \/ In k ks.
Proof.
  unfold set_update. revert s.
  induction ks as [|x ks IH]; intros s; simpl; [tauto|].
  rewrite IH.
  destruct (existsb (String.eqb x) s) eqn:E.
  - apply existsb_eqb_In in E. split; [tauto|].
    intros [H|[H|H]]; subst; auto.
  - rewrite in_app_iff. simpl. tauto.
Qed.

Lemma set_update_NoDup (s ks : list string) :
  NoDup s -> NoDup (set_update s ks).
Proof.
  unfold set_update. revert s.
  induction ks as [|x ks IH]; intros s Hs; simpl; auto.
  apply IH. destruct (existsb (String.eqb x) s) eqn:E; auto.
  apply NoDup_app; auto.
  - repeat constructor. simpl. tauto.
  - intros y Hy [<-|[]].
    apply existsb_eqb_In in Hy. congruence.
Qed.

Lemma all_touchpoint_ids_In (maps : list (dict R)) (k : string) :
  In k (all_touchpoint_ids maps) <-> exists d, In d maps /\ In k (keys d).
Proof.
  unfold all_touchpoint_ids.
  assert (G : forall s,
             In k (fold_left (fun s d => set_update s (keys d)) maps s)
             <-> In k s \/ exists d, In d maps /\ In k (keys d)).
  { induction maps as [|d maps IH]; intros s; simpl.
    - split; [tauto|]. intros [H|[d [[] _]]]. exact H.
    - rewrite IH, set_update_In. split.
      + intros [[H|H]|[d' [H1 H2]]]; eauto.
      + intros [H|[d' [[->|H1] H2]]]; eauto. }
  rewrite G. simpl. split; [intros [[]|H]; exact H | auto].
Qed.

Lemma all_touchpoint_ids_NoDup (maps : list (dict R)) :
  NoDup (all_touchpoint_ids maps).
Proof.
  unfold all_touchpoint_ids.
  assert (G : forall s, NoDup s ->
             NoDup (fold_left (fun s d => set_update s (keys d)) maps s)).
  { induction maps as [|d maps IH]; intros s Hs; simpl; auto.
    apply IH. now apply set_update_NoDup. }
  apply G. constructor.
Qed.

Section Combine.
Variables tw qw ab sw vi : dict R.

Lemma combine_unfold (weights : option CombineWeights) :
  combine_b2b_attribution_factors tw qw ab sw vi weights
  = assign_loop (fun k : string => k)
      (combined_score tw qw ab sw vi
         match weights with Some w => w | None => default_weights end)
      (all_touchpoint_ids [tw; qw; ab; sw; vi]) empty.
Proof. unfold combine_b2b_attribution_factors. now destruct weights. Qed.

(** The combined map holds the weighted sum for every id of some factor
    map, and nothing else. *)
Lemma get_combine (weights : option CombineWeights) (k : string) :
  get (combine_b2b_attribution_factors tw qw ab sw vi weights) k
  = if existsb (String.eqb k) (all_touchpoint_ids [tw; qw; ab; sw; vi])
    then Some (combined_score tw qw ab sw vi
                 match weights with Some w => w | None => default_weights end
                 k)
    else None.
Proof.
  rewrite combine_unfold.
  destruct (existsb _ _) eqn:E.
  - apply existsb_eqb_In in E.
    apply (get_assign_loop_NoDup (fun k : string => k)); auto.
    rewrite map_id. apply all_touchpoint_ids_NoDup.
  - rewrite get_assign_loop_absent; auto.
    intros x Hx ->. apply existsb_eqb_In in Hx. congruence.
Qed.

Lemma keys_assign_loop_fresh (f : string -> R) (l : list string) :
  NoDup l -> keys (assign_loop (fun k : string => k) f l empty) = l.
Proof.
  intros Hnd.
  assert (G : forall d0, NoDup (keys d0 ++ l) ->
             keys (assign_loop (fun k : string => k) f l d0) = keys d0 ++ l).
  { clear Hnd. induction l as [|x l IH]; intros d0 H; simpl.
    - now rewrite app_nil_r.
    - unfold assign_loop in *. simpl.
      assert (Hx : ~ In x (keys d0)).
      { intros Hin. apply NoDup_remove_2 in H. apply H.
        apply in_or_app. now left. }
      rewrite IH.
      + rewrite keys_set. unfold mem.
        rewrite (not_in_get_None _ _ Hx). now rewrite <- app_assoc.
      + rewrite keys_set. unfold mem.
        rewrite (not_in_get_None _ _ Hx). rewrite <- app_assoc. exact H. }
  apply (G empty). exact Hnd.
Qed.

(** The keys of the combined map do not depend on the weights. *)
Lemma keys_combine (weights : option CombineWeights) :
  keys (combine_b2b_attribution_factors tw qw ab sw vi weights)
  = all_touchpoint_ids [tw; qw; ab; sw; vi].
Proof.
  rewrite combine_unfold. apply keys_assign_loop_fresh.
  apply all_touchpoint_ids_NoDup.
Qed.
End Combine.




(** ** Alignment score and grade *)

Lemma Rmax_0_bounds (x : R) : x <= 100 -> 0 <= Rmax 0 x <= 100.
Proof.
  intros H. unfold Rmax. destruct (Rle_dec 0 x); lra.
Qed.

Lemma alignment_score_bounds (s m j : R) :
  0 <= _calculate_alignment_score s m j <= 100.
Proof.
  unfold _calculate_alignment_score.
  destruct (Req_dec_T (s + m + j) 0); [lra|].
  apply Rmax_0_bounds.
  pose proof (Rabs_pos (m / (s + m + j) * 100 - 40)).
  pose proof (Rabs_pos (s / (s + m + j) * 100 - 40)).
  pose proof (Rabs_pos (j / (s + m + j) * 100 - 20)).
  lra.
Qed.

Lemma alignment_grade_boundaries (x : R) :
  (90 <= x -> _get_alignment_grade x = "A+"%string)
  /\ (80 <= x < 90 -> _get_alignment_grade x = "A"%string)
  /\ (70 <= x < 80 -> _get_alignment_grade x = "B"%string)
  /\ (60 <= x < 70 -> _get_alignment_grade x = "C"%string)
  /\ (50 <= x < 60 -> _get_alignment_grade x = "D"%string)
  /\ (x < 50 -> _get_alignment_grade x = "F"%string).
Proof.
  unfold _get_alignment_grade.
  repeat split; intros H;
    repeat (destruct (Rle_dec _ x); try lra); reflexivity.
Qed.

(** C5.  For non-negative sales, marketing and joint totals the alignment
    score is 0 when they sum to zero and otherwise
    max(0, 100 - (|marketing_pct - 40| + |sales_pct - 40| + |joint_pct - 20|))
    with the percentages taken of the total; it lies in [0, 100]; and the
    grade is the function of the score with boundaries 90 A+, 80 A, 70 B,
    60 C, 50 D, else F. *)
Theorem alignment_score_and_grade (sales marketing joint : R) :
  0 <= sales -> 0 <= marketing -> 0 <= joint ->
  let total := sales + marketing + joint in
  let score := _calculate_alignment_score sales marketing joint in
  (total = 0 -> score = 0)
  /\ (total <> 0 ->
      score = Rmax 0 (100 - (Rabs (marketing / total * 100 - 40)
                             + Rabs (sales / total * 100 - 40)
                             + Rabs (joint / total * 100 - 20))))
  /\ 0 <= score <= 100
  /\ (forall x : R,
        (90 <= x -> _get_alignment_grade x = "A+"%string)
        /\ (80 <= x < 90 -> _get_alignment_grade x = "A"%string)
        /\ (70 <= x < 80 -> _get_alignment_grade x = "B"%string)
        /\ (60 <= x < 70 -> _get_alignment_grade x = "C"%string)
        /\ (50 <= x < 60 -> _get_alignment_grade x = "D"%string)
        /\ (x < 50 -> _get_alignment_grade x = "F"%string)).
Proof.
  intros Hs Hm Hj total score.
  split; [|split; [|split]].
  - intros E. unfold score, _calculate_alignment_score.
    fold total. destruct (Req_dec_T total 0); [reflexivity | contradiction].
  - intros E. unfold score, _calculate_alignment_score.
    fold total. destruct (Req_dec_T total 0); [contradiction | reflexivity].
  - apply alignment_score_bounds.
  - apply alignment_grade_boundaries.
Qed.

Lemma alignment_score_and_grade_witness :
  _calculate_alignment_score 4000 4000 2000 = 100
  /\ _get_alignment_grade (_calculate_alignment_score 4000 4000 2000)
     = "A+"%string.
Proof.
  destruct (alignment_score_and_grade 4000 4000 2000
              ltac:(lra) ltac:(lra) ltac:(lra)) as (_ & Hf & Hb & Hg).
  assert (E : _calculate_alignment_score 4000 4000 2000 = 100).
  { rewrite Hf by lra.
    replace (4000 / (4000 + 4000 + 2000) * 100 - 40) with 0 by lra.
    replace (2000 / (4000 + 4000 + 2000) * 100 - 20) with 0 by lra.
    rewrite Rabs_R0. unfold Rmax. destruct (Rle_dec _ _); lra. }
  split; [exact E|].
  apply (Hg (_calculate_alignment_score 4000 4000 2000)). rewrite E. lra.
Defined.

(** ** Mass kept by the alignment analysis *)











(** ** The order of the summary *)

Lemma has_value_true (v : R) (kv : string * R) :
  has_value v kv = true <-> snd kv = v.
Proof.
  unfold has_value. destruct (Req_dec_T (snd kv) v); split;
    congruence.
Qed.

Lemma insert_desc_perm (x : string * R) (l : list (string * R)) :
  Permutation (insert_desc x l) (x :: l).
Proof.
  induction l as [|y r IH]; simpl; auto.
  destruct (Rlt_dec (snd x) (snd y)); auto.
  rewrite IH. apply perm_swap.
Qed.

Lemma sorted_desc_perm (l : list (string * R)) :
  Permutation (sorted_desc l) l.
Proof.
  induction l as [|x l IH]; simpl; auto.
  rewrite insert_desc_perm. now constructor.
Qed.

Lemma insert_desc_descending (x : string * R) (l : list (string * R)) :
  descending l -> descending (insert_desc x l).
Proof.
  unfold descending. induction 1 as [|y r Hr IH Hy]; simpl.
  - repeat constructor.
  - destruct (Rlt_dec (snd x) (snd y)) as [Hlt|Hge].
    + constructor; auto.
      rewrite Forall_forall in *. intros z Hz.
      apply (Permutation_in _ (insert_desc_perm x r)) in Hz.
      destruct Hz as [<-|Hz]; [lra | auto].
    + constructor; [constructor; auto|].
      constructor; [lra|].
      rewrite Forall_forall in *. intros z Hz.
      specialize (Hy z Hz). lra.
Qed.

Lemma sorted_desc_descending (l : list (string * R)) :
  descending (sorted_desc l).
Proof.
  induction l as [|x l IH]; simpl.
  - constructor.
  - now apply insert_desc_descending.
Qed.

(** Insertion keeps the order of the entries of one value. *)
Lemma filter_insert_desc (v : R) (x : string * R) (l : list (string * R)) :
  filter (has_value v) (insert_desc x l)
  = filter (has_value v) (x :: l).
Proof.
  induction l as [|y r IH]; simpl; auto.
  destruct (Rlt_dec (snd x) (snd y)) as [Hlt|Hge]; simpl; auto.
  rewrite IH. simpl.
  destruct (has_value v x) eqn:Ex; auto.
  destruct (has_value v y) eqn:Ey; auto.
  apply has_value_true in Ex, Ey. lra.
Qed.

Lemma sorted_desc_stable (v : R) (l : list (string * R)) :
  filter (has_value v) (sorted_desc l) = filter (has_value v) l.
Proof.
  induction l as [|x l IH]; simpl; auto.
  rewrite filter_insert_desc. simpl. now rewrite IH.
Qed.

(** A descending list is determined by the order of its entries of each
    value: a stable sort has one possible result. *)
Lemma descending_stable_unique (l1 l2 : list (string * R)) :
  descending l1 -> descending l2 ->
  (forall v, filter (has_value v) l1 = filter (has_value v) l2) ->
  l1 = l2.
Proof.
  intros H1. revert l2.
  induction H1 as [|x r1 Hr1 IH Hx]; intros l2 H2 Hf.
  - destruct l2 as [|y r2]; auto.
    specialize (Hf (snd y)). simpl in Hf.
    assert (E : has_value (snd y) y = true) by now apply has_value_true.
    rewrite E in Hf. discriminate.
  - destruct l2 as [|y r2].
    + specialize (Hf (snd x)). simpl in Hf.
      assert (E : has_value (snd x) x = true) by now apply has_value_true.
      rewrite E in Hf. discriminate.
    + inversion H2 as [|? ? Hr2 Hy]; subst.
      assert (Hxy : snd x <= snd y).
      { assert (Hin : In x (filter (has_value (snd x)) (y :: r2))).
        { rewrite <- Hf. simpl.
          assert (E : has_value (snd x) x = true)
            by now apply has_value_true.
          rewrite E. now left. }
        apply filter_In in Hin. destruct Hin as [[->|Hin] _]; [lra|].
        rewrite Forall_forall in Hy. auto. }
      assert (Hyx : snd y <= snd x).
      { assert (Hin : In y (filter (has_value (snd y)) (x :: r1))).
        { rewrite Hf. simpl.
          assert (E : has_value (snd y) y = true)
            by now apply has_value_true.
          rewrite E. now left. }
        apply filter_In in Hin. destruct Hin as [[->|Hin] _]; [lra|].
        rewrite Forall_forall in Hx. auto. }
      assert (Exy : snd x = snd y) by lra.
      assert (x = y /\ forall v, filter (has_value v) r1
                                 = filter (has_value v) r2) as [-> Hr].
      { pose proof (Hf (snd x)) as Hv. simpl in Hv.
        assert (E1 : has_value (snd x) x = true)
          by now apply has_value_true.
        assert (E2 : has_value (snd x) y = true)
          by now apply has_value_true.
        rewrite E1, E2 in Hv. injection Hv as -> Hv. split; auto.
        intros v. specialize (Hf v). simpl in Hf.
        destruct (has_value v y); [now injection Hf | exact Hf]. }
      f_equal. apply IH; auto.
Qed.

Lemma top_entries_ok (total : R) (l : list (string * R)) :
  total <> 0 ->
  top_entries total l
  = Ok (map (fun kv => {| top_touchpoint_id := fst kv;
                          attribution_value := snd kv;
                          percentage := snd kv / total * 100 |}) l).
Proof.
  intros Ht. induction l as [|[k v] r IH]; simpl; auto.
  unfold pydiv. destruct (Req_dec_T total 0); [contradiction|].
  simpl. now rewrite IH.
Qed.

Lemma top_entries_pairs (total : R) (l : list (string * R))
    (tops : list TopTouchpoint) :
  top_entries total l = Ok tops -> map top_pair tops = l.
Proof.
  revert tops. induction l as [|[k v] r IH]; simpl; intros tops H.
  - now injection H as <-.
  - destruct (pydiv v total); simpl in H; [|discriminate].
    destruct (top_entries total r) as [rest|]; simpl in H; [|discriminate].
    injection H as <-. simpl. unfold top_pair at 1. simpl.
    now rewrite (IH rest).
Qed.

(** The summary succeeds on a map whose values do not add up to zero. *)
Lemma generate_attribution_summary_ok (m : dict R) :
  m <> [] -> pysum (values m) <> 0 ->
  exists sm, generate_attribution_summary m = Ok (Some sm).
Proof.
  intros Hne Ht. unfold generate_attribution_summary.
  destruct m as [|kv r]; [congruence|].
  rewrite top_entries_ok by exact Ht. simpl. eexists. reflexivity.
Qed.

Lemma generate_attribution_summary_tops (m : dict R)
    (sm : AttributionSummary) :
  generate_attribution_summary m = Ok (Some sm) ->
  map top_pair (top_contributing_touchpoints sm) = top_touchpoints m
  /\ top_20_percent sm
     = pysum (values (dict_of_pairs
                        (firstn (Nat.max 1 (List.length m / 5))
                                (sorted_touchpoints m))))
  /\ bottom_20_percent sm
     = pysum (values (dict_of_pairs
                        (last_n (Nat.max 1 (List.length m / 5))
                                (sorted_touchpoints m)))).
Proof.
  unfold generate_attribution_summary.
  destruct m as [|kv r]; [discriminate|].
  destruct (top_entries _ _) as [tops|] eqn:E; simpl; [|discriminate].
  intros H. injection H as <-. simpl.
  split; [|split]; auto.
  now apply top_entries_pairs in E.
Qed.

Lemma sorted_tie_map : sorted_touchpoints tie_map = tie_map.
Proof.
  symmetry. apply descending_stable_unique.
  - unfold tie_map. repeat constructor; simpl; lra.
  - apply sorted_desc_descending.
  - intros v. unfold sorted_touchpoints, items.
    now rewrite sorted_desc_stable.
Qed.

(** C8, as amended.  The summary is a function of the combined map with
    its insertion order: the top five are the first five entries of the one
    stable descending sort of the map, so values do not increase along the
    list and touchpoints of equal value keep the order in which the map
    holds them; the 20% slices are sums over the first and the last
    entries of that list.  No ordering of touchpoint ids enters. *)
Theorem summary_order_is_stable (m : dict R) :
  top_touchpoints m = firstn 5 (sorted_touchpoints m)
  /\ Permutation (sorted_touchpoints m) (items m)
  /\ descending (sorted_touchpoints m)
  /\ (forall v, filter (has_value v) (sorted_touchpoints m)
                = filter (has_value v) (items m))
  /\ (forall s', descending s' ->
                 (forall v, filter (has_value v) s'
                            = filter (has_value v) (items m)) ->
                 s' = sorted_touchpoints m)
  /\ (forall sm, generate_attribution_summary m = Ok (Some sm) ->
       map top_pair (top_contributing_touchpoints sm) = top_touchpoints m
       /\ top_20_percent sm
          = pysum (values (dict_of_pairs
                             (firstn (Nat.max 1 (List.length m / 5))
                                     (sorted_touchpoints m))))
       /\ bottom_20_percent sm
          = pysum (values (dict_of_pairs
                             (last_n (Nat.max 1 (List.length m / 5))
                                     (sorted_touchpoints m))))).
Proof.
  repeat split.
  - apply sorted_desc_perm.
  - apply sorted_desc_descending.
  - intros v. apply sorted_desc_stable.
  - intros s' Hd Hf. apply descending_stable_unique; auto.
    + apply sorted_desc_descending.
    + intros v. rewrite Hf. symmetry. apply sorted_desc_stable.
  - now apply generate_attribution_summary_tops.
  - now apply generate_attribution_summary_tops.
  - now apply generate_attribution_summary_tops.
Qed.

Lemma summary_order_is_stable_witness :
  exists sm, generate_attribution_summary tie_map = Ok (Some sm)
             /\ map top_pair (top_contributing_touchpoints sm) = tie_map.
Proof.
  destruct (generate_attribution_summary_ok tie_map) as [sm E].
  - discriminate.
  - unfold pysum. simpl. lra.
  - exists sm. split; [exact E|].
    destruct (summary_order_is_stable tie_map) as (Ht & _ & _ & _ & _ & Hs).
    destruct (Hs sm E) as [Hp _]. rewrite Hp, Ht, sorted_tie_map.
    reflexivity.
Defined.

(** C8 fails as stated: of two touchpoints of value 1 the summary lists
    "b" before "a", the order of insertion and not the order of the ids;
    the same map held in the other order lists "a" first. *)
Lemma summary_tie_counterexample :
  map fst (top_touchpoints tie_map) = ["b"%string; "a"%string]
  /\ String.ltb "b" "a" = false
  /\ (forall k, get tie_map k = get (rev tie_map) k)
  /\ top_touchpoints tie_map <> top_touchpoints (rev tie_map).
Proof.
  assert (E1 : top_touchpoints tie_map = tie_map).
  { unfold top_touchpoints. now rewrite sorted_tie_map. }
  assert (E2 : top_touchpoints (rev tie_map) = rev tie_map).
  { unfold top_touchpoints.
    replace (sorted_touchpoints (rev tie_map)) with (rev tie_map);
      [reflexivity|].
    apply descending_stable_unique.
    - simpl. repeat constructor; simpl; lra.
    - apply sorted_desc_descending.
    - intros v. unfold sorted_touchpoints, items.
      now rewrite sorted_desc_stable. }
  repeat split.
  - now rewrite E1.
  - intros k. unfold tie_map. cbn [rev app get].
    destruct (String.eqb "b" k), (String.eqb "a" k); reflexivity.
  - rewrite E1, E2. discriminate.
Qed.

(** ** Finite, non-negative values *)

Lemma fold_left_invariant {A B : Type} (P : A -> Prop) (f : A -> B -> A)
    (l : list B) (a : A) :
  P a -> (forall a' b, In b l -> P a' -> P (f a' b)) -> P (fold_left f l a).
Proof.
  revert a. induction l as [|b l IH]; simpl; intros a Ha Hf; [assumption|].
  apply IH; [apply Hf | intros; apply Hf]; auto.
Qed.

Lemma lead_lookup_In (leads : list LeadData) (k : string) (l : LeadData) :
  get (lead_lookup leads) k = Some l -> In l leads.
Proof.
  unfold lead_lookup.
  change (get (assign_loop lead_id (fun l => l) leads empty) k = Some l
          -> In l leads).
  rewrite get_assign_loop.
  destruct (find _ (rev leads)) as [x|] eqn:F; simpl; [|discriminate].
  intros [= <-]. apply find_some in F. now apply in_rev, F.
Qed.

(** The grouping dictionary holds, for each account, its touchpoints in
    input order. *)
Lemma group_by_account_get (tps : list TouchpointData) (a : string) :
  get_or (group_by_account tps) a []
  = filter (fun tp => String.eqb (account_id tp) a) tps.
Proof.
  unfold group_by_account.
  induction tps as [|x l IH] using rev_ind; [reflexivity|].
  rewrite fold_left_app, filter_app. simpl.
  set (groups := fold_left _ l empty) in *.
  set (groups' := if mem groups (account_id x) then groups
                  else set groups (account_id x) []).
  assert (Hg : forall b, get_or groups' b [] = get_or groups b []).
  { intros b. unfold groups', mem, get_or.
    destruct (get groups (account_id x)) eqn:G; auto.
    rewrite get_set. destruct (String.eqb (account_id x) b) eqn:E; auto.
    apply String.eqb_eq in E. subst b. now rewrite G. }
  unfold get_or at 1. rewrite get_set.
  destruct (String.eqb (account_id x) a) eqn:E.
  - apply String.eqb_eq in E. subst a. now rewrite Hg, IH.
  - fold (get_or groups' a []). rewrite Hg, IH. now rewrite app_nil_r.
Qed.

Lemma account_step_unfold (tps : list TouchpointData) (aw : dict R)
    (o : OpportunityData) :
  account_step (group_by_account tps) aw o
  = match opp_touchpoints tps o with
    | [] => aw
    | l => normalized_assign (account_weight o) (amount o) l aw
    end.
Proof.
  unfold account_step. now rewrite group_by_account_get.
Qed.

Lemma _calculate_account_complexity_ge_1 (o : OpportunityData) :
  1 <= _calculate_account_complexity o.
Proof.
  unfold _calculate_account_complexity.
  repeat match goal with
         | |- context [if ?b then _ else _] => destruct b
         end; lra.
Qed.

Lemma _get_deal_size_multiplier_pos (tier : string) :
  0 < _get_deal_size_multiplier tier.
Proof.
  unfold _get_deal_size_multiplier.
  repeat (destruct (String.eqb tier _)); lra.
Qed.

Lemma account_weight_nonneg (o : OpportunityData) (t : TouchpointData) :
  valid_opportunity o -> valid_touchpoint t -> 0 <= account_weight o t.
Proof.
  intros (_ & Hd & Hi) [He _]. unfold account_weight.
  pose proof (_calculate_account_complexity_ge_1 o).
  pose proof (_get_deal_size_multiplier_pos (deal_size_tier o)).
  pose proof (touchpoint_type_weights_pos (touchpoint_type t)).
  assert (0 <= IZR (decision_makers_count o + influencers_count o))
    by (apply IZR_le; lia).
  assert (0 <= touchpoint_type_weights (touchpoint_type t)
               * (engagement_score t / 100))
    by (apply Rmult_le_pos; lra).
  repeat apply Rmult_le_pos; try lra.
  destruct (is_sales_touch t); [|destruct (is_marketing_touch t)]; lra.
Qed.

Lemma stage_progression_weights_pos (st : B2BStageType) :
  0 < stage_progression_weights st.
Proof. destruct st; simpl; lra. Qed.

Lemma _get_expected_cycle_days_pos (tier : string) :
  (0 < _get_expected_cycle_days tier)%Z.
Proof.
  unfold _get_expected_cycle_days.
  repeat (destruct (String.eqb tier _)); lia.
Qed.

Lemma velocity_bonus_early (o : OpportunityData) :
  (sales_cycle_days o < _get_expected_cycle_days (deal_size_tier o))%Z ->
  velocity_bonus o
  = 1 + IZR (_get_expected_cycle_days (deal_size_tier o)
             - sales_cycle_days o)
        / IZR (_get_expected_cycle_days (deal_size_tier o)) * 0.5.
Proof.
  intros H. unfold velocity_bonus.
  destruct (Z.ltb_spec (sales_cycle_days o)
              (_get_expected_cycle_days (deal_size_tier o))); [auto|lia].
Qed.

Lemma velocity_bonus_late (o : OpportunityData) :
  (_get_expected_cycle_days (deal_size_tier o) <= sales_cycle_days o)%Z ->
  velocity_bonus o
  = Rmax 0.5
      (1 - IZR (sales_cycle_days o
                - _get_expected_cycle_days (deal_size_tier o))
           / IZR (_get_expected_cycle_days (deal_size_tier o)) * 0.3).
Proof.
  intros H. unfold velocity_bonus.
  destruct (Z.ltb_spec (sales_cycle_days o)
              (_get_expected_cycle_days (deal_size_tier o))); [lia|auto].
Qed.

Lemma velocity_bonus_range (o : OpportunityData) :
  0.5 <= velocity_bonus o
  /\ ((_get_expected_cycle_days (deal_size_tier o) <= sales_cycle_days o)%Z
      -> velocity_bonus o <= 1)
  /\ ((sales_cycle_days o < _get_expected_cycle_days (deal_size_tier o))%Z
      -> 1 < velocity_bonus o)
  /\ ((0 <= sales_cycle_days o)%Z -> velocity_bonus o <= 1.5).
Proof.
  pose proof (_get_expected_cycle_days_pos (deal_size_tier o)) as He.
  set (e := _get_expected_cycle_days (deal_size_tier o)) in *.
  assert (HeR : 0 < IZR e) by (apply IZR_lt; lia).
  assert (Hlate : (e <= sales_cycle_days o)%Z ->
                  0.5 <= velocity_bonus o <= 1).
  { intros H. rewrite velocity_bonus_late by exact H. fold e.
    assert (0 <= IZR (sales_cycle_days o - e) / IZR e).
    { apply Rmult_le_pos; [apply IZR_le; lia|].
      apply Rlt_le, Rinv_0_lt_compat, HeR. }
    unfold Rmax. destruct (Rle_dec _ _); lra. }
  assert (Hearly : (sales_cycle_days o < e)%Z ->
                   1 < velocity_bonus o
                   /\ ((0 <= sales_cycle_days o)%Z ->
                       velocity_bonus o <= 1.5)).
  { intros H. rewrite velocity_bonus_early by exact H. fold e.
    assert (0 < IZR (e - sales_cycle_days o) / IZR e).
    { apply Rdiv_lt_0_compat; auto. apply IZR_lt. lia. }
    split; [lra|]. intros Hnonneg.
    assert (IZR (e - sales_cycle_days o) / IZR e <= 1).
    { apply Rmult_le_reg_r with (IZR e); auto.
      unfold Rdiv. rewrite Rmult_assoc, Rinv_l by lra.
      rewrite Rmult_1_r, Rmult_1_l. apply IZR_le. lia. }
    lra. }
  destruct (Z.lt_ge_cases (sales_cycle_days o) e) as [H|H].
  - destruct (Hearly H) as [H1 H2].
    repeat split; auto; try lra; intros; lia.
  - destruct (Hlate H) as [H1 H2].
    repeat split; auto; try lra; intros; try lia.
Qed.

(** The maps of a successful run are the maps of the calculators. *)
Lemma b2b_specific_attribution_maps (leads : list LeadData)
    (opps : list OpportunityData) (tps : list TouchpointData)
    (r : B2BResults) :
  b2b_specific_attribution leads opps tps = Ok r ->
  time_weighted_attribution r = calculate_b2b_time_decay tps opps
  /\ quality_weighted_attribution r
     = calculate_lead_quality_impact leads tps
  /\ account_based_attribution r
     = calculate_account_level_attribution opps tps
  /\ stage_progression_attribution r
     = calculate_stage_progression_attribution tps
  /\ pipeline_velocity_attribution r
     = calculate_pipeline_velocity_impact opps tps
  /\ combined_b2b_attribution r = combined_of leads opps tps
  /\ generate_attribution_summary (combined_of leads opps tps)
     = Ok (attribution_summary r).
Proof.
  unfold b2b_specific_attribution. fold (combined_of leads opps tps).
  destruct (generate_attribution_summary (combined_of leads opps tps))
    as [summary|e]; simpl; [|discriminate].
  intros [= <-]. simpl. repeat split.
Qed.

(** *** Bounds *)

Lemma max_double_ge_4 : 4 <= max_double.
Proof. unfold max_double. apply IZR_le. now vm_compute. Qed.

Lemma bounded_finite (B : R) (d : dict R) :
  B <= max_double -> bounded_values B d -> finite_nonneg_values d.
Proof.
  intros HB H. unfold finite_nonneg_values, bounded_values in *.
  eapply Forall_impl; [|exact H].
  intros kv [H0 H1]. split; auto.
  unfold finite_double. rewrite Rabs_pos_eq by exact H0. lra.
Qed.

Lemma bounded_get_or (B : R) (d : dict R) (k : string) :
  0 <= B -> bounded_values B d -> 0 <= get_or d k 0 <= B.
Proof.
  intros HB H. unfold get_or. destruct (get d k) as [v|] eqn:G; [|lra].
  apply get_Some_in in G.
  unfold bounded_values in H. rewrite Forall_forall in H.
  exact (H _ G).
Qed.

Lemma in_range_opportunity_valid (o : OpportunityData) :
  in_range_opportunity o -> valid_opportunity o.
Proof. unfold in_range_opportunity, valid_opportunity. intuition lia. Qed.

(** The shares of one opportunity stay within its amount. *)
Lemma bounded_normalized_assign (weight_of : TouchpointData -> R)
    (amt B : R) (tps : list TouchpointData) (aw : dict R) :
  (forall t, In t tps -> 0 <= weight_of t) -> 0 <= amt <= B ->
  bounded_values B aw ->
  bounded_values B (normalized_assign weight_of amt tps aw).
Proof.
  intros Hw Hamt Haw. unfold normalized_assign.
  rewrite weight_inner_fst, weight_inner_snd. simpl fst. simpl snd.
  rewrite Rplus_0_l.
  destruct (Rlt_dec 0 (pysum (map weight_of tps))) as [Hpos|Hn]; auto.
  unfold assign_normalized, items.
  assert (Htw : Forall (fun kv : string * R =>
                          0 <= snd kv <= pysum (map weight_of tps))
                  (assign_loop touchpoint_id weight_of tps empty)).
  { apply Forall_assign_loop; [|constructor].
    intros x k Hx. simpl. split; auto.
    now apply pysum_map_In_le. }
  apply (Forall_assign_loop fst
           (fun kv : string * R =>
              snd kv / pysum (map weight_of tps) * amt)); auto.
  intros [k' w] k Hin. simpl.
  rewrite Forall_forall in Htw.
  specialize (Htw _ Hin). simpl in Htw.
  pose proof (share_within_amount w (pysum (map weight_of tps)) amt).
  lra.
Qed.

Lemma bounded_time_decay (tps : list TouchpointData)
    (opps : list OpportunityData) :
  Forall in_range_opportunity opps ->
  bounded_values max_double (calculate_b2b_time_decay tps opps).
Proof.
  intros Ho. rewrite Forall_forall in Ho.
  unfold calculate_b2b_time_decay, calculate_b2b_time_decay_with.
  apply (fold_left_invariant (bounded_values max_double)); [constructor|].
  intros aw o Hin Haw. unfold time_decay_step.
  destruct (opp_touchpoints tps o) as [|t0 l]; auto.
  apply bounded_normalized_assign; auto.
  - intros t _. apply time_decay_weight_nonneg.
  - apply (Ho o Hin).
Qed.

(** The quality weight in exact arithmetic: the score multiplier is capped
    at 2, so the weight is at most 1.5 * 2 * 1.1 * 1.1. *)
Lemma lead_quality_weight_range (lead : LeadData) (t : TouchpointData) :
  0 <= engagement_score t <= 100 ->
  (0 <= lead_score lead)%Z ->
  (0 <= demographic_score lead <= 100)%Z ->
  (0 <= firmographic_score lead <= 100)%Z ->
  0 <= lead_quality_weight lead t <= 3.63.
Proof.
  intros He Hs [Hd0 Hd1] [Hf0 Hf1]. unfold lead_quality_weight.
  apply IZR_le in Hs, Hd0, Hd1, Hf0, Hf1.
  set (b := engagement_score t / 100).
  set (q := lead_quality_multipliers (lead_quality_tier lead)).
  set (m := Rmin (IZR (lead_score lead) / 100) 2).
  set (d := 1 + IZR (demographic_score lead) / 1000).
  set (f := 1 + IZR (firmographic_score lead) / 1000).
  assert (Hb : 0 <= b <= 1) by (unfold b; lra).
  assert (Hq : 0 < q <= 1.5).
  { unfold q, lead_quality_multipliers.
    repeat (destruct (String.eqb _ _)); lra. }
  assert (Hm : 0 <= m <= 2).
  { unfold m, Rmin. destruct (Rle_dec _ _); lra. }
  assert (Hdd : 1 <= d <= 1.1) by (unfold d; lra).
  assert (Hff : 1 <= f <= 1.1) by (unfold f; lra).
  assert (H1 : 0 <= b * q <= 1.5) by nra.
  assert (H2 : 0 <= b * q * m <= 3) by nra.
  assert (H3 : 0 <= b * q * m * d <= 3.3) by nra.
  nra.
Qed.

Lemma bounded_lead_quality (leads : list LeadData)
    (tps : list TouchpointData) :
  Forall in_range_lead leads -> Forall valid_touchpoint tps ->
  bounded_values 3.63 (calculate_lead_quality_impact leads tps).
Proof.
  intros Hl Ht. rewrite Forall_forall in Hl, Ht.
  unfold calculate_lead_quality_impact.
  apply (fold_left_invariant (bounded_values 3.63)); [constructor|].
  intros aw t Hin Haw.
  destruct (get (lead_lookup leads) (tp_lead_id t)) as [l|] eqn:G; auto.
  apply Forall_set; auto. intros k'. simpl.
  apply lead_lookup_In in G. destruct (Hl l G) as (Hs & Hd & _ & Hf).
  apply lead_quality_weight_range; auto; [apply (Ht t Hin) | lia].
Qed.

Lemma bounded_account_level (opps : list OpportunityData)
    (tps : list TouchpointData) :
  Forall in_range_opportunity opps -> Forall valid_touchpoint tps ->
  bounded_values max_double (calculate_account_level_attribution opps tps).
Proof.
  intros Ho Ht. rewrite Forall_forall in Ho, Ht.
  unfold calculate_account_level_attribution.
  apply (fold_left_invariant (bounded_values max_double)); [constructor|].
  intros aw o Hin Haw. rewrite account_step_unfold.
  destruct (opp_touchpoints tps o) as [|t0 l] eqn:E; auto.
  apply bounded_normalized_assign; auto.
  - intros t Hin'. apply account_weight_nonneg.
    + apply in_range_opportunity_valid, (Ho o Hin).
    + apply Ht. rewrite <- E in Hin'. now apply opp_touchpoints_In in Hin'.
  - apply (Ho o Hin).
Qed.

(** The stage weight in exact arithmetic is at most 1.5 * 1.6. *)
Lemma stage_weight_of_range (t : TouchpointData) :
  0 <= engagement_score t <= 100 -> 0 <= stage_weight_of t <= 2.4.
Proof.
  intros He. unfold stage_weight_of.
  assert (0 < stage_progression_weights (stage_influence t) <= 1.5)
    by (destruct (stage_influence t); simpl; lra).
  assert (0 < touchpoint_type_weights (touchpoint_type t) <= 1.6)
    by (destruct (touchpoint_type t); simpl; lra).
  assert (0 <= engagement_score t / 100 <= 1) by lra.
  assert (0 <= engagement_score t / 100
               * stage_progression_weights (stage_influence t) <= 1.5)
    by nra.
  nra.
Qed.

Lemma bounded_stage_progression (tps : list TouchpointData) :
  Forall valid_touchpoint tps ->
  bounded_values 2.4 (calculate_stage_progression_attribution tps).
Proof.
  intros Ht. rewrite Forall_forall in Ht.
  unfold calculate_stage_progression_attribution.
  apply (Forall_assign_loop touchpoint_id stage_weight_of);
    [|constructor].
  intros t k Hin. simpl. apply stage_weight_of_range, (Ht t Hin).
Qed.

Lemma velocity_contribution_range (o : OpportunityData)
    (t : TouchpointData) :
  (0 <= sales_cycle_days o)%Z -> 0 <= engagement_score t <= 100 ->
  0 <= velocity_contribution o t <= 1.8.
Proof.
  intros Hc He. unfold velocity_contribution.
  destruct (velocity_bonus_range o) as (H0 & _ & _ & H1).
  specialize (H1 Hc).
  assert (0 <= engagement_score t / 100 <= 1) by lra.
  destruct (is_high_impact _); nra.
Qed.

Lemma bounded_pipeline_velocity (opps : list OpportunityData)
    (tps : list TouchpointData) :
  Forall in_range_opportunity opps -> Forall valid_touchpoint tps ->
  bounded_values 1.8 (calculate_pipeline_velocity_impact opps tps).
Proof.
  intros Ho Ht. rewrite Forall_forall in Ho, Ht.
  unfold calculate_pipeline_velocity_impact.
  apply (fold_left_invariant (bounded_values 1.8)); [constructor|].
  intros aw o Hin Haw. rewrite velocity_step_unfold.
  apply Forall_assign_loop; auto.
  intros t k Hin'. simpl. apply velocity_contribution_range.
  - destruct (Ho o Hin) as (_ & _ & _ & Hc). lia.
  - apply Ht. now apply opp_touchpoints_In in Hin'.
Qed.

Lemma bounded_combine (tw qw ab sw vi : dict R) :
  bounded_values max_double tw -> bounded_values 3.63 qw ->
  bounded_values max_double ab -> bounded_values 2.4 sw ->
  bounded_values 1.8 vi ->
  bounded_values max_double
    (combine_b2b_attribution_factors tw qw ab sw vi None).
Proof.
  intros H1 H2 H3 H4 H5. rewrite combine_unfold.
  apply Forall_assign_loop; [|constructor].
  intros x k _. simpl. unfold combined_score. simpl.
  pose proof max_double_ge_4 as HM.
  pose proof (bounded_get_or max_double tw x ltac:(lra) H1).
  pose proof (bounded_get_or 3.63 qw x ltac:(lra) H2).
  pose proof (bounded_get_or max_double ab x ltac:(lra) H3).
  pose proof (bounded_get_or 2.4 sw x ltac:(lra) H4).
  pose proof (bounded_get_or 1.8 vi x ltac:(lra) H5).
  lra.
Qed.

(** The quality weight of [lead_huge] is beyond the range of a double. *)
Lemma lead_huge_weight : max_double < lead_quality_weight lead_huge tp_T.
Proof.
  unfold lead_quality_weight.
  cbn [lead_huge sample_lead tp_T sample_touchpoint engagement_score
       lead_quality_tier lead_score demographic_score firmographic_score].
  replace (lead_quality_multipliers "A") with 1.5
    by (unfold lead_quality_multipliers; simpl; lra).
  assert (Hm : Rmin (100 / 100) 2 = 1).
  { unfold Rmin. destruct (Rle_dec _ _); lra. }
  rewrite Hm.
  assert (HE : IZR (10 ^ 200) = 1000 * IZR (10 ^ 197)).
  { rewrite <- mult_IZR. f_equal. }
  rewrite HE.
  assert (HP : IZR (10 ^ 197) * IZR (10 ^ 197) = IZR (10 ^ 394)).
  { rewrite <- mult_IZR. f_equal. }
  assert (HM : 4 * max_double < 3 * IZR (10 ^ 394)).
  { unfold max_double. rewrite <- !mult_IZR. apply IZR_lt. now vm_compute. }
  assert (H0 : 0 <= IZR (10 ^ 197)) by (apply IZR_le; now vm_compute).
  set (E := IZR (10 ^ 197)) in *. set (P := IZR (10 ^ 394)) in *.
  set (M := max_double) in *.
  replace (1000 * E / 1000) with E by (field; lra).
  nra.
Qed.

(** C7, as amended.  For every input within the ranges of the data model
    (engagement score in [0, 100], cost non-negative, scores from 0 to
    100, counts and cycle days non-negative and of at most 64 bits, amount
    a non-negative finite double) every value of the five factor maps and
    of the combined map is finite and non-negative, for the maps as the
    calculators compute them and so for the maps of every result
    [b2b_specific_attribution] returns. *)
Theorem b2b_values_finite_nonneg (leads : list LeadData)
    (opps : list OpportunityData) (tps : list TouchpointData) :
  Forall in_range_lead leads -> Forall in_range_opportunity opps ->
  Forall valid_touchpoint tps ->
  (finite_nonneg_values (calculate_b2b_time_decay tps opps)
   /\ finite_nonneg_values (calculate_lead_quality_impact leads tps)
   /\ finite_nonneg_values (calculate_account_level_attribution opps tps)
   /\ finite_nonneg_values (calculate_stage_progression_attribution tps)
   /\ finite_nonneg_values (calculate_pipeline_velocity_impact opps tps)
   /\ finite_nonneg_values (combined_of leads opps tps))
  /\ (forall r, b2b_specific_attribution leads opps tps = Ok r ->
        finite_nonneg_values (time_weighted_attribution r)
        /\ finite_nonneg_values (quality_weighted_attribution r)
        /\ finite_nonneg_values (account_based_attribution r)
        /\ finite_nonneg_values (stage_progression_attribution r)
        /\ finite_nonneg_values (pipeline_velocity_attribution r)
        /\ finite_nonneg_values (combined_b2b_attribution r)).
Proof.
  intros Hl Ho Ht.
  pose proof max_double_ge_4 as HM.
  pose proof (bounded_time_decay tps opps Ho) as H1.
  pose proof (bounded_lead_quality leads tps Hl Ht) as H2.
  pose proof (bounded_account_level opps tps Ho Ht) as H3.
  pose proof (bounded_stage_progression tps Ht) as H4.
  pose proof (bounded_pipeline_velocity opps tps Ho Ht) as H5.
  pose proof (bounded_combine _ _ _ _ _ H1 H2 H3 H4 H5) as H6.
  fold (combined_of leads opps tps) in H6.
  apply (bounded_finite max_double) in H1; [|lra].
  apply (bounded_finite 3.63) in H2; [|lra].
  apply (bounded_finite max_double) in H3; [|lra].
  apply (bounded_finite 2.4) in H4; [|lra].
  apply (bounded_finite 1.8) in H5; [|lra].
  apply (bounded_finite max_double) in H6; [|lra].
  split; [tauto|].
  intros r Hr.
  destruct (b2b_specific_attribution_maps leads opps tps r Hr)
    as (-> & -> & -> & -> & -> & -> & _).
  tauto.
Qed.

Lemma b2b_values_finite_nonneg_witness :
  finite_nonneg_values
    (combined_of [lead_good] [opp_1000] [tp_early; tp_T]).
Proof.
  apply (b2b_values_finite_nonneg [lead_good] [opp_1000] [tp_early; tp_T]).
  - constructor; [|constructor].
    unfold in_range_lead. simpl. lia.
  - constructor; [|constructor].
    unfold in_range_opportunity, int_bound. simpl.
    repeat split; try lra; try lia.
    unfold max_double. apply IZR_le. now vm_compute.
  - repeat constructor; simpl; lra.
Defined.

(** C7 fails as stated: scores that are merely non-negative do not keep
    the values finite.  With demographic and firmographic scores of
    10^200 the quality weight of a touchpoint exceeds the largest double,
    and the engine's product is [inf]. *)
Lemma b2b_values_finite_counterexample :
  ~ (forall leads tps,
       Forall valid_lead leads -> Forall valid_touchpoint tps ->
       finite_nonneg_values (calculate_lead_quality_impact leads tps)).
Proof.
  intros H. specialize (H [lead_huge] [tp_T]).
  assert (Hl : Forall valid_lead [lead_huge]).
  { repeat constructor; now vm_compute. }
  assert (Ht : Forall valid_touchpoint [tp_T]).
  { repeat constructor; simpl; lra. }
  specialize (H Hl Ht).
  assert (E : calculate_lead_quality_impact [lead_huge] [tp_T]
              = [("T"%string, lead_quality_weight lead_huge tp_T)])
    by reflexivity.
  rewrite E in H. inversion H as [|? ? [Hfin Hnn] _]; subst.
  simpl snd in *. unfold finite_double in Hfin.
  rewrite Rabs_pos_eq in Hfin by exact Hnn.
  pose proof lead_huge_weight. lra.
Qed.

(** ** Channel performance *)

Ltac run_facade :=
  unfold calculate_b2b_attribution, _store_attribution_results,
    bind, try_except, lift, ret, raise, log_msg, session_add,
    session_commit, session_rollback; simpl.

(** The second loop fails exactly on a channel that has a cost and no
    attribution. *)
Lemma channel_metrics_raises (m : ChannelTotals) :
  channel_metrics m = Raise ZeroDivisionError
  <-> 0 < total_cost m /\ total_attribution m = 0.
Proof.
  unfold channel_metrics, pydiv.
  destruct (Rlt_dec 0 (total_cost m)) as [Hc|Hc].
  - destruct (Req_dec_T (total_attribution m) 0) as [Ha|Ha]; simpl.
    + tauto.
    + split; [discriminate | tauto].
  - split; [discriminate | tauto].
Qed.

Lemma channel_metrics_ok (m : ChannelTotals) :
  0 < total_attribution m -> 0 <= total_cost m ->
  exists cm, channel_metrics m = Ok cm
             /\ cost_per_attribution cm
                = total_cost m / total_attribution m.
Proof.
  intros Ha Hc. unfold channel_metrics, pydiv.
  destruct (Rlt_dec 0 (total_cost m)) as [Hc'|Hc'].
  - destruct (Req_dec_T (total_attribution m) 0) as [E|E]; [lra|].
    simpl. eexists. split; reflexivity.
  - eexists. split; [reflexivity|]. simpl.
    assert (total_cost m = 0) as -> by lra. unfold Rdiv. ring.
Qed.

Lemma single_channel_raises :
  analyze_channel_performance [("T"%string, 0)] [tp_costly]
  = Raise ZeroDivisionError.
Proof.
  unfold analyze_channel_performance. simpl.
  unfold channel_metrics, pydiv. simpl.
  destruct (Rlt_dec 0 (0 + 10)) as [_|H]; [|lra].
  destruct (Req_dec_T (0 + 0) 0) as [_|H]; [|lra].
  reflexivity.
Qed.

Lemma combined_two_touchpoints :
  combined_of [] [] [tp_costly; tp_web]
  = [("T"%string, 0); ("W"%string, 0.036)].
Proof.
  unfold combined_of. rewrite combine_unfold.
  cbn. unfold combined_score, get_or. cbn.
  f_equal; [|f_equal]; f_equal; unfold stage_weight_of; cbn; lra.
Qed.

(** C4: the code does not do what the claim says.  Two touchpoints, an
    e-mail with cost 10 and engagement 0 and a web visit with engagement
    50, give the combined map T: 0, W: 0.036.  The e-mail channel has
    [total_cost = 10] and [total_attribution = 0]; the roll-up does not
    yield [cost_per_attribution = 0] for it: the division by
    [total_attribution] is only guarded by [total_cost > 0] and raises
    [ZeroDivisionError], in the analyzer and so in the calculate
    operation. *)
Theorem channel_cost_per_attribution_raises :
  (exists r, b2b_specific_attribution [] [] [tp_costly; tp_web] = Ok r
             /\ combined_b2b_attribution r
                = [("T"%string, 0); ("W"%string, 0.036)])
  /\ total_cost
       (get_or (channel_totals [("T"%string, 0); ("W"%string, 0.036)]
                               [tp_costly; tp_web])
               "email" new_channel) = 10
  /\ total_attribution
       (get_or (channel_totals [("T"%string, 0); ("W"%string, 0.036)]
                               [tp_costly; tp_web])
               "email" new_channel) = 0
  /\ analyze_channel_performance [("T"%string, 0); ("W"%string, 0.036)]
                                 [tp_costly; tp_web]
     = Raise ZeroDivisionError
  /\ fst (calculate_b2b_attribution two_touchpoints_env None None None None
            empty_world)
     = Raise ZeroDivisionError.
Proof.
  assert (Hsum : exists sm,
             generate_attribution_summary
               [("T"%string, 0); ("W"%string, 0.036)] = Ok (Some sm)).
  { apply generate_attribution_summary_ok; [discriminate|].
    unfold pysum. simpl. lra. }
  destruct Hsum as [sm Hsm].
  assert (Hr : b2b_specific_attribution [] [] [tp_costly; tp_web]
               = Ok {| time_weighted_attribution :=
                         calculate_b2b_time_decay [tp_costly; tp_web] [];
                       quality_weighted_attribution :=
                         calculate_lead_quality_impact
                           [] [tp_costly; tp_web];
                       account_based_attribution :=
                         calculate_account_level_attribution
                           [] [tp_costly; tp_web];
                       stage_progression_attribution :=
                         calculate_stage_progression_attribution
                           [tp_costly; tp_web];
                       pipeline_velocity_attribution :=
                         calculate_pipeline_velocity_impact
                           [] [tp_costly; tp_web];
                       combined_b2b_attribution :=
                         [("T"%string, 0); ("W"%string, 0.036)];
                       attribution_summary := Some sm |}).
  { unfold b2b_specific_attribution.
    fold (combined_of [] [] [tp_costly; tp_web]).
    rewrite combined_two_touchpoints, Hsm. reflexivity. }
  assert (Hc : analyze_channel_performance
                 [("T"%string, 0); ("W"%string, 0.036)] [tp_costly; tp_web]
               = Raise ZeroDivisionError).
  { unfold analyze_channel_performance. simpl.
    unfold channel_metrics at 1, pydiv. simpl.
    destruct (Rlt_dec 0 (0 + 10)) as [_|H]; [|lra].
    destruct (Req_dec_T (0 + 0) 0) as [_|H]; [|lra].
    reflexivity. }
  split; [eexists; split; [exact Hr | reflexivity]|].
  split; [simpl; lra|]. split; [simpl; lra|]. split; [exact Hc|].
  run_facade. rewrite Hr. simpl. rewrite Hc. reflexivity.
Qed.

(** ** The facade: writer and weights *)

(** The run of the facade once the records are loaded and the engine and
    the analyzer have succeeded, by the outcome of the writer. *)
Lemma calculate_after_compute (env : Env) (ids : option (list string))
    (date_from date_to : option datetime) (weights : option (dict R))
    (w : World) (leads : list LeadData) (opps : list OpportunityData)
    (tps : list TouchpointData) (r : B2BResults)
    (c : dict ChannelMetrics) :
  env_load env ids date_from date_to = Ok (leads, opps, tps) ->
  b2b_specific_attribution leads opps tps = Ok r ->
  analyze_channel_performance (combined_b2b_attribution r) tps = Ok c ->
  let doc :=
    {| engine_results := r;
       channel_performance := c;
       sales_marketing_alignment :=
         analyze_sales_marketing_alignment (combined_b2b_attribution r) tps;
       metadata :=
         {| leads_analyzed := List.length leads;
            opportunities_analyzed := List.length opps;
            touchpoints_analyzed := List.length tps;
            analysis_date := env_analysis_time env;
            attribution_weights := weights |} |} in
  let row :=
    {| model_name := "B2B_Marketing_Attribution";
       results := doc;
       created_at := env_store_time env;
       meta_account_ids := ids;
       meta_model_type := "b2b_comprehensive" |} in
  calculate_b2b_attribution env ids date_from date_to weights w
  = match env_commit env with
    | Some e =>
        (Raise e,
         {| pending := [];
            committed := committed w;
            log := ((log w
                     ++ [(INFO, "Starting B2B attribution calculation")])
                    ++ [(ERROR, "Error storing attribution results: "
                                ++ exn_str e)])
                   ++ [(ERROR, "Error in B2B attribution calculation: "
                               ++ exn_str e)] |})
    | None =>
        (Ok doc,
         {| pending := [];
            committed := committed w ++ (pending w ++ [row]);
            log := ((log w
                     ++ [(INFO, "Starting B2B attribution calculation")])
                    ++ [(INFO, "Attribution results stored successfully")])
                   ++ [(INFO, "B2B attribution calculation completed "
                              ++ "successfully")] |})
    end%string.
Proof.
  intros Hload Hr Hc doc row. run_facade.
  rewrite Hload. simpl. rewrite Hr. simpl. rewrite Hc. simpl.
  destruct (env_commit env); reflexivity.
Qed.

(** The engine and the analyzer succeed on empty input. *)
Lemma compute_on_empty_input :
  exists r c,
    b2b_specific_attribution [] [] [] = Ok r
    /\ analyze_channel_performance (combined_b2b_attribution r) [] = Ok c.
Proof. eexists. eexists. split; reflexivity. Qed.

(** C3, as amended.  When the records load and the engine and the analyzer
    succeed but the writer fails on commit, the failure is logged by the
    store step and by the calculate operation, the session is rolled back
    with nothing committed, and the writer's exception is raised to the
    caller: no result document is returned. *)
Theorem writer_failure_propagates (env : Env) (ids : option (list string))
    (date_from date_to : option datetime) (weights : option (dict R))
    (w : World) (leads : list LeadData) (opps : list OpportunityData)
    (tps : list TouchpointData) (r : B2BResults)
    (c : dict ChannelMetrics) (e : exn) :
  env_load env ids date_from date_to = Ok (leads, opps, tps) ->
  b2b_specific_attribution leads opps tps = Ok r ->
  analyze_channel_performance (combined_b2b_attribution r) tps = Ok c ->
  env_commit env = Some e ->
  let run := calculate_b2b_attribution env ids date_from date_to weights w in
  fst run = Raise e
  /\ committed (snd run) = committed w
  /\ pending (snd run) = []
  /\ log (snd run)
     = log w
       ++ [(INFO, "Starting B2B attribution calculation"%string);
           (ERROR,
            ("Error storing attribution results: " ++ exn_str e)%string);
           (ERROR,
            ("Error in B2B attribution calculation: " ++ exn_str e)%string)].
Proof.
  intros Hload Hr Hc He run. unfold run.
  rewrite (calculate_after_compute env ids date_from date_to weights w
             leads opps tps r c Hload Hr Hc).
  rewrite He. simpl. repeat split.
  now rewrite <- !app_assoc.
Qed.

Lemma writer_failure_propagates_witness :
  fst (calculate_b2b_attribution failing_writer_env None None None None
         empty_world)
  = Raise (WriterError "disk full").
Proof.
  destruct compute_on_empty_input as (r & c & Hr & Hc).
  apply (writer_failure_propagates failing_writer_env None None None None
           empty_world [] [] [] r c (WriterError "disk full")
           eq_refl Hr Hc eq_refl).
Defined.

(** C3 fails as stated: the computation succeeds on empty input, the
    writer fails, and the calculate operation raises. *)
Lemma writer_failure_counterexample :
  (exists r, b2b_specific_attribution [] [] [] = Ok r)
  /\ fst (calculate_b2b_attribution failing_writer_env None None None None
            empty_world)
     = Raise (WriterError "disk full")
  /\ (forall doc,
        fst (calculate_b2b_attribution failing_writer_env None None None
               None empty_world) <> Ok doc).
Proof.
  assert (E : fst (calculate_b2b_attribution failing_writer_env None None
                     None None empty_world)
              = Raise (WriterError "disk full")) by reflexivity.
  split; [eexists; reflexivity|]. split; [exact E|].
  intros doc. rewrite E. discriminate.
Qed.

(** C9.  The [attribution_weights] argument of the calculate operation
    reaches the metadata block and nothing else: for a fixed dataset and
    any two weight dictionaries (or none) the two runs raise the same
    exception or return documents with identical factor maps, combined
    map, summary, channel analysis and alignment analysis, they write the
    same log, and a returned document echoes its weights in the
    metadata. *)
Theorem weights_only_echoed (env : Env) (ids : option (list string))
    (date_from date_to : option datetime) (w1 w2 : option (dict R))
    (w : World) :
  let run1 := calculate_b2b_attribution env ids date_from date_to w1 w in
  let run2 := calculate_b2b_attribution env ids date_from date_to w2 w in
  result_map computed_outputs (fst run1)
  = result_map computed_outputs (fst run2)
  /\ log (snd run1) = log (snd run2)
  /\ (forall doc, fst run1 = Ok doc ->
                  attribution_weights (metadata doc) = w1)
  /\ (forall doc1 doc2, fst run1 = Ok doc1 -> fst run2 = Ok doc2 ->
        engine_results doc1 = engine_results doc2
        /\ channel_performance doc1 = channel_performance doc2
        /\ sales_marketing_alignment doc1 = sales_marketing_alignment doc2).
Proof.
  intros run1 run2. unfold run1, run2. clear run1 run2.
  destruct (env_load env ids date_from date_to) as [[[leads opps] tps]|e]
    eqn:Hload.
  2:{ run_facade. rewrite Hload. simpl.
      repeat split; intros; discriminate. }
  destruct (b2b_specific_attribution leads opps tps) as [r|e] eqn:Hr.
  2:{ run_facade. rewrite Hload. simpl. rewrite Hr. simpl.
      repeat split; intros; discriminate. }
  destruct (analyze_channel_performance (combined_b2b_attribution r) tps)
    as [c|e] eqn:Hc.
  2:{ run_facade. rewrite Hload. simpl. rewrite Hr. simpl. rewrite Hc.
      simpl. repeat split; intros; discriminate. }
  rewrite !(calculate_after_compute env ids date_from date_to _ w
              leads opps tps r c Hload Hr Hc).
  destruct (env_commit env) as [e|]; simpl.
  - repeat split; intros; discriminate.
  - split; [reflexivity|]. split; [reflexivity|]. split.
    + intros doc [= <-]. reflexivity.
    + intros doc1 doc2 [= <-] [= <-]. repeat split.
Qed.

Lemma weights_only_echoed_witness :
  exists doc,
    fst (calculate_b2b_attribution (env_with_commit None) None None None
           (Some [("time"%string, 1)]) empty_world) = Ok doc
    /\ attribution_weights (metadata doc) = Some [("time"%string, 1)]
    /\ result_map computed_outputs
         (fst (calculate_b2b_attribution (env_with_commit None) None None
                 None None empty_world))
       = Ok (computed_outputs doc).
Proof.
  eexists. split; [reflexivity|].
  destruct (weights_only_echoed (env_with_commit None) None None None
              (Some [("time"%string, 1)]) None empty_world)
    as (Hsame & _ & Hecho & _).
  split.
  - apply Hecho. reflexivity.
  - rewrite <- Hsame. reflexivity.
Defined.

(** * Further properties of the engine *)

(** ** Time decay: shares *)

Lemma half_life_days_ge_14 (o : OpportunityData) (avg : Z) :
  14 <= half_life_days o avg.
Proof. unfold half_life_days. apply Rmax_r. Qed.

(** The later of two touchpoints of one type weighs at least as much. *)
Lemma time_decay_weight_mono (avg : Z) (o : OpportunityData)
    (t1 t2 : TouchpointData) :
  touchpoint_type t1 = touchpoint_type t2 ->
  (timestamp t1 <= timestamp t2)%Z ->
  time_decay_weight avg o t1 <= time_decay_weight avg o t2.
Proof.
  intros Hty Hts. unfold time_decay_weight. rewrite Hty.
  pose proof (touchpoint_type_weights_pos (touchpoint_type t2)) as Hw.
  apply Rmult_le_compat_r; [lra|].
  apply math_exp_le_mono.
  pose proof (half_life_days_ge_14 o avg) as Hh.
  set (h := half_life_days o avg) in *.
  assert (Hd : (Z.max 0 (timedelta_days (conversion_date o) (timestamp t2))
                <= Z.max 0 (timedelta_days (conversion_date o)
                                           (timestamp t1)))%Z).
  { apply Z.max_le_compat_l. unfold timedelta_days.
    apply Z.div_le_mono; lia. }
  apply IZR_le in Hd.
  unfold Rdiv. apply Rmult_le_compat_r.
  - apply Rlt_le, Rinv_0_lt_compat. lra.
  - lra.
Qed.

(** X1.  Time decay favours recency: for the last opportunity of an
    account with a positive total weight, with distinct touchpoint ids and
    a non-negative amount, of two touchpoints of the account with the same
    type the one with the later timestamp holds at least as much value. *)
Theorem time_decay_recent_touch_earns_more (tps : list TouchpointData)
    (pre post : list OpportunityData) (o : OpportunityData)
    (t1 t2 : TouchpointData) :
  NoDup (map touchpoint_id tps) ->
  Forall (fun o' => opp_account_id o' <> opp_account_id o) post ->
  0 <= amount o ->
  0 < total_weight tps o ->
  In t1 (opp_touchpoints tps o) -> In t2 (opp_touchpoints tps o) ->
  touchpoint_type t1 = touchpoint_type t2 ->
  (timestamp t1 <= timestamp t2)%Z ->
  get_or (calculate_b2b_time_decay tps (pre ++ o :: post))
         (touchpoint_id t1) 0
  <= get_or (calculate_b2b_time_decay tps (pre ++ o :: post))
            (touchpoint_id t2) 0.
Proof.
  intros Hnd Hpost Hamt Hpos H1 H2 Hty Hts.
  unfold calculate_b2b_time_decay, get_or.
  rewrite !(time_decay_value 180 tps Hnd pre post o) by auto.
  pose proof (time_decay_weight_mono 180 o t1 t2 Hty Hts) as Hw.
  apply Rmult_le_compat_r; auto.
  unfold Rdiv. apply Rmult_le_compat_r; auto.
  apply Rlt_le, Rinv_0_lt_compat, Hpos.
Qed.

Lemma time_decay_recent_touch_earns_more_witness :
  get_or (calculate_b2b_time_decay [tp_early; tp_T] [opp_500])
         (touchpoint_id tp_early) 0
  <= get_or (calculate_b2b_time_decay [tp_early; tp_T] [opp_500])
            (touchpoint_id tp_T) 0.
Proof.
  apply (time_decay_recent_touch_earns_more [tp_early; tp_T] [] [] opp_500
           tp_early tp_T).
  - repeat constructor; simpl; intuition discriminate.
  - constructor.
  - simpl. lra.
  - apply (total_weight_pos _ _ tp_T); [simpl; tauto | now vm_compute].
  - simpl. tauto.
  - simpl. tauto.
  - reflexivity.
  - simpl. lia.
Defined.

(** X2.  For the last opportunity of an account with a positive total
    weight, with distinct touchpoint ids and a non-negative amount, every
    touchpoint of the account holds a time-weighted value between 0 and
    the amount of the opportunity. *)
Theorem time_decay_share_within_amount (tps : list TouchpointData)
    (pre post : list OpportunityData) (o : OpportunityData)
    (t : TouchpointData) :
  NoDup (map touchpoint_id tps) ->
  Forall (fun o' => opp_account_id o' <> opp_account_id o) post ->
  0 <= amount o ->
  0 < total_weight tps o ->
  In t (opp_touchpoints tps o) ->
  0 <= get_or (calculate_b2b_time_decay tps (pre ++ o :: post))
              (touchpoint_id t) 0
    <= amount o.
Proof.
  intros Hnd Hpost Hamt Hpos Hin.
  unfold calculate_b2b_time_decay, get_or.
  rewrite (time_decay_value 180 tps Hnd pre post o) by auto.
  unfold total_weight in Hpos.
  set (w := time_decay_weight 180 o) in *.
  assert (Hle : w t <= pysum (map w (opp_touchpoints tps o))).
  { apply pysum_map_In_le; auto.
    intros y _. apply time_decay_weight_nonneg. }
  assert (Hwt : 0 <= w t) by apply time_decay_weight_nonneg.
  apply share_within_amount; auto.
Qed.

Lemma time_decay_share_within_amount_witness :
  0 <= get_or (calculate_b2b_time_decay [tp_early; tp_T] [opp_1000; opp_500])
              (touchpoint_id tp_early) 0
    <= 500.
Proof.
  apply (time_decay_share_within_amount [tp_early; tp_T] [opp_1000] []
           opp_500 tp_early).
  - repeat constructor; simpl; intuition discriminate.
  - constructor.
  - simpl. lra.
  - apply (total_weight_pos _ _ tp_T); [simpl; tauto | now vm_compute].
  - simpl. tauto.
Defined.

(** ** Account-based attribution *)



Section AccountLevel.
Variable tps : list TouchpointData.
Hypothesis ids_distinct : NoDup (map touchpoint_id tps).




End AccountLevel.





(** X5.  The grouping dictionary of the account-based model holds, under
    each account id, exactly the touchpoints of that account in input
    order (and nothing under an id no touchpoint has): the account-based
    model and the time-decay model select the same touchpoints for an
    opportunity. *)
Theorem group_by_account_is_filter (tps : list TouchpointData)
    (o : OpportunityData) :
  get_or (group_by_account tps) (opp_account_id o) []
  = opp_touchpoints tps o.
Proof. apply group_by_account_get. Qed.

(** ** Lead quality *)






(** X7.  The lead-score multiplier is capped at 2: for an engagement score
    in [0, 100], a lead score from 0 up to the largest 64-bit integer and
    demographic and firmographic scores in 0..100, the quality weight lies
    between 0 and 3.64; the largest factors multiply to
    1.5 * 2 * 1.1 * 1.1 = 3.63. *)
Theorem lead_quality_weight_bounds (lead : LeadData) (t : TouchpointData) :
  0 <= engagement_score t <= 100 ->
  (0 <= lead_score lead <= int_bound)%Z ->
  (0 <= demographic_score lead <= 100)%Z ->
  (0 <= firmographic_score lead <= 100)%Z ->
  0 <= lead_quality_weight lead t <= 3.64.
Proof.
  intros He [Hs _] Hd Hf.
  pose proof (lead_quality_weight_range lead t He Hs Hd Hf). lra.
Qed.

Lemma lead_quality_weight_bounds_witness :
  0 <= lead_quality_weight (sample_lead "lead_1" 1000 100 100)
         (sample_touchpoint "T" "acct" "web" DEMO_REQUEST 100 0 true false)
    <= 3.64.
Proof.
  apply lead_quality_weight_bounds; simpl; try lra; unfold int_bound; lia.
Defined.

(** ** Stage progression *)

(** Assignments under fresh, distinct keys append in order. *)
Lemma assign_loop_fresh {X V : Type} (key : X -> string) (val : X -> V)
    (l : list X) (d0 : dict V) :
  NoDup (keys d0 ++ map key l) ->
  assign_loop key val l d0 = d0 ++ map (fun x => (key x, val x)) l.
Proof.
  revert d0. induction l as [|x l IH]; intros d0 H; simpl.
  - now rewrite app_nil_r.
  - unfold assign_loop in *. simpl.
    assert (Hx : ~ In (key x) (keys d0)).
    { intros Hin. apply NoDup_remove_2 in H. apply H.
      apply in_or_app. now left. }
    rewrite (set_fresh d0 (key x) (val x) (not_in_get_None _ _ Hx)).
    rewrite IH.
    + now rewrite <- app_assoc.
    + unfold keys in *. rewrite map_app. simpl.
      rewrite <- app_assoc. exact H.
Qed.

(** X8.  With distinct touchpoint ids the stage-progression map has
    exactly one entry per touchpoint, in input order, holding
    (engagement / 100) * stage weight * type weight; each value lies
    between 0 and 2.5 for an engagement score in [0, 100], the largest
    weights multiplying to 1.5 * 1.6 = 2.4. *)
Theorem stage_progression_one_entry_each (tps : list TouchpointData) :
  NoDup (map touchpoint_id tps) ->
  calculate_stage_progression_attribution tps
  = map (fun t => (touchpoint_id t,
                   engagement_score t / 100
                   * stage_progression_weights (stage_influence t)
                   * touchpoint_type_weights (touchpoint_type t))) tps
  /\ List.length (calculate_stage_progression_attribution tps)
     = List.length tps
  /\ (Forall valid_touchpoint tps ->
      Forall (fun kv : string * R => 0 <= snd kv <= 2.5)
             (calculate_stage_progression_attribution tps)).
Proof.
  intros Hnd.
  assert (E : calculate_stage_progression_attribution tps
              = map (fun t => (touchpoint_id t, stage_weight_of t)) tps).
  { unfold calculate_stage_progression_attribution.
    apply (assign_loop_fresh touchpoint_id stage_weight_of tps empty).
    exact Hnd. }
  split; [exact E|]. split.
  - rewrite E. apply length_map.
  - intros Hv. rewrite E. apply Forall_map.
    eapply Forall_impl; [|exact Hv].
    intros t [He _]. simpl.
    pose proof (stage_weight_of_range t He). lra.
Qed.

Lemma stage_progression_one_entry_each_witness :
  List.length (calculate_stage_progression_attribution [tp_T; tp_web]) = 2%nat.
Proof.
  apply (stage_progression_one_entry_each [tp_T; tp_web]).
  repeat constructor; simpl; intuition discriminate.
Defined.

(** ** Velocity bonus and complexity *)

(** X9.  The velocity bonus never drops below 0.5; a deal that closes on
    or after the expected cycle of its tier gets at most 1, a deal that
    closes earlier gets more than 1, and at most 1.5 when its cycle is not
    negative. *)
Theorem velocity_bonus_bounds (o : OpportunityData) :
  0.5 <= velocity_bonus o
  /\ ((_get_expected_cycle_days (deal_size_tier o) <= sales_cycle_days o)%Z
      -> velocity_bonus o <= 1)
  /\ ((sales_cycle_days o < _get_expected_cycle_days (deal_size_tier o))%Z
      -> 1 < velocity_bonus o)
  /\ ((0 <= sales_cycle_days o)%Z -> velocity_bonus o <= 1.5).
Proof. exact (velocity_bonus_range o). Qed.

(** X10.  Within one tier a faster deal never gets a smaller velocity
    bonus than a slower one. *)
Theorem velocity_bonus_faster_is_better (o1 o2 : OpportunityData) :
  deal_size_tier o1 = deal_size_tier o2 ->
  (sales_cycle_days o1 <= sales_cycle_days o2)%Z ->
  velocity_bonus o2 <= velocity_bonus o1.
Proof.
  intros Ht Hc.
  pose proof (_get_expected_cycle_days_pos (deal_size_tier o2)) as He.
  pose proof (velocity_bonus_range o1) as (_ & L1 & E1 & _).
  pose proof (velocity_bonus_range o2) as (_ & L2 & E2 & _).
  rewrite Ht in *.
  set (e := _get_expected_cycle_days (deal_size_tier o2)) in *.
  assert (HeR : 0 < IZR e) by (apply IZR_lt; lia).
  assert (Hi : 0 < / IZR e) by now apply Rinv_0_lt_compat.
  destruct (Z.lt_ge_cases (sales_cycle_days o1) e) as [H1|H1];
    destruct (Z.lt_ge_cases (sales_cycle_days o2) e) as [H2|H2];
    try lia.
  - rewrite (velocity_bonus_early o1), (velocity_bonus_early o2)
      by (rewrite ?Ht; exact H1 || exact H2).
    rewrite Ht. fold e.
    assert (IZR (e - sales_cycle_days o2) <= IZR (e - sales_cycle_days o1))
      by (apply IZR_le; lia).
    unfold Rdiv. nra.
  - specialize (E1 H1). specialize (L2 H2). lra.
  - rewrite (velocity_bonus_late o1), (velocity_bonus_late o2)
      by (rewrite ?Ht; exact H1 || exact H2).
    rewrite Ht. fold e.
    assert (IZR (sales_cycle_days o1 - e) <= IZR (sales_cycle_days o2 - e))
      by (apply IZR_le; lia).
    apply Rle_max_compat_l. unfold Rdiv. nra.
Qed.

Lemma velocity_bonus_faster_is_better_witness :
  velocity_bonus (sample_opportunity "slow" "acct" 1 120 "smb")
  <= velocity_bonus (sample_opportunity "fast" "acct" 1 30 "smb").
Proof.
  apply velocity_bonus_faster_is_better; simpl; [reflexivity | lia].
Defined.

(** X11.  The account complexity multiplier lies between 1 and 1.75, the
    sum of the largest increments for tier, committee and cycle. *)
Theorem account_complexity_bounds (o : OpportunityData) :
  1 <= _calculate_account_complexity o <= 1.75.
Proof.
  unfold _calculate_account_complexity.
  repeat match goal with
         | |- context [if ?b then _ else _] => destruct b
         end; lra.
Qed.

(** ** The combiner: linearity and keys *)







(** X13.  The combined map has a key exactly for the ids that occur in at
    least one of the five factor maps, each once. *)
Theorem combine_keys_are_the_union (tw qw ab sw vi : dict R)
    (weights : option CombineWeights) (k : string) :
  NoDup (keys (combine_b2b_attribution_factors tw qw ab sw vi weights))
  /\ (In k (keys (combine_b2b_attribution_factors tw qw ab sw vi weights))
      <-> In k (keys tw) \/ In k (keys qw) \/ In k (keys ab)
          \/ In k (keys sw) \/ In k (keys vi)).
Proof.
  rewrite keys_combine. split.
  - apply all_touchpoint_ids_NoDup.
  - rewrite all_touchpoint_ids_In. simpl. split.
    + intros [d [Hd Hk]]. intuition (subst; auto).
    + intros H. decompose [or] H; eauto 10.
Qed.

(** X14.  With the weight vector (time=1, others 0) the combined value of
    every id is its time-weighted value; an id known only to other factors
    is still a key, with value 0. *)
Theorem combine_time_only (tw qw ab sw vi : dict R) (k : string) :
  get_or (combine_b2b_attribution_factors tw qw ab sw vi
            (Some time_only_weights)) k 0
  = get_or tw k 0
  /\ (~ In k (keys tw) ->
      In k (keys qw) \/ In k (keys ab) \/ In k (keys sw) \/ In k (keys vi) ->
      get (combine_b2b_attribution_factors tw qw ab sw vi
             (Some time_only_weights)) k = Some 0).
Proof.
  split.
  - unfold get_or at 1. rewrite get_combine.
    destruct (existsb _ _) eqn:E.
    + unfold combined_score. simpl. lra.
    + unfold get_or. destruct (get tw k) as [v|] eqn:G; auto.
      exfalso. apply get_Some_in in G.
      assert (Hin : In k (all_touchpoint_ids [tw; qw; ab; sw; vi])).
      { apply all_touchpoint_ids_In. exists tw. split; [now left|].
        change k with (fst (k, v)). now apply in_map. }
      apply existsb_eqb_In in Hin. congruence.
  - intros Hno Hother. rewrite get_combine.
    assert (Hin : In k (all_touchpoint_ids [tw; qw; ab; sw; vi])).
    { apply all_touchpoint_ids_In. simpl.
      decompose [or] Hother; eauto 10. }
    apply existsb_eqb_In in Hin. rewrite Hin.
    f_equal. unfold combined_score, get_or.
    rewrite (not_in_get_None tw k Hno). simpl. lra.
Qed.

(** ** The summary: outcomes and slices *)

Lemma sorted_touchpoints_length (m : dict R) :
  List.length (sorted_touchpoints m) = List.length m.
Proof.
  apply Permutation_length. apply sorted_desc_perm.
Qed.

Lemma top_entries_zero_total (l : list (string * R)) :
  l <> [] -> top_entries 0 l = Raise ZeroDivisionError.
Proof.
  destruct l as [|[k v] r]; [congruence|]. intros _. simpl.
  unfold pydiv. destruct (Req_dec_T 0 0); [reflexivity | lra].
Qed.

Lemma summary_cases (m : dict R) :
  (m = [] -> generate_attribution_summary m = Ok None)
  /\ (m <> [] -> pysum (values m) = 0 ->
      generate_attribution_summary m = Raise ZeroDivisionError)
  /\ (m <> [] -> pysum (values m) <> 0 ->
      exists sm,
        generate_attribution_summary m = Ok (Some sm)
        /\ total_attribution_value sm = pysum (values m)
        /\ summary_touchpoint_count sm = List.length m
        /\ average_attribution_per_touchpoint sm
           = pysum (values m) / INR (List.length m)
        /\ List.length (top_contributing_touchpoints sm)
           = Nat.min 5 (List.length m)
        /\ Forall (fun e => percentage e
                            = attribution_value e / pysum (values m) * 100)
                  (top_contributing_touchpoints sm)).
Proof.
  split; [|split].
  - intros ->. reflexivity.
  - intros Hne Hz. unfold generate_attribution_summary.
    destruct m as [|kv r]; [congruence|].
    rewrite Hz, top_entries_zero_total; [reflexivity|].
    intros E. apply (f_equal (@List.length _)) in E.
    rewrite length_firstn, sorted_touchpoints_length in E.
    simpl in E. lia.
  - intros Hne Ht.
    assert (Hlen : (0 < List.length m)%nat)
      by (destruct m; [congruence | simpl; lia]).
    unfold generate_attribution_summary.
    destruct m as [|kv r]; [congruence|].
    remember (kv :: r) as m' eqn:Em. clear Em kv r Hne.
    rewrite top_entries_ok by exact Ht.
    cbn [result_bind]. eexists. split; [reflexivity|].
    cbn [total_attribution_value summary_touchpoint_count
         average_attribution_per_touchpoint top_contributing_touchpoints].
    repeat split.
    + destruct (Nat.ltb_spec 0 (List.length m')); [reflexivity | lia].
    + rewrite length_map, length_firstn, sorted_touchpoints_length.
      reflexivity.
    + apply Forall_map, Forall_forall. intros x _. reflexivity.
Qed.

(** X15.  The three outcomes of the summary: an empty map gives the empty
    summary; a non-empty map whose values add up to 0 makes the percentage
    division raise [ZeroDivisionError]; any other map gives a summary with
    the sum, the number of entries, the sum divided by that number as the
    average, the top entries (five, or all when there are fewer) and for
    each its value divided by the total, times 100, as its percentage. *)
Theorem summary_outcomes (m : dict R) :
  (m = [] -> generate_attribution_summary m = Ok None)
  /\ (m <> [] -> pysum (values m) = 0 ->
      generate_attribution_summary m = Raise ZeroDivisionError)
  /\ (m <> [] -> pysum (values m) <> 0 ->
      exists sm,
        generate_attribution_summary m = Ok (Some sm)
        /\ total_attribution_value sm = pysum (values m)
        /\ summary_touchpoint_count sm = List.length m
        /\ average_attribution_per_touchpoint sm
           = pysum (values m) / INR (List.length m)
        /\ List.length (top_contributing_touchpoints sm)
           = Nat.min 5 (List.length m)
        /\ Forall (fun e => percentage e
                            = attribution_value e / pysum (values m) * 100)
                  (top_contributing_touchpoints sm)).
Proof. exact (summary_cases m). Qed.

Lemma dict_of_pairs_NoDup (l : list (string * R)) :
  NoDup (map fst l) -> dict_of_pairs l = l.
Proof.
  intros H. unfold dict_of_pairs.
  pose proof (assign_loop_fresh fst snd l empty H) as E.
  unfold assign_loop in E. rewrite E. simpl.
  rewrite <- (map_id l) at 2. apply map_ext. now intros [k v].
Qed.

Lemma pysum_firstn_shift (b : R) (r : list (string * R)) (j : nat) :
  Forall (fun y : string * R => snd y <= b) r ->
  (j < List.length r)%nat ->
  pysum (map snd (firstn (S j) r)) <= b + pysum (map snd (firstn j r)).
Proof.
  intros H. revert j. induction H as [|y r Hy Hr IH]; intros j Hj.
  - simpl in Hj. lia.
  - destruct j as [|j].
    + simpl. rewrite pysum_cons.
      destruct r; unfold pysum; simpl; lra.
    + change (firstn (S (S j)) (y :: r)) with (y :: firstn (S j) r).
      change (firstn (S j) (y :: r)) with (y :: firstn j r).
      cbn [map]. rewrite !pysum_cons.
      simpl in Hj. specialize (IH j ltac:(lia)). lra.
Qed.

(** In a descending list the first [k] values add up to at least as much
    as the last [k]. *)
Lemma descending_first_ge_last (l : list (string * R)) (k : nat) :
  descending l -> (k <= List.length l)%nat ->
  pysum (map snd (last_n k l)) <= pysum (map snd (firstn k l)).
Proof.
  unfold last_n. intros H. revert k.
  induction H as [|x r Hr IH Hx]; intros k Hk.
  - simpl in *. assert (k = 0%nat) as -> by lia. simpl. lra.
  - simpl List.length in *.
    destruct (Nat.eq_dec k (S (List.length r))) as [->|Hne].
    + rewrite Nat.sub_diag. simpl skipn.
      rewrite firstn_all2 by (simpl; lia). lra.
    + assert (Hk' : (k <= List.length r)%nat) by lia.
      replace (S (List.length r) - k)%nat
        with (S (List.length r - k)) by lia.
      simpl skipn. specialize (IH k Hk').
      destruct k as [|j].
      * simpl firstn in *. lra.
      * change (firstn (S j) (x :: r)) with (x :: firstn j r).
        cbn [map]. rewrite pysum_cons.
        assert (Hshift : pysum (map snd (firstn (S j) r))
                         <= snd x + pysum (map snd (firstn j r))).
        { apply pysum_firstn_shift; [|lia].
          eapply Forall_impl; [|exact Hx]. intros y Hy. exact Hy. }
        lra.
Qed.

Lemma NoDup_map_firstn {A B} (f : A -> B) (l : list A) (k : nat) :
  NoDup (map f l) -> NoDup (map f (firstn k l)).
Proof.
  intros H. rewrite <- (firstn_skipn k l), map_app in H.
  now apply NoDup_app_remove_r in H.
Qed.

Lemma NoDup_map_skipn {A B} (f : A -> B) (l : list A) (k : nat) :
  NoDup (map f l) -> NoDup (map f (skipn k l)).
Proof.
  intros H. rewrite <- (firstn_skipn k l), map_app in H.
  now apply NoDup_app_remove_l in H.
Qed.

(** X16.  In a summary of a map with distinct keys the top-20% sum is at
    least the bottom-20% sum. *)
Theorem summary_top_slice_dominates (m : dict R) (sm : AttributionSummary) :
  NoDup (keys m) ->
  generate_attribution_summary m = Ok (Some sm) ->
  bottom_20_percent sm <= top_20_percent sm.
Proof.
  intros Hnd Hsm.
  destruct (generate_attribution_summary_tops m sm Hsm) as (_ & -> & ->).
  assert (Hs : NoDup (map fst (sorted_touchpoints m))).
  { eapply Permutation_NoDup; [|exact Hnd].
    apply Permutation_map, Permutation_sym, sorted_desc_perm. }
  unfold last_n.
  rewrite !dict_of_pairs_NoDup
    by (apply NoDup_map_firstn || apply NoDup_map_skipn; exact Hs).
  apply (descending_first_ge_last (sorted_touchpoints m)).
  - apply sorted_desc_descending.
  - rewrite sorted_touchpoints_length.
    destruct m as [|kv r]; [discriminate|]. simpl List.length.
    assert (S (List.length r) / 5 <= S (List.length r))%nat
      by (apply Nat.Div0.div_le_upper_bound; lia).
    lia.
Qed.

Lemma summary_top_slice_dominates_witness :
  exists sm, generate_attribution_summary tie_map = Ok (Some sm)
             /\ bottom_20_percent sm <= top_20_percent sm.
Proof.
  destruct (generate_attribution_summary_ok tie_map) as [sm E].
  - discriminate.
  - unfold pysum. simpl. lra.
  - exists sm. split; [exact E|].
    apply (summary_top_slice_dominates tie_map sm); [|exact E].
    repeat constructor; simpl; intuition discriminate.
Defined.

(** ** Channel performance: outcomes and conservation *)

Lemma channel_metrics_only_zero_division (m : ChannelTotals) (e : exn) :
  channel_metrics m = Raise e -> e = ZeroDivisionError.
Proof.
  unfold channel_metrics, pydiv.
  destruct (Rlt_dec 0 (total_cost m)); [|discriminate].
  destruct (Req_dec_T (total_attribution m) 0); [|discriminate].
  unfold result_bind. congruence.
Qed.

Lemma finish_channels_raises (l : list (string * ChannelTotals)) :
  (exists c m, In (c, m) l /\ 0 < total_cost m /\ total_attribution m = 0) ->
  finish_channels l = Raise ZeroDivisionError.
Proof.
  induction l as [|[c0 m0] r IH]; intros (c & m & Hin & Hc & Ha).
  - contradiction.
  - simpl. destruct (channel_metrics m0) as [cm|e] eqn:E.
    + simpl. destruct Hin as [Heq|Hin].
      * injection Heq as -> ->.
        assert (channel_metrics m = Raise ZeroDivisionError)
          by (apply channel_metrics_raises; auto).
        congruence.
      * rewrite IH; [reflexivity|]. exists c, m. auto.
    + simpl. now rewrite (channel_metrics_only_zero_division m0 e E).
Qed.

Lemma finish_channels_ok (l : list (string * ChannelTotals)) :
  (forall c m, In (c, m) l -> 0 < total_cost m -> total_attribution m <> 0) ->
  exists cp,
    finish_channels l = Ok cp
    /\ map (fun kv => (fst kv, totals (snd kv))) cp = l
    /\ Forall (fun kv => channel_metrics (totals (snd kv)) = Ok (snd kv)) cp.
Proof.
  induction l as [|[c0 m0] r IH]; intros H.
  - exists []. repeat split; constructor.
  - destruct IH as (cp & E & Hm & Hf).
    { intros c m Hin. apply (H c m). now right. }
    simpl. rewrite E.
    destruct (channel_metrics m0) as [cm|e] eqn:Ec.
    + simpl. exists ((c0, cm) :: cp). split; [reflexivity|].
      assert (Ht : totals cm = m0).
      { unfold channel_metrics in Ec.
        destruct (Rlt_dec 0 (total_cost m0)).
        - destruct (pydiv _ _); simpl in Ec; [|discriminate].
          now injection Ec as <-.
        - now injection Ec as <-. }
      split.
      * simpl. now rewrite Ht, Hm.
      * constructor; auto. simpl. now rewrite Ht.
    + exfalso.
      assert (e = ZeroDivisionError) as ->
        by (eapply channel_metrics_only_zero_division; eauto).
      apply channel_metrics_raises in Ec. destruct Ec as [Hc Ha].
      apply (H c0 m0); auto. now left.
Qed.

(** X17.  The channel roll-up fails exactly on a channel with a positive
    total cost and a total attribution of 0, with [ZeroDivisionError];
    when no channel is like that it returns one entry per channel, in the
    order of the channel totals, each holding the channel's totals. *)
Theorem channel_analysis_outcomes (attribution_results : dict R)
    (tps : list TouchpointData) :
  ((exists c m, In (c, m) (channel_totals attribution_results tps)
                /\ 0 < total_cost m /\ total_attribution m = 0) ->
   analyze_channel_performance attribution_results tps
   = Raise ZeroDivisionError)
  /\ ((forall c m, In (c, m) (channel_totals attribution_results tps) ->
                   0 < total_cost m -> total_attribution m <> 0) ->
      exists cp,
        analyze_channel_performance attribution_results tps = Ok cp
        /\ map (fun kv => (fst kv, totals (snd kv))) cp
           = channel_totals attribution_results tps).
Proof.
  unfold analyze_channel_performance, items. split.
  - apply finish_channels_raises.
  - intros H. destruct (finish_channels_ok _ H) as (cp & E & Hm & _).
    exists cp. auto.
Qed.

(** X18.  What a successful channel computes: with a positive cost the ROI
    is (attribution - cost) / cost, it is at least -1 for a non-negative
    attribution, and the cost per attribution is cost / attribution;
    without cost the ROI is infinite for a positive attribution and 0
    otherwise, and the cost per attribution is 0. *)
Theorem channel_metrics_values (m : ChannelTotals) (cm : ChannelMetrics) :
  channel_metrics m = Ok cm ->
  totals cm = m
  /\ (0 < total_cost m ->
      roi cm = Finite ((total_attribution m - total_cost m) / total_cost m)
      /\ cost_per_attribution cm = total_cost m / total_attribution m
      /\ (0 <= total_attribution m ->
          -1 <= (total_attribution m - total_cost m) / total_cost m))
  /\ (~ 0 < total_cost m ->
      cost_per_attribution cm = 0
      /\ (0 < total_attribution m -> roi cm = PosInf)
      /\ (~ 0 < total_attribution m -> roi cm = Finite 0)).
Proof.
  unfold channel_metrics, pydiv.
  destruct (Rlt_dec 0 (total_cost m)) as [Hc|Hc].
  - destruct (Req_dec_T (total_attribution m) 0) as [Ha|Ha];
      [discriminate|].
    simpl. intros [= <-]. simpl. split; [reflexivity|]. split; [|tauto].
    intros _. split; [reflexivity|]. split.
    + reflexivity.
    + intros Hnn.
      assert (0 <= total_attribution m / total_cost m)
        by (apply Rmult_le_pos; [lra | apply Rlt_le, Rinv_0_lt_compat, Hc]).
      replace ((total_attribution m - total_cost m) / total_cost m)
        with (total_attribution m / total_cost m - 1) by (field; lra).
      lra.
  - intros [= <-]. simpl. split; [reflexivity|]. split; [tauto|].
    intros _. split; [reflexivity|].
    destruct (Rlt_dec 0 (total_attribution m)); split; tauto.
Qed.

Lemma channel_metrics_values_witness :
  exists cm,
    channel_metrics {| total_attribution := 1000; touchpoint_count := 1;
                       total_cost := 200; touchpoint_types := [] |} = Ok cm
    /\ roi cm = Finite ((1000 - 200) / 200)
    /\ cost_per_attribution cm = 200 / 1000.
Proof.
  assert (E : exists cm,
             channel_metrics
               {| total_attribution := 1000; touchpoint_count := 1;
                  total_cost := 200; touchpoint_types := [] |} = Ok cm).
  { unfold channel_metrics, pydiv. simpl.
    destruct (Rlt_dec 0 200); [|lra].
    destruct (Req_dec_T 1000 0); [lra|]. simpl. eauto. }
  destruct E as [cm E]. exists cm. split; [exact E|].
  destruct (channel_metrics_values _ cm E) as (_ & H & _).
  destruct H as (H1 & H2 & _); [simpl; lra|].
  split; [exact H1 | exact H2].
Defined.

Lemma list_sum_values_set {V : Type} (g : V -> nat) (d : dict V)
    (k : string) (v : V) :
  (list_sum (map g (values (set d k v)))
   + match get d k with Some o => g o | None => 0 end
   = list_sum (map g (values d)) + g v)%nat.
Proof.
  unfold values. induction d as [|[k' v'] r IH]; simpl.
  - lia.
  - destruct (String.eqb k' k); simpl; lia.
Qed.

Lemma channel_accumulate_count (tps : list TouchpointData)
    (cp : dict ChannelTotals) (kv : string * R) :
  list_sum (map touchpoint_count
              (values (channel_accumulate (touchpoint_lookup tps) cp kv)))
  = (list_sum (map touchpoint_count (values cp))
     + (if touchpoint_known tps (fst kv) then 1 else 0))%nat.
Proof.
  unfold channel_accumulate, touchpoint_known, mem.
  destruct (get (touchpoint_lookup tps) (fst kv)) as [t|]; simpl; [|lia].
  pose proof (list_sum_values_set touchpoint_count cp (channel t)
                {| total_attribution :=
                     total_attribution
                       (get_or cp (channel t) new_channel) + snd kv;
                   touchpoint_count :=
                     S (touchpoint_count
                          (get_or cp (channel t) new_channel));
                   total_cost :=
                     total_cost (get_or cp (channel t) new_channel)
                     + cost t;
                   touchpoint_types :=
                     set_add_type (touchpoint_type t)
                       (touchpoint_types
                          (get_or cp (channel t) new_channel)) |})
    as H.
  unfold get_or in *. destruct (get cp (channel t)); simpl in *; lia.
Qed.

Lemma channel_totals_count (attribution_results : dict R)
    (tps : list TouchpointData) :
  list_sum (map touchpoint_count
              (values (channel_totals attribution_results tps)))
  = List.length (filter (fun kv => touchpoint_known tps (fst kv))
                        attribution_results).
Proof.
  unfold channel_totals, items.
  assert (G : forall l cp,
             list_sum (map touchpoint_count
                         (values (fold_left
                                    (channel_accumulate
                                       (touchpoint_lookup tps)) l cp)))
             = (list_sum (map touchpoint_count (values cp))
                + List.length
                    (filter (fun kv => touchpoint_known tps (fst kv)) l)
               )%nat).
  { induction l as [|kv l IH]; intros cp; simpl.
    - lia.
    - rewrite IH, channel_accumulate_count.
      destruct (touchpoint_known tps (fst kv)); simpl; lia. }
  rewrite G. simpl. lia.
Qed.

(** What the first loop holds for a channel after a run over [l] that
    started from [cp]: the additions of the entries of the channel, in
    order, on top of what [cp] held. *)
Lemma channel_fold_get (tps : list TouchpointData) (c : string)
    (l : list (string * R)) (cp : dict ChannelTotals) :
  let out := fold_left (channel_accumulate (touchpoint_lookup tps)) l cp in
  let es := channel_entries tps c l in
  let m0 := get_or cp c new_channel in
  (es = [] -> get out c = get cp c)
  /\ (es <> [] ->
      exists m, get out c = Some m
        /\ total_attribution m
           = fold_left Rplus (map snd es) (total_attribution m0)
        /\ touchpoint_count m = (List.length es + touchpoint_count m0)%nat
        /\ total_cost m
           = fold_left Rplus (map (fun e => cost (fst e)) es)
                       (total_cost m0)).
Proof.
  revert cp. induction l as [|kv l IH]; intros cp.
  - simpl. split; [reflexivity | congruence].
  - cbn zeta in *. cbn [fold_left].
    specialize (IH (channel_accumulate (touchpoint_lookup tps) cp kv)).
    destruct IH as [IHnil IHcons].
    unfold channel_entries in *. cbn [flat_map].
    unfold channel_accumulate in *.
    destruct (get (touchpoint_lookup tps) (fst kv)) as [t|] eqn:G.
    + destruct (String.eqb (channel t) c) eqn:Ec.
      * apply String.eqb_eq in Ec. subst c.
        cbn [app]. split; [discriminate|]. intros _.
        set (m1 := {| total_attribution :=
                        total_attribution
                          (get_or cp (channel t) new_channel) + snd kv;
                      touchpoint_count :=
                        S (touchpoint_count
                             (get_or cp (channel t) new_channel));
                      total_cost :=
                        total_cost (get_or cp (channel t) new_channel)
                        + cost t;
                      touchpoint_types :=
                        set_add_type (touchpoint_type t)
                          (touchpoint_types
                             (get_or cp (channel t) new_channel)) |}) in *.
        assert (Hg : get (set cp (channel t) m1) (channel t) = Some m1)
          by apply get_set_same.
        assert (Hgo : get_or (set cp (channel t) m1) (channel t) new_channel
                      = m1)
          by (unfold get_or; now rewrite Hg).
        rewrite Hgo in IHcons.
        destruct (flat_map _ l) as [|e es] eqn:F.
        -- exists m1. rewrite (IHnil eq_refl), Hg.
           repeat split.
        -- destruct (IHcons ltac:(discriminate)) as (m & Hm & Ha & Hn & Hc).
           exists m. split; [exact Hm|].
           rewrite Ha, Hn, Hc. cbn [map fold_left List.length fst snd].
           repeat split. unfold m1. cbn [touchpoint_count]. lia.
      * cbn [app].
        assert (Hne : channel t <> c)
          by (intros E; rewrite E, String.eqb_refl in Ec; discriminate).
        assert (Hg : forall v, get (set cp (channel t) v) c = get cp c)
          by (intros v; now apply get_set_other).
        assert (Hgo : forall v, get_or (set cp (channel t) v) c new_channel
                                = get_or cp c new_channel)
          by (intros v; unfold get_or; now rewrite Hg).
        rewrite Hgo in IHcons. rewrite Hg in IHnil. split; assumption.
    + cbn [app]. split; assumption.
Qed.

(** X19.  What the first loop of the channel roll-up holds for a channel:
    nothing when no entry of the attribution map belongs to a touchpoint
    of the channel; otherwise the values of those entries added up in the
    order of the map, their number, and the costs of their touchpoints
    added up in the same order.  An entry with an unknown id goes to no
    channel, and the touchpoint counts of all channels add up to the
    number of entries with a known id. *)
Theorem channel_totals_conserve (attribution_results : dict R)
    (tps : list TouchpointData) (c : string) :
  let es := channel_entries tps c attribution_results in
  (es = [] -> get (channel_totals attribution_results tps) c = None)
  /\ (es <> [] ->
      exists m, get (channel_totals attribution_results tps) c = Some m
        /\ total_attribution m = pysum (map snd es)
        /\ touchpoint_count m = List.length es
        /\ total_cost m = pysum (map (fun e => cost (fst e)) es))
  /\ (forall kv c', touchpoint_known tps (fst kv) = false ->
                    channel_entries tps c' [kv] = [])
  /\ list_sum (map touchpoint_count
                   (values (channel_totals attribution_results tps)))
     = List.length (filter (fun kv => touchpoint_known tps (fst kv))
                           attribution_results).
Proof.
  intros es.
  destruct (channel_fold_get tps c attribution_results empty)
    as [Hnil Hcons].
  split; [exact Hnil|]. split; [|split].
  - intros Hne. destruct (Hcons Hne) as (m & Hm & Ha & Hn & Hc).
    exists m. split; [exact Hm|]. fold es in Ha, Hn, Hc.
    rewrite Ha, Hn, Hc. unfold pysum. simpl. repeat split. lia.
  - intros kv c' Hk. unfold channel_entries, touchpoint_known, mem in *.
    simpl. destruct (get (touchpoint_lookup tps) (fst kv)); [discriminate|].
    reflexivity.
  - apply channel_totals_count.
Qed.

(** ** Alignment: percentages and score *)

Lemma alignment_percentages_cases (attribution_results : dict R)
    (tps : list TouchpointData) :
  let a := analyze_sales_marketing_alignment attribution_results tps in
  (0 < alignment_mass a ->
   sales_percentage a + marketing_percentage a + joint_percentage a = 100)
  /\ (~ 0 < alignment_mass a ->
      sales_percentage a = 0 /\ marketing_percentage a = 0
      /\ joint_percentage a = 0)
  /\ (alignment_mass a = 0 ->
      alignment_score a = 0
      /\ _get_alignment_grade (alignment_score a) = "F"%string).
Proof.
  unfold analyze_sales_marketing_alignment, alignment_mass. simpl.
  set (sp := alignment_split attribution_results tps).
  destruct (Rlt_dec 0 (split_sales sp + split_marketing sp + split_joint sp))
    as [Hpos|Hn].
  - split; [intros _; field; lra|]. split; [tauto|].
    intros E. lra.
  - split; [tauto|]. split; [auto|].
    intros E. unfold _calculate_alignment_score.
    destruct (Req_dec_T _ 0); [|contradiction].
    split; [reflexivity|].
    apply alignment_grade_boundaries. lra.
Qed.




(** X22.  The score is 100 for the balance 40% marketing, 40% sales and
    20% joint, and it is 0 when one of the three holds all the
    attribution. *)
Theorem alignment_score_extremes (sales marketing joint : R) :
  sales + marketing + joint <> 0 ->
  (marketing / (sales + marketing + joint) * 100 = 40 ->
   sales / (sales + marketing + joint) * 100 = 40 ->
   joint / (sales + marketing + joint) * 100 = 20 ->
   _calculate_alignment_score sales marketing joint = 100)
  /\ (marketing = 0 -> joint = 0 ->
      _calculate_alignment_score sales marketing joint = 0)
  /\ (sales = 0 -> joint = 0 ->
      _calculate_alignment_score sales marketing joint = 0)
  /\ (sales = 0 -> marketing = 0 ->
      _calculate_alignment_score sales marketing joint = 0).
Proof.
  intros Ht. unfold _calculate_alignment_score.
  destruct (Req_dec_T (sales + marketing + joint) 0); [contradiction|].
  set (t := sales + marketing + joint) in *.
  split; [|split; [|split]].
  - intros E1 E2 E3. rewrite E1, E2, E3.
    replace (40 - 40) with 0 by lra. replace (20 - 20) with 0 by lra.
    rewrite Rabs_R0. unfold Rmax. destruct (Rle_dec _ _); lra.
  - intros -> ->. unfold t in *.
    replace (0 / (sales + 0 + 0) * 100 - 40) with (- (40)) in *
      by (field; lra).
    replace (sales / (sales + 0 + 0) * 100 - 40) with 60 in *
      by (field; lra).
    replace (0 / (sales + 0 + 0) * 100 - 20) with (- (20)) in *
      by (field; lra).
    rewrite !Rabs_Ropp, !Rabs_pos_eq by lra.
    unfold Rmax. destruct (Rle_dec _ _); lra.
  - intros -> ->. unfold t in *.
    replace (marketing / (0 + marketing + 0) * 100 - 40) with 60 in *
      by (field; lra).
    replace (0 / (0 + marketing + 0) * 100 - 40) with (- (40)) in *
      by (field; lra).
    replace (0 / (0 + marketing + 0) * 100 - 20) with (- (20)) in *
      by (field; lra).
    rewrite !Rabs_Ropp, !Rabs_pos_eq by lra.
    unfold Rmax. destruct (Rle_dec _ _); lra.
  - intros -> ->. unfold t in *.
    replace (0 / (0 + 0 + joint) * 100 - 40) with (- (40)) in *
      by (field; lra).
    replace (joint / (0 + 0 + joint) * 100 - 20) with 80 in *
      by (field; lra).
    rewrite !Rabs_Ropp, !Rabs_pos_eq by lra.
    unfold Rmax. destruct (Rle_dec _ _); lra.
Qed.

Lemma alignment_score_extremes_witness :
  _calculate_alignment_score 10000 0 0 = 0
  /\ _calculate_alignment_score 0 250 0 = 0.
Proof.
  split.
  - destruct (alignment_score_extremes 10000 0 0 ltac:(lra))
      as (_ & H & _).
    apply H; reflexivity.
  - destruct (alignment_score_extremes 0 250 0 ltac:(lra))
      as (_ & _ & H & _).
    apply H; reflexivity.
Defined.

(** ** The master model: outcomes *)

Lemma engine_cases (leads : list LeadData)
    (opps : list OpportunityData) (tps : list TouchpointData) :
  (combined_of leads opps tps = [] ->
   exists r, b2b_specific_attribution leads opps tps = Ok r
             /\ attribution_summary r = None)
  /\ (combined_of leads opps tps <> [] ->
      pysum (values (combined_of leads opps tps)) = 0 ->
      b2b_specific_attribution leads opps tps = Raise ZeroDivisionError)
  /\ (combined_of leads opps tps <> [] ->
      pysum (values (combined_of leads opps tps)) <> 0 ->
      exists r sm, b2b_specific_attribution leads opps tps = Ok r
                   /\ attribution_summary r = Some sm
                   /\ combined_b2b_attribution r
                      = combined_of leads opps tps)
  /\ (forall e, b2b_specific_attribution leads opps tps = Raise e ->
                e = ZeroDivisionError).
Proof.
  unfold b2b_specific_attribution. fold (combined_of leads opps tps).
  destruct (summary_cases (combined_of leads opps tps))
    as (Hempty & Hzero & Hok).
  split; [|split; [|split]].
  - intros E. rewrite (Hempty E). simpl. eexists. split; reflexivity.
  - intros Hne Hz. now rewrite (Hzero Hne Hz).
  - intros Hne Hnz. destruct (Hok Hne Hnz) as (sm & E & _).
    rewrite E. simpl. eexists. exists sm. repeat split.
  - intros e.
    destruct (combined_of leads opps tps) as [|kv r] eqn:Ec.
    + rewrite (Hempty eq_refl). discriminate.
    + destruct (Req_dec_T (pysum (values (kv :: r))) 0) as [Hz|Hnz].
      * rewrite (Hzero ltac:(discriminate) Hz). simpl. congruence.
      * destruct (Hok ltac:(discriminate) Hnz) as (sm & E & _).
        rewrite E. discriminate.
Qed.

(** The combined map of the costly e-mail touchpoint alone. *)
Lemma combined_costly :
  combined_of [lead_good] [] [tp_costly] = [("T"%string, 0)].
Proof.
  unfold combined_of. rewrite combine_unfold.
  cbn. unfold combined_score, get_or. cbn.
  f_equal. f_equal. unfold stage_weight_of, lead_quality_weight. cbn. lra.
Qed.

(** X23.  On records within the ranges of the data model the master model
    fails in one way only: when the combined map is not empty and its
    values add up to 0, the percentage division of the summary raises
    [ZeroDivisionError] and no map is returned.  With an empty combined
    map it returns the empty summary, otherwise a summary. *)
Theorem engine_outcomes (leads : list LeadData)
    (opps : list OpportunityData) (tps : list TouchpointData) :
  Forall in_range_lead leads -> Forall in_range_opportunity opps ->
  (combined_of leads opps tps = [] ->
   exists r, b2b_specific_attribution leads opps tps = Ok r
             /\ attribution_summary r = None)
  /\ (combined_of leads opps tps <> [] ->
      pysum (values (combined_of leads opps tps)) = 0 ->
      b2b_specific_attribution leads opps tps = Raise ZeroDivisionError)
  /\ (combined_of leads opps tps <> [] ->
      pysum (values (combined_of leads opps tps)) <> 0 ->
      exists r sm, b2b_specific_attribution leads opps tps = Ok r
                   /\ attribution_summary r = Some sm
                   /\ combined_b2b_attribution r
                      = combined_of leads opps tps)
  /\ (forall e, b2b_specific_attribution leads opps tps = Raise e ->
                e = ZeroDivisionError).
Proof. intros _ _. exact (engine_cases leads opps tps). Qed.

Lemma engine_outcomes_witness :
  b2b_specific_attribution [lead_good] [] [tp_costly]
  = Raise ZeroDivisionError.
Proof.
  destruct (engine_outcomes [lead_good] [] [tp_costly]) as (_ & H & _).
  - constructor; [|constructor]. unfold in_range_lead. simpl. lia.
  - constructor.
  - apply H.
    + rewrite combined_costly. discriminate.
    + rewrite combined_costly. unfold pysum. simpl. lra.
Defined.

Lemma fold_left_unchanged {A B : Type} (f : A -> B -> A) (l : list B)
    (a : A) :
  (forall a' b, f a' b = a') -> fold_left f l a = a.
Proof.
  intros H. induction l as [|b l IH]; simpl; auto. now rewrite H.
Qed.

(** X24.  Without touchpoints nothing is attributed, whatever the leads
    and the opportunities: all five factor maps and the combined map are
    empty and the summary is the empty one; the engine does not fail. *)
Theorem no_touchpoints_no_attribution (leads : list LeadData)
    (opps : list OpportunityData) :
  b2b_specific_attribution leads opps []
  = Ok {| time_weighted_attribution := [];
          quality_weighted_attribution := [];
          account_based_attribution := [];
          stage_progression_attribution := [];
          pipeline_velocity_attribution := [];
          combined_b2b_attribution := [];
          attribution_summary := None |}.
Proof.
  assert (Ht : calculate_b2b_time_decay [] opps = []).
  { unfold calculate_b2b_time_decay, calculate_b2b_time_decay_with.
    apply fold_left_unchanged. reflexivity. }
  assert (Ha : calculate_account_level_attribution opps [] = []).
  { unfold calculate_account_level_attribution.
    apply fold_left_unchanged. reflexivity. }
  assert (Hv : calculate_pipeline_velocity_impact opps [] = []).
  { unfold calculate_pipeline_velocity_impact.
    apply fold_left_unchanged. reflexivity. }
  unfold b2b_specific_attribution.
  rewrite Ht, Ha, Hv. reflexivity.
Qed.

(** ** The facade: what is written *)

(** X25.  The calculate operation writes only what it returns.  Started
    with nothing pending, a run that raises (at the load, in the engine, in
    the analyzer or at the commit) leaves the committed rows as they were,
    and its last log entry is the error of the calculation; a run that
    returns a document has committed exactly one new row, which holds that
    document under the model name B2B_Marketing_Attribution and the
    account filter of the call. *)
Theorem calculate_writes_what_it_returns (env : Env)
    (ids : option (list string)) (date_from date_to : option datetime)
    (weights : option (dict R)) (w : World) :
  pending w = [] ->
  let run := calculate_b2b_attribution env ids date_from date_to weights w in
  (forall e, fst run = Raise e ->
             committed (snd run) = committed w
             /\ last (log (snd run)) (INFO, ""%string)
                = (ERROR,
                   ("Error in B2B attribution calculation: "
                    ++ exn_str e)%string))
  /\ (forall doc, fst run = Ok doc ->
        pending (snd run) = []
        /\ exists row,
             committed (snd run) = committed w ++ [row]
             /\ results row = doc
             /\ model_name row = "B2B_Marketing_Attribution"%string
             /\ meta_account_ids row = ids).
Proof.
  intros Hp run. unfold run. clear run.
  destruct (env_load env ids date_from date_to) as [[[leads opps] tps]|e0]
    eqn:Hload.
  2:{ run_facade. rewrite Hload. simpl. split.
      - intros e [= <-]. split; [reflexivity|].
        now rewrite last_last.
      - intros doc H. discriminate. }
  destruct (b2b_specific_attribution leads opps tps) as [r|e0] eqn:Hr.
  2:{ run_facade. rewrite Hload. simpl. rewrite Hr. simpl. split.
      - intros e [= <-]. split; [reflexivity|].
        now rewrite last_last.
      - intros doc H. discriminate. }
  destruct (analyze_channel_performance (combined_b2b_attribution r) tps)
    as [c|e0] eqn:Hc.
  2:{ run_facade. rewrite Hload. simpl. rewrite Hr. simpl. rewrite Hc.
      simpl. split.
      - intros e [= <-]. split; [reflexivity|].
        now rewrite last_last.
      - intros doc H. discriminate. }
  rewrite (calculate_after_compute env ids date_from date_to weights w
             leads opps tps r c Hload Hr Hc).
  destruct (env_commit env) as [e0|]; simpl; split.
  - intros e [= <-]. split; [reflexivity|]. now rewrite last_last.
  - intros doc H. discriminate.
  - intros e H. discriminate.
  - intros doc [= <-]. split; [reflexivity|].
    rewrite Hp. simpl. eexists. repeat split.
Qed.

Lemma calculate_writes_what_it_returns_witness :
  committed
    (snd (calculate_b2b_attribution failing_writer_env None None None None
            empty_world)) = [].
Proof.
  destruct (calculate_writes_what_it_returns failing_writer_env None None
              None None empty_world eq_refl) as [Hraise _].
  apply (Hraise (WriterError "disk full")). reflexivity.
Defined.

(** ** Recommendations and the alignment report *)

Lemma alignment_split_nonneg (ar : dict R) (tps : list TouchpointData) :
  nonneg_values ar ->
  0 <= split_sales (alignment_split ar tps)
  /\ 0 <= split_marketing (alignment_split ar tps)
  /\ 0 <= split_joint (alignment_split ar tps).
Proof.
  intros Hnn. unfold alignment_split, items.
  apply (fold_left_invariant
           (fun sp => 0 <= split_sales sp /\ 0 <= split_marketing sp
                      /\ 0 <= split_joint sp)).
  - simpl. lra.
  - intros sp kv Hin (H1 & H2 & H3).
    unfold nonneg_values in Hnn. rewrite Forall_forall in Hnn.
    specialize (Hnn kv Hin). unfold alignment_accumulate.
    destruct (get (touchpoint_lookup tps) (fst kv)) as [t|]; [|tauto].
    destruct (is_sales_touch t), (is_marketing_touch t); simpl; lra.
Qed.

(** The percentages of an analysis of non-negative values. *)
Lemma alignment_percentages_range (ar : dict R)
    (tps : list TouchpointData) :
  nonneg_values ar ->
  let a := analyze_sales_marketing_alignment ar tps in
  0 <= sales_percentage a /\ 0 <= marketing_percentage a
  /\ 0 <= joint_percentage a
  /\ sales_percentage a + marketing_percentage a + joint_percentage a
     <= 100.
Proof.
  intros Hnn a.
  destruct (alignment_split_nonneg ar tps Hnn) as (H1 & H2 & H3).
  destruct (alignment_percentages_cases ar tps) as (Hp & Hz & _).
  fold a in Hp, Hz.
  destruct (Rlt_dec 0 (alignment_mass a)) as [Hm|Hm].
  - specialize (Hp Hm).
    unfold a, analyze_sales_marketing_alignment, alignment_mass in *.
    simpl in *.
    set (sp := alignment_split ar tps) in *.
    destruct (Rlt_dec 0 (split_sales sp + split_marketing sp
                         + split_joint sp)); [|contradiction].
    assert (Hi : 0 < / (split_sales sp + split_marketing sp
                        + split_joint sp))
      by now apply Rinv_0_lt_compat.
    unfold Rdiv in *.
    repeat split; try lra;
      apply Rmult_le_pos; try lra; apply Rmult_le_pos; lra.
  - destruct (Hz Hm) as (-> & -> & ->). lra.
Qed.

Ltac decide_recommendations :=
  unfold _generate_alignment_recommendations, append_if, Rltb, Rleb;
  repeat match goal with
         | |- context [Rlt_dec ?a ?b] => destruct (Rlt_dec a b)
         | |- context [Rle_dec ?a ?b] => destruct (Rle_dec a b)
         end;
  try lra.

Ltac not_both :=
  intros [H1 H2];
  apply existsb_eqb_In in H1; apply existsb_eqb_In in H2;
  vm_compute in H1, H2; discriminate.

Lemma recommendations_rules (a : AlignmentAnalysis) :
  sales_percentage a + marketing_percentage a <= 100 ->
  let r := _generate_alignment_recommendations a in
  (List.length r <= 4)%nat
  /\ ~ (In rec_poor r /\ In rec_excellent r)
  /\ ~ (In rec_sales_dominating r /\ In rec_marketing_dominating r).
Proof.
  intros Hsum r. unfold r. clear r.
  decide_recommendations;
    (split; [simpl; lia | split; not_both]).
Qed.

(** X26.  The recommendations for an analysis of non-negative values are
    consistent: at most four of them, never "poor alignment" together with
    "excellent alignment", never "sales is dominating" together with
    "marketing is dominating"; and when nothing was attributed they are
    exactly: poor alignment, sales involvement low, marketing involvement
    low, very few joint touchpoints. *)
Theorem alignment_recommendations_consistent (ar : dict R)
    (tps : list TouchpointData) :
  nonneg_values ar ->
  let r := _generate_alignment_recommendations
             (analyze_sales_marketing_alignment ar tps) in
  (List.length r <= 4)%nat
  /\ ~ (In rec_poor r /\ In rec_excellent r)
  /\ ~ (In rec_sales_dominating r /\ In rec_marketing_dominating r)
  /\ (alignment_mass (analyze_sales_marketing_alignment ar tps) = 0 ->
      r = [rec_poor; rec_sales_low; rec_marketing_low; rec_joint_few]).
Proof.
  intros Hnn r.
  destruct (alignment_percentages_range ar tps Hnn) as (Hs & Hm & Hj & Ht).
  destruct (recommendations_rules
              (analyze_sales_marketing_alignment ar tps)) as (H1 & H2 & H3).
  { lra. }
  repeat split; auto.
  intros Hz.
  destruct (alignment_percentages_cases ar tps) as (_ & Hzero & Hscore).
  destruct (Hzero ltac:(lra)) as (Es & Em & Ej).
  destruct (Hscore Hz) as [Esc _].
  unfold r. clear H1 H2 H3.
  unfold _generate_alignment_recommendations.
  rewrite Es, Em, Ej, Esc.
  unfold append_if, Rltb, Rleb.
  repeat match goal with
         | |- context [Rlt_dec ?a ?b] => destruct (Rlt_dec a b)
         | |- context [Rle_dec ?a ?b] => destruct (Rle_dec a b)
         end; try lra.
  reflexivity.
Qed.

Lemma alignment_recommendations_consistent_witness :
  _generate_alignment_recommendations
    (analyze_sales_marketing_alignment [] [])
  = [rec_poor; rec_sales_low; rec_marketing_low; rec_joint_few].
Proof.
  destruct (alignment_recommendations_consistent [] []
              ltac:(constructor)) as (_ & _ & _ & H).
  apply H. unfold alignment_mass. simpl. lra.
Defined.

(** X27.  The alignment report writes nothing to the session.  Without
    loaded touchpoints it returns score 0 with the single "no touchpoint
    data" recommendation, whatever the leads and opportunities; with
    records within the ranges of the data model and touchpoints whose
    combined values add up to 0 it raises [ZeroDivisionError], because the
    engine computes the summary although the report does not use it; and
    a full report carries the grade of its own score, which lies in
    [0, 100]. *)
Theorem alignment_report_outcomes (env : Env) (ids : option (list string))
    (date_from date_to : option datetime) (w : World) :
  let run := get_sales_marketing_alignment_report env ids date_from date_to
               w in
  (pending (snd run) = pending w /\ committed (snd run) = committed w)
  /\ (forall leads opps,
        env_load env ids date_from date_to = Ok (leads, opps, []) ->
        fst run = Ok (NoDataReport 0
                        ["No touchpoint data available for analysis"%string]))
  /\ (forall leads opps tps,
        env_load env ids date_from date_to = Ok (leads, opps, tps) ->
        Forall in_range_lead leads -> Forall in_range_opportunity opps ->
        tps <> [] -> combined_of leads opps tps <> [] ->
        pysum (values (combined_of leads opps tps)) = 0 ->
        fst run = Raise ZeroDivisionError)
  /\ (forall a recs g,
        fst run = Ok (FullReport a recs g) ->
        g = _get_alignment_grade (alignment_score a)
        /\ 0 <= alignment_score a <= 100
        /\ recs = _generate_alignment_recommendations a).
Proof.
  unfold get_sales_marketing_alignment_report, bind, lift, ret. simpl.
  destruct (env_load env ids date_from date_to) as [[[leads opps] tps]|e]
    eqn:Hload; simpl.
  2:{ repeat split; intros; discriminate. }
  destruct tps as [|t0 tps']; simpl.
  - repeat split; intros; try discriminate; congruence.
  - destruct (b2b_specific_attribution leads opps (t0 :: tps'))
      as [r|e] eqn:Hr; simpl.
    + split; [split; reflexivity|]. split; [intros; discriminate|]. split.
      * intros leads' opps' tps [= <- <- <-] _ _ _ Hne Hz.
        destruct (engine_cases leads opps (t0 :: tps'))
          as (_ & Hraise & _).
        rewrite (Hraise Hne Hz) in Hr. discriminate.
      * intros a recs g [= <- <- <-]. repeat split;
          apply alignment_score_bounds.
    + split; [split; reflexivity|]. split; [intros; discriminate|]. split.
      * intros leads' opps' tps [= <- <- <-] _ _ _ Hne Hz.
        destruct (engine_cases leads opps (t0 :: tps'))
          as (_ & Hraise & _).
        rewrite (Hraise Hne Hz) in Hr. congruence.
      * intros; discriminate.
Qed.

(** ** The conversions *)

Lemma quality_multiplier_of_score (s : Z) :
  lead_quality_multipliers (quality_tier_of s)
  = if (80 <=? s)%Z then 1.5
    else if (60 <=? s)%Z then 1.2
    else if (40 <=? s)%Z then 1.0
    else 0.7.
Proof.
  unfold quality_tier_of.
  destruct (80 <=? s)%Z; [reflexivity|].
  destruct (60 <=? s)%Z; [reflexivity|].
  destruct (40 <=? s)%Z; reflexivity.
Qed.

(** X28.  A customer becomes a lead whose id and account id are the
    customer's id and whose quality tier is read off its lead score (50
    when the customer has none, which gives tier C): A from 80, B from 60,
    C from 40, D below.  So the engine never falls back to its default
    multiplier for a converted lead, and a higher lead score never gives a
    lower quality multiplier. *)
Theorem converted_lead_tier (c1 c2 : CustomerObj) :
  let l1 := convert_customer c1 in
  let l2 := convert_customer c2 in
  lead_id l1 = customer_id c1 /\ lead_account_id l1 = customer_id c1
  /\ (customer_lead_score c1 = None ->
      lead_score l1 = 50%Z /\ lead_quality_tier l1 = "C"%string)
  /\ lead_quality_multipliers (lead_quality_tier l1)
     = (if (80 <=? lead_score l1)%Z then 1.5
        else if (60 <=? lead_score l1)%Z then 1.2
        else if (40 <=? lead_score l1)%Z then 1.0
        else 0.7)
  /\ ((lead_score l1 <= lead_score l2)%Z ->
      lead_quality_multipliers (lead_quality_tier l1)
      <= lead_quality_multipliers (lead_quality_tier l2)).
Proof.
  intros l1 l2. split; [reflexivity|]. split; [reflexivity|]. split.
  - intros E. unfold l1, convert_customer. rewrite E. split; reflexivity.
  - split.
    + apply quality_multiplier_of_score.
    + intros Hle.
      change (lead_quality_tier l1) with (quality_tier_of (lead_score l1)).
      change (lead_quality_tier l2) with (quality_tier_of (lead_score l2)).
      rewrite !quality_multiplier_of_score.
      repeat match goal with
             | |- context [(?a <=? ?b)%Z] => destruct (Z.leb_spec a b)
             end; try lra; lia.
Qed.

(** X29.  A conversion becomes a closed-won opportunity of its customer
    with the conversion value as amount.  Its tier is enterprise from
    100000, mid-market from 25000 and smb below, so the expected cycle is
    always one of 270, 150 and 60 days and never the default of 180.
    Without a close date the cycle is 90 days and the conversion date of
    the engine is the creation date; with one, the cycle is the number of
    whole days from creation to close and the conversion date is the close
    date. *)
Theorem converted_opportunity_shape (v : ConversionObj) :
  let o := convert_conversion v in
  opp_account_id o = conversion_customer_id v
  /\ amount o = conversion_value v
  /\ opp_stage o = "Closed Won"%string
  /\ _get_expected_cycle_days (deal_size_tier o)
     = (if Rle_dec 100000 (conversion_value v) then 270
        else if Rle_dec 25000 (conversion_value v) then 150
        else 60)%Z
  /\ (forall d, conversion_close_date v = Some (Some d) ->
        conversion_date o = d
        /\ sales_cycle_days o
           = timedelta_days d (conversion_created_at v))
  /\ ((conversion_close_date v = None
       \/ conversion_close_date v = Some None) ->
      conversion_date o = conversion_created_at v
      /\ sales_cycle_days o = 90%Z).
Proof.
  intros o. unfold o, convert_conversion, conversion_date. simpl.
  repeat split.
  - destruct (Rle_dec 100000 (conversion_value v)); [reflexivity|].
    destruct (Rle_dec 25000 (conversion_value v)); reflexivity.
  - rewrite H. reflexivity.
  - rewrite H. reflexivity.
  - destruct H as [-> | ->]; reflexivity.
  - destruct H as [-> | ->]; reflexivity.
Qed.

Lemma type_mapping_cases (ch : string) :
  (ch = "demo"%string /\ type_mapping ch = DEMO_REQUEST)
  \/ (ch <> "demo"%string /\ type_mapping ch <> DEMO_REQUEST).
Proof.
  destruct (String.eqb_spec ch "demo") as [->|Hne].
  - left. split; reflexivity.
  - right. split; [exact Hne|]. unfold type_mapping.
    repeat match goal with
           | |- context [String.eqb ch ?k] =>
               destruct (String.eqb_spec ch k); try discriminate
           end; try contradiction.
Qed.

(** X30.  How a touchpoint gets its flags from its channel name, compared
    in lower case.  It is a joint touch (both flags) exactly when its type
    is demo_request, that is when the channel is "demo"; its stage
    influence is evaluation exactly for the two high-impact types; the
    channels trade_show, referral and direct_mail, like every channel name
    outside the two lists, carry neither flag, so such touchpoints never
    enter the sales-marketing split; and sales_call and phone are sales
    touches that keep the fallback type website_visit. *)
Theorem converted_touchpoint_flags (t : TouchpointObj) :
  let b := convert_touchpoint t in
  let ch := lower (tobj_channel t) in
  (is_sales_touch b && is_marketing_touch b = true
   <-> touchpoint_type b = DEMO_REQUEST)
  /\ (touchpoint_type b = DEMO_REQUEST <-> ch = "demo"%string)
  /\ (stage_influence b = EVALUATION
      <-> is_high_impact (touchpoint_type b) = true)
  /\ (str_in ch sales_channels = false ->
      str_in ch marketing_channels = false ->
      is_sales_touch b = false /\ is_marketing_touch b = false)
  /\ (ch = "trade_show"%string \/ ch = "referral"%string
      \/ ch = "direct_mail"%string ->
      is_sales_touch b = false /\ is_marketing_touch b = false)
  /\ (ch = "sales_call"%string \/ ch = "phone"%string ->
      touchpoint_type b = WEBSITE_VISIT
      /\ is_sales_touch b = true /\ is_marketing_touch b = false).
Proof.
  intros b ch. unfold b, convert_touchpoint. simpl. fold ch.
  generalize ch. clear b ch. intros ch.
  split; [|split; [|split; [|split; [|split]]]].
  - destruct (type_mapping_cases ch) as [[-> E]|[Hne E]].
    + split; reflexivity.
    + destruct (type_mapping ch) eqn:Et; simpl; try contradiction;
        (split; [|discriminate]);
        unfold str_in, sales_channels, marketing_channels; simpl;
        repeat match goal with
               | |- context [String.eqb ch ?k] =>
                   destruct (String.eqb_spec ch k); try subst ch;
                   try discriminate
               end; simpl; try discriminate; try contradiction.
  - destruct (type_mapping_cases ch) as [[-> E]|[Hne E]]; tauto.
  - destruct (type_mapping ch); simpl; split; try discriminate;
      reflexivity.
  - intros Hs Hm.
    destruct (type_mapping_cases ch) as [[-> E]|[Hne E]].
    + discriminate.
    + destruct (type_mapping ch); simpl; try contradiction; auto.
  - intros [-> | [-> | ->]]; split; reflexivity.
  - intros [-> | ->]; repeat split; reflexivity.
Qed.
